(** * CredSuvidha brand-kit generators: a shallow embedding

    The repository holds two scripts,
    [assets/brandkit/generate_brandkit_pptx.py] (python-pptx) and
    [assets/brandkit/generate_brandkit_pdf.py] (ReportLab).  Each builds an
    in-memory document from literal content and hands it to its library.

    The embedding keeps the document the scripts build: for the deck, the
    shapes added to every slide with their EMU geometry; for the PDF, the
    story of flowables and the canvas operations of the two page callbacks.
    Python numbers are modelled as they are: [int] as [Z], [float] as IEEE
    binary64 through the Standard Library's [SpecFloat]. *)

From Stdlib Require Import ZArith Lia Ascii String DecimalString.
From Stdlib Require Import Floats.SpecFloat.
From stdpp Require Import base list strings.

Local Open Scope Z_scope.

(** ** Exceptions *)

Inductive exn : Type :=
| ValueError
| OverflowError
| ZeroDivisionError
| FileNotFoundError
| JSONDecodeError.

Inductive result (A : Type) : Type :=
| Ok (a : A)
| Raise (e : exn).
Arguments Ok {A} a.
Arguments Raise {A} e.

Definition result_bind {A B : Type} (r : result A) (k : A -> result B) : result B :=
  match r with
  | Ok a => k a
  | Raise e => Raise e
  end.

(** A run returned, and what it returned satisfies [P]. *)
Definition returns {A : Type} (P : A -> Prop) (r : result A) : Prop :=
  match r with Ok a => P a | Raise _ => False end.

Declare Scope result_scope.
Delimit Scope result_scope with result.
Notation "'let!' x ':=' r 'in' k" := (result_bind r (fun x => k))
  (at level 10, x name, r at level 100, k at level 200) : result_scope.
Local Open Scope result_scope.

(** ** Python numbers *)

(** [float]: binary64, round to nearest even. *)
Module PyFloat.

Definition prec : Z := 53.
Definition emax : Z := 1024.

Definition float : Type := spec_float.

(** The binary64 nearest to the integer [n] (an infinity beyond the
    range). *)
Definition of_int (n : Z) : float := binary_normalize prec emax n 0 false.

Definition mul : float -> float -> float := SFmul prec emax.
Definition div : float -> float -> float := SFdiv prec emax.
Definition add : float -> float -> float := SFadd prec emax.
Definition sub : float -> float -> float := SFsub prec emax.

Definition is_finite (f : float) : bool :=
  match f with
  | S754_zero _ | S754_finite _ _ _ => true
  | S754_infinity _ | S754_nan => false
  end.

Definition is_zero (f : float) : bool :=
  match f with S754_zero _ => true | _ => false end.

(** [float(n)] for an [int] [n]: [OverflowError] beyond the range. *)
Definition float_of_int (n : Z) : result float :=
  if is_finite (of_int n) then Ok (of_int n) else Raise OverflowError.

(** [int(f)]: truncation toward zero; [OverflowError] on an infinity,
    [ValueError] on a NaN. *)
Definition to_int (f : float) : result Z :=
  match f with
  | S754_zero _ => Ok 0
  | S754_finite s m e =>
      let a := match e with
               | Zneg p => Z.shiftr (Zpos m) (Zpos p)
               | _ => Z.shiftl (Zpos m) e
               end in
      Ok (if s then - a else a)
  | S754_infinity _ => Raise OverflowError
  | S754_nan => Raise ValueError
  end.

(** [n * f] for an [int] [n] and a [float] [f]: [n] is converted first. *)
Definition int_mul (n : Z) (f : float) : result float :=
  let! x := float_of_int n in Ok (mul x f).

(** The integer [n] itself as a binary number, not rounded. *)
Definition exact (n : Z) : float :=
  match n with
  | Z0 => S754_zero false
  | Zpos p => S754_finite false p 0
  | Zneg p => S754_finite true p 0
  end.

(** [a / b] for two [int]s: the exact quotient rounded once;
    [ZeroDivisionError] for [b = 0], [OverflowError] when the quotient is
    beyond the range. *)
Definition int_truediv (a b : Z) : result float :=
  if (b =? 0)%Z then Raise ZeroDivisionError
  else let q := div (exact a) (exact b) in
       if is_finite q then Ok q else Raise OverflowError.

End PyFloat.

(** A Python number: an [int] or a [float]. *)
Inductive pynum : Type :=
| PInt (z : Z)
| PFloat (f : PyFloat.float).

Definition to_float (x : pynum) : PyFloat.float :=
  match x with
  | PInt z => PyFloat.of_int z
  | PFloat f => f
  end.

(** The arithmetic operators: [int] with [int] stays [int], anything with a
    [float] is computed in binary64.  These are the operators on literals
    and on the constants derived from them, all far inside the binary64
    range; [PyFloat.int_mul] is the checked product for a run-time [int]. *)
Definition py_add (x y : pynum) : pynum :=
  match x, y with
  | PInt a, PInt b => PInt (a + b)
  | _, _ => PFloat (PyFloat.add (to_float x) (to_float y))
  end.

Definition py_sub (x y : pynum) : pynum :=
  match x, y with
  | PInt a, PInt b => PInt (a - b)
  | _, _ => PFloat (PyFloat.sub (to_float x) (to_float y))
  end.

Definition py_mul (x y : pynum) : pynum :=
  match x, y with
  | PInt a, PInt b => PInt (a * b)
  | _, _ => PFloat (PyFloat.mul (to_float x) (to_float y))
  end.

(** [float(x)] for a number [x]. *)
Definition py_float (x : pynum) : result PyFloat.float :=
  match x with
  | PInt z => PyFloat.float_of_int z
  | PFloat f => Ok f
  end.

(** True division [x / y]: always a [float].  Two [int]s are divided
    exactly and the quotient rounded; otherwise both operands are converted
    to [float] first, and are divided as such. *)
Definition py_truediv (x y : pynum) : result pynum :=
  match x, y with
  | PInt a, PInt b => let! q := PyFloat.int_truediv a b in Ok (PFloat q)
  | _, _ =>
      let! fx := py_float x in
      let! fy := py_float y in
      if PyFloat.is_zero fy then Raise ZeroDivisionError
      else Ok (PFloat (PyFloat.div fx fy))
  end.

(** [int(x)]. *)
Definition py_int (x : pynum) : result Z :=
  match x with
  | PInt z => Ok z
  | PFloat f => PyFloat.to_int f
  end.

(** Decimal literals.  [5] is the [int] 5; [0.8] is the binary64 nearest to
    8/10, obtained as the correctly rounded quotient of the two exactly
    representable integers 8 and 10. *)
Fixpoint uint_length (d : Decimal.uint) : nat :=
  match d with
  | Decimal.Nil => 0%nat
  | Decimal.D0 d | Decimal.D1 d | Decimal.D2 d | Decimal.D3 d | Decimal.D4 d
  | Decimal.D5 d | Decimal.D6 d | Decimal.D7 d | Decimal.D8 d | Decimal.D9 d =>
      S (uint_length d)
  end.

Definition pynum_of_number (n : Number.number) : option pynum :=
  match n with
  | Number.Decimal (Decimal.Decimal i Decimal.Nil) => Some (PInt (Z.of_int i))
  | Number.Decimal (Decimal.Decimal i f) =>
      let digits := match i with
                    | Decimal.Pos u => Decimal.Pos (Decimal.app u f)
                    | Decimal.Neg u => Decimal.Neg (Decimal.app u f)
                    end in
      Some (PFloat (PyFloat.div (PyFloat.of_int (Z.of_int digits))
                                (PyFloat.of_int (10 ^ Z.of_nat (uint_length f)))))
  | _ => None
  end.

Definition number_of_pynum (x : pynum) : option Number.number := None.

Declare Scope py_scope.
Delimit Scope py_scope with py.
Bind Scope py_scope with pynum.
Number Notation pynum pynum_of_number number_of_pynum : py_scope.
Infix "+" := py_add : py_scope.
Infix "-" := py_sub : py_scope.
Infix "*" := py_mul : py_scope.

(** [x / d] for a non-zero literal [d]. *)
Definition py_div (x d : pynum) : pynum :=
  PFloat (PyFloat.div (to_float x) (to_float d)).
Infix "/" := py_div : py_scope.

(** The truth value of a number: zero is false. *)
Definition py_truthy (x : pynum) : bool :=
  match x with
  | PInt z => negb (z =? 0)%Z
  | PFloat f => negb (PyFloat.is_zero f)
  end.

(** ** Python strings *)

Definition nl : string := String (ascii_of_nat 10) EmptyString.
Definition dq : string := String (ascii_of_nat 34) EmptyString.

(** [str(n)] for an [int]. *)
Definition str_of_int (n : Z) : string := NilZero.string_of_int (Z.to_int n).

(** [s.upper()], on the ASCII letters (the only cased characters of the
    strings it is applied to in the scripts). *)
Definition upper_ascii (c : ascii) : ascii :=
  let n := nat_of_ascii c in
  if ((97 <=? n)%nat && (n <=? 122)%nat)%bool then ascii_of_nat (n - 32) else c.

Fixpoint upper (s : string) : string :=
  match s with
  | EmptyString => EmptyString
  | String c s' => String (upper_ascii c) (upper s')
  end.

(** [s[a:b]] for [0 <= a <= b]. *)
Definition slice (s : string) (a b : nat) : string := substring a (b - a) s.

(** [int(s, 16)] on strings of hexadecimal digits, [ValueError] otherwise.
    (Python also accepts a sign, surrounding blanks, a [0x] prefix and
    underscores between digits; the scripts pass two-digit slices of colour
    codes.) *)
Definition hex_digit (c : ascii) : option Z :=
  let n := Z.of_nat (nat_of_ascii c) in
  if ((48 <=? n)%Z && (n <=? 57)%Z)%bool then Some (n - 48)
  else if ((97 <=? n)%Z && (n <=? 102)%Z)%bool then Some (n - 87)
  else if ((65 <=? n)%Z && (n <=? 70)%Z)%bool then Some (n - 55)
  else None.

Fixpoint int16_from (acc : Z) (s : string) : option Z :=
  match s with
  | EmptyString => Some acc
  | String c s' =>
      match hex_digit c with
      | Some d => int16_from (16 * acc + d) s'
      | None => None
      end
  end.

Definition int16 (s : string) : result Z :=
  match s with
  | EmptyString => Raise ValueError
  | _ => match int16_from 0 s with
         | Some n => Ok n
         | None => Raise ValueError
         end
  end.

(** [enumerate(l)]. *)
Fixpoint enumerate_from {A : Type} (i : Z) (l : list A) : list (Z * A) :=
  match l with
  | [] => []
  | x :: l' => (i, x) :: enumerate_from (i + 1) l'
  end.

Definition enumerate {A : Type} (l : list A) : list (Z * A) := enumerate_from 0 l.

(** ** Statements

    The scripts are sequences of statements that mutate one object (a slide,
    a story, a canvas) and may raise.  [Prog S A] is such a sequence over a
    state [S], giving an [A]. *)
Definition Prog (S A : Type) : Type := S -> result (A * S).

Definition ret {S A : Type} (a : A) : Prog S A := fun s => Ok (a, s).

Definition bind {S A B : Type} (m : Prog S A) (k : A -> Prog S B) : Prog S B :=
  fun s => match m s with
           | Ok (a, s') => k a s'
           | Raise e => Raise e
           end.

(** A fallible expression evaluated inside a sequence. *)
Definition lift {S A : Type} (r : result A) : Prog S A :=
  fun s => match r with Ok a => Ok (a, s) | Raise e => Raise e end.

Declare Scope prog_scope.
Delimit Scope prog_scope with prog.
Notation "x <- m ;; k" := (bind m (fun x => k))
  (at level 100, m at next level, right associativity) : prog_scope.
Notation "m ;; k" := (bind m (fun _ => k))
  (at level 100, right associativity) : prog_scope.
Local Open Scope prog_scope.

(** [for x in l: body x] *)
Fixpoint for_each {S A : Type} (l : list A) (body : A -> Prog S unit) : Prog S unit :=
  match l with
  | [] => ret tt
  | x :: l' => body x ;; for_each l' body
  end.

(** [if cond: body] *)
Definition when {S : Type} (cond : bool) (body : Prog S unit) : Prog S unit :=
  if cond then body else ret tt.

(** [obj.append(x)] on a list. *)
Definition append {A : Type} (x : A) : Prog (list A) unit :=
  fun l => Ok (tt, l ++ [x]).

(** The state a sequence ends in. *)
Definition exec {S A : Type} (m : Prog S A) (s : S) : result S :=
  match m s with
  | Ok (_, s') => Ok s'
  | Raise e => Raise e
  end.

(** [datetime.now()], as far as the scripts read it: month and year. *)
Record datetime : Type := { dt_year : Z; dt_month : nat }.

Definition month_names : list string :=
  [ "January"; "February"; "March"; "April"; "May"; "June"; "July";
    "August"; "September"; "October"; "November"; "December" ].

(** [now.strftime('%B %Y')] (C locale, four-digit years). *)
Definition strftime_B_Y (now : datetime) : string :=
  nth (dt_month now - 1) month_names "" +:+ " " +:+ str_of_int (dt_year now).

(** ** What a run sees

    Both scripts look for [logo.png] and read the clock; the PDF script also
    opens [brand-tokens.json]. *)

(** [json.load(f)] gives a JSON value. *)
#[warnings="-register-all"]
Inductive json : Type :=
| JNull
| JBool (b : bool)
| JNumber (x : pynum)
| JString (s : string)
| JArray (items : list json)
| JObject (members : list (string * json)).

(** [brand-tokens.json] as a script would find it: missing, there but not
    JSON, or JSON. *)
Inductive tokens_file : Type :=
| TokensAbsent
| TokensMalformed
| TokensJson (value : json).

Record World : Type :=
  { brand_tokens : tokens_file;   (* assets/brandkit/brand-tokens.json *)
    logo_present : bool;          (* os.path.exists(LOGO_PATH), the file an image *)
    clock : datetime }.           (* datetime.now() *)

(** * The slide deck: [generate_brandkit_pptx.py] *)

Module Pptx.

(** ** python-pptx values *)

(** [pptx.util]: a length is an [int] count of English Metric Units.
    [Inches(x)] is [int(x * 914400)] and [Pt(x)] is [int(x * 12700)]; the
    conversion cannot raise on a literal (the [Raise] branch is for an
    infinity or a NaN). *)
Definition Inches (inches : pynum) : Z :=
  match py_int (inches * 914400)%py with Ok emu => emu | Raise _ => 0 end.

Definition Pt (points : pynum) : Z :=
  match py_int (points * 12700)%py with Ok emu => emu | Raise _ => 0 end.

(** [Pt(points)] on a run-time number: [int(points * 12700)] raises
    [ValueError] on a NaN and [OverflowError] on an infinity. *)
Definition Pt_of (points : pynum) : result Z := py_int (points * 12700)%py.

(** [Length.centipoints], [emu // 127], and [Centipoints(n)], the length of
    [n] hundredths of a point.  Font sizes and paragraph spacings are kept
    in centipoints. *)
Definition centipoints (emu : Z) : Z := emu / 127.
Definition Centipoints (n : Z) : Z := n * 127.

Record RGBColor : Type := RGB { red : Z; green : Z; blue : Z }.

(** [RGBColor(r, g, b)] on run-time values: each in 0..255. *)
Definition RGBColor_new (r g b : Z) : result RGBColor :=
  if forallb (fun v => (0 <=? v)%Z && (v <=? 255)%Z) [r; g; b]
  then Ok (RGB r g b) else Raise ValueError.

Inductive PP_ALIGN : Type := LEFT | CENTER | RIGHT.
Inductive MSO_SHAPE : Type := RECTANGLE | ROUNDED_RECTANGLE | OVAL.

Record Font : Type :=
  { f_name : string; f_size : Z; f_bold : bool; f_italic : bool;
    f_color : RGBColor }.

Record Run : Type := { run_text : string; run_font : Font }.

Record Paragraph : Type :=
  { p_alignment : option PP_ALIGN; p_space_after : option Z; p_runs : list Run }.

(** A fill: untouched, [solid()] with its foreground colour, or
    [background()] (no fill). *)
Inductive Fill : Type :=
| FillInherited
| FillSolid (fore_color : option RGBColor)
| FillBackground.

Record Line : Type := { line_fill : Fill; line_width : option Z }.

Inductive Shape : Type :=
| AutoShape (shape_type : MSO_SHAPE) (left top width height : Z)
            (fill : Fill) (line : Line)
| TextBox (left top width height : Z) (word_wrap : bool)
          (paragraphs : list Paragraph)
| Picture (image_file : string) (left top width : Z).

Record Slide : Type :=
  { background : Fill; shapes : list Shape; notes_text : option string }.

Record Presentation : Type :=
  { slide_width : Z; slide_height : Z; slides : list Slide }.

(** [Presentation()]: the default template, 10 in by 7.5 in, no slide. *)
Definition Presentation_new : Presentation :=
  {| slide_width := 9144000; slide_height := 6858000; slides := [] |}.

(** A slide added from layout 6 (blank). *)
Definition blank_slide : Slide :=
  {| background := FillInherited; shapes := []; notes_text := None |}.

(** ** Building a slide

    The builders mutate the slide they were given and the shapes they got
    back from it.  A computation on a slide threads the slide and may
    raise; a shape is referred to by its position in the shape tree. *)
Definition SlideM (A : Type) : Type := Prog Slide A.

Definition set_shapes (f : list Shape -> list Shape) : SlideM unit :=
  fun s => Ok (tt, {| background := background s; shapes := f (shapes s);
                      notes_text := notes_text s |}).

(** [slide.shapes.add_...]: the new shape goes last; its handle is its
    index. *)
Definition shapes_add (sh : Shape) : SlideM nat :=
  fun s => Ok (length (shapes s),
               {| background := background s; shapes := shapes s ++ [sh];
                  notes_text := notes_text s |}).

Definition update_line (f : Line -> Line) (sh : Shape) : Shape :=
  match sh with
  | AutoShape t l tp w h fl ln => AutoShape t l tp w h fl (f ln)
  | _ => sh
  end.

Definition update_fill (f : Fill -> Fill) (sh : Shape) : Shape :=
  match sh with
  | AutoShape t l tp w h fl ln => AutoShape t l tp w h (f fl) ln
  | _ => sh
  end.

(** [shape.fill.solid()] *)
Definition fill_solid (shape : nat) : SlideM unit :=
  set_shapes (alter (update_fill (fun _ => FillSolid None)) shape).

(** [shape.fill.fore_color.rgb = c] *)
Definition set_fill_fore_color (shape : nat) (c : RGBColor) : SlideM unit :=
  set_shapes (alter (update_fill (fun _ => FillSolid (Some c))) shape).

(** [shape.line.fill.background()] *)
Definition line_fill_background (shape : nat) : SlideM unit :=
  set_shapes (alter (update_line (fun ln =>
    {| line_fill := FillBackground; line_width := line_width ln |})) shape).

(** [shape.line.color.rgb = c] (reading [line.color] makes the line fill
    solid). *)
Definition set_line_color (shape : nat) (c : RGBColor) : SlideM unit :=
  set_shapes (alter (update_line (fun ln =>
    {| line_fill := FillSolid (Some c); line_width := line_width ln |})) shape).

(** [shape.line.width = w] *)
Definition set_line_width (shape : nat) (w : Z) : SlideM unit :=
  set_shapes (alter (update_line (fun ln =>
    {| line_fill := line_fill ln; line_width := Some w |})) shape).

(** [bg = slide.background; bg.fill.solid(); bg.fill.fore_color.rgb = c] *)
Definition set_background (c : RGBColor) : SlideM unit :=
  fun s => Ok (tt, {| background := FillSolid (Some c); shapes := shapes s;
                      notes_text := notes_text s |}).

(** [slide.notes_slide.notes_text_frame.text = t] *)
Definition set_notes (t : string) : SlideM unit :=
  fun s => Ok (tt, {| background := background s; shapes := shapes s;
                      notes_text := Some t |}).

(** ** Brand colours *)

Definition NAVY_DARK    := RGB 0x14 0x28 0x57.
Definition NAVY         := RGB 0x19 0x3F 0x8F.
Definition BLUE_PRIMARY := RGB 0x1A 0x6E 0xF5.
Definition BLUE_BRIGHT  := RGB 0x33 0x8D 0xFF.
Definition BLUE_LIGHT   := RGB 0x59 0xB0 0xFF.
Definition BLUE_PALE    := RGB 0xBC 0xE0 0xFF.
Definition BLUE_TINT    := RGB 0xEE 0xF7 0xFF.

Definition ACCENT_PRI   := RGB 0xF9 0x73 0x16.
Definition ACCENT_LT    := RGB 0xFB 0x92 0x3C.

Definition EMERALD      := RGB 0x10 0xB9 0x81.
Definition EMERALD_DK   := RGB 0x05 0x96 0x69.

Definition LOGO_NAVY    := RGB 0x1B 0x3A 0x5C.
Definition LOGO_GOLD    := RGB 0xC5 0x96 0x1E.
Definition LOGO_BG      := RGB 0xFA 0xF6 0xF1.

Definition TEXT_DARK    := RGB 0x1E 0x29 0x3B.
Definition TEXT_GRAY    := RGB 0x64 0x74 0x8B.
Definition TEXT_MUTED   := RGB 0x94 0xA3 0xB8.
Definition BORDER       := RGB 0xE2 0xE8 0xF0.
Definition BG_ALT       := RGB 0xF8 0xFA 0xFC.
Definition WHITE        := RGB 0xFF 0xFF 0xFF.
Definition BLACK        := RGB 0x00 0x00 0x00.

(** ** Helpers *)

(** [set_font(run, size_pt, bold, italic, color, name)]: the font the run
    ends up with.  [run.font.size = Pt(size_pt)] stores the size in
    centipoints and raises [ValueError] unless that is within 100..400000
    (1 pt to 4000 pt); [f_size] is the size read back, in EMU. *)
Definition set_font (size_pt : pynum) (is_bold is_italic : bool) (rgb : RGBColor)
    (name : string) : result Font :=
  let! emu := Pt_of size_pt in
  let sz := centipoints emu in
  if ((100 <=? sz)%Z && (sz <=? 400000)%Z)%bool
  then Ok {| f_name := name; f_size := Centipoints sz; f_bold := is_bold;
             f_italic := is_italic; f_color := rgb |}
  else Raise ValueError.

(** [add_shape_with_fill(slide, left, top, width, height, fill_color,
    shape_type=MSO_SHAPE.RECTANGLE)]; the shape type is always written out
    here. *)
Definition add_shape_with_fill (left top width height : Z) (fill_color : RGBColor)
    (shape_type : MSO_SHAPE) : SlideM nat :=
  shape <- shapes_add (AutoShape shape_type left top width height FillInherited
                         {| line_fill := FillInherited; line_width := None |}) ;;
  fill_solid shape ;;
  set_fill_fore_color shape fill_color ;;
  line_fill_background shape ;;
  ret shape.

(** The keyword arguments of [add_textbox], with their defaults
    [font_size=16, bold=False, italic=False, color=TEXT_DARK,
    alignment=PP_ALIGN.LEFT, font_name='Calibri']; a call lists the ones it
    passes, [kw_bold true] for [bold=True]. *)
Record TextKw : Type :=
  { font_size : pynum; bold : bool; italic : bool; color : RGBColor;
    alignment : PP_ALIGN; font_name : string }.

Definition text_defaults : TextKw :=
  {| font_size := 16; bold := false; italic := false; color := TEXT_DARK;
     alignment := LEFT; font_name := "Calibri" |}.

Definition kw_font_size (v : pynum) (k : TextKw) : TextKw :=
  {| font_size := v; bold := bold k; italic := italic k; color := color k;
     alignment := alignment k; font_name := font_name k |}.
Definition kw_bold (v : bool) (k : TextKw) : TextKw :=
  {| font_size := font_size k; bold := v; italic := italic k; color := color k;
     alignment := alignment k; font_name := font_name k |}.
Definition kw_italic (v : bool) (k : TextKw) : TextKw :=
  {| font_size := font_size k; bold := bold k; italic := v; color := color k;
     alignment := alignment k; font_name := font_name k |}.
Definition kw_color (v : RGBColor) (k : TextKw) : TextKw :=
  {| font_size := font_size k; bold := bold k; italic := italic k; color := v;
     alignment := alignment k; font_name := font_name k |}.
Definition kw_alignment (v : PP_ALIGN) (k : TextKw) : TextKw :=
  {| font_size := font_size k; bold := bold k; italic := italic k; color := color k;
     alignment := v; font_name := font_name k |}.
Definition kw_font_name (v : string) (k : TextKw) : TextKw :=
  {| font_size := font_size k; bold := bold k; italic := italic k; color := color k;
     alignment := alignment k; font_name := v |}.

Definition keywords (kws : list (TextKw -> TextKw)) : TextKw :=
  fold_left (fun k f => f k) kws text_defaults.

(** [add_textbox(slide, left, top, width, height, text, **kw)]: a
    word-wrapped text box whose first paragraph has the alignment and one
    run with the text and the font.  (The box is on the slide before
    [set_font] can raise; a raise ends the build, and the slide with it.) *)
Definition add_textbox (left top width height : Z) (text : string)
    (kws : list (TextKw -> TextKw)) : SlideM nat :=
  let k := keywords kws in
  font <- lift (set_font (font_size k) (bold k) (italic k) (color k) (font_name k)) ;;
  shapes_add (TextBox left top width height true
    [ {| p_alignment := Some (alignment k); p_space_after := None;
         p_runs := [ {| run_text := text; run_font := font |} ] |} ]).

(** The paragraph [add_bullet_list] makes of one item:
    [p.space_after = spacing] stores the spacing in centipoints and raises
    [ValueError] unless [spacing] is within 0..20116800; then the bullet
    run and the run of the item. *)
Definition bullet_paragraph (size_pt : pynum) (rgb : RGBColor)
    (bullet_color : option RGBColor) (spacing : Z) (item : string) : result Paragraph :=
  if negb ((0 <=? spacing)%Z && (spacing <=? 20116800)%Z) then Raise ValueError
  else
    let! bullet_font := set_font (size_pt - 2)%py false false
                          (default BLUE_PRIMARY bullet_color) "Calibri" in
    let! font := set_font size_pt false false rgb "Calibri" in
    Ok {| p_alignment := None;
          p_space_after := Some (Centipoints (centipoints spacing));
          p_runs := [ {| run_text := "●  "; run_font := bullet_font |};
                      {| run_text := item; run_font := font |} ] |}.

(** The paragraphs of the items, in order, up to the first raise. *)
Fixpoint bullet_paragraphs (size_pt : pynum) (rgb : RGBColor)
    (bullet_color : option RGBColor) (spacing : Z) (items : list string)
    : result (list Paragraph) :=
  match items with
  | [] => Ok []
  | item :: rest =>
      let! p := bullet_paragraph size_pt rgb bullet_color spacing item in
      let! ps := bullet_paragraphs size_pt rgb bullet_color spacing rest in
      Ok (p :: ps)
  end.

(** [add_bullet_list(slide, left, top, width, height, items, font_size=14,
    color=TEXT_DARK, bullet_color=None, spacing=Pt(6))]: one paragraph per
    item, a bullet run then the item; without items the box keeps the
    empty paragraph it is made with.  (No slide builder calls it.) *)
Definition add_bullet_list (left top width height : Z) (items : list string)
    (size_pt : pynum) (rgb : RGBColor) (bullet_color : option RGBColor)
    (spacing : Z) : SlideM nat :=
  paragraphs <- lift (bullet_paragraphs size_pt rgb bullet_color spacing items) ;;
  shapes_add (TextBox left top width height true
    (match paragraphs with
     | [] => [ {| p_alignment := None; p_space_after := None; p_runs := [] |} ]
     | _ => paragraphs
     end)).

(** [add_accent_bar(slide, top=Inches(0), color=BLUE_PRIMARY, height=Pt(4))] *)
Definition add_accent_bar (top : Z) (rgb : RGBColor) (height : Z) : SlideM unit :=
  add_shape_with_fill (Inches 0) top (Inches 13.333) height rgb RECTANGLE ;;
  ret tt.

(** [add_footer_bar(slide)] *)
Definition add_footer_bar : SlideM unit :=
  bar <- add_shape_with_fill (Inches 0) (Inches 7.08) (Inches 13.333) (Inches 0.42)
           NAVY_DARK RECTANGLE ;;
  add_textbox (Inches 0.4) (Inches 7.13) (Inches 5) (Inches 0.3)
    "CredSuvidha — Trusted Partner. Swift Solutions."
    [kw_font_size 9; kw_color BLUE_LIGHT; kw_italic true] ;;
  add_textbox (Inches 9.5) (Inches 7.13) (Inches 3.5) (Inches 0.3)
    "www.credsuvidha.com"
    [kw_font_size 9; kw_color LOGO_GOLD; kw_alignment RIGHT] ;;
  ret tt.

(** [add_slide_number(slide, number, total=12)] *)
Definition add_slide_number (number total : Z) : SlideM unit :=
  add_textbox (Inches 6.2) (Inches 7.15) (Inches 1) (Inches 0.25)
    (str_of_int number +:+ "/" +:+ str_of_int total)
    [kw_font_size 9; kw_color WHITE; kw_alignment CENTER] ;;
  ret tt.

(** [slide.shapes.add_picture(image_file, left, top, width=width)]: the
    library derives the height from the image.  The file is taken to be an
    image the library loads: the scripts test that it exists and nothing
    else, and a file that is there but is no image is not among the runs
    described here (see [logo_present]). *)
Definition add_picture (image_file : string) (left top width : Z) : SlideM nat :=
  shapes_add (Picture image_file left top width).

(** A slide builder: [prs.slides.add_slide(prs.slide_layouts[6])], then the
    body on the new slide. *)
Definition Builder : Type := Presentation -> result Presentation.

Definition new_slide (body : SlideM unit) : Builder :=
  fun prs =>
    match body blank_slide with
    | Ok (_, slide) =>
        Ok {| slide_width := slide_width prs; slide_height := slide_height prs;
              slides := slides prs ++ [slide] |}
    | Raise e => Raise e
    end.

#[global] Instance RGBColor_eq_dec : EqDecision RGBColor.
Proof. solve_decision. Defined.

Section Builders.

(** What the builders read from outside: whether [LOGO_PATH] exists
    ([os.path.exists]), and the clock.  [LOGO_PATH] is [logo.png] two
    directories above the script. *)
Variable LOGO_PATH : string.
Variable logo_exists : bool.
Variable now : datetime.

(** [add_logo_header(slide)] *)
Definition add_logo_header : SlideM unit :=
  when logo_exists (
    add_picture LOGO_PATH (Inches 10.8) (Inches 0.2) (Inches 2.2) ;;
    ret tt).

(** ** Slide 1: title *)
Definition build_title_slide : Builder := new_slide (
  set_background NAVY_DARK ;;

  add_shape_with_fill (Inches 0) (Inches 4.5) (Inches 6.667) (Pt 5) BLUE_PRIMARY RECTANGLE ;;
  add_shape_with_fill (Inches 6.667) (Inches 4.5) (Inches 6.666) (Pt 5) LOGO_GOLD RECTANGLE ;;

  when logo_exists (
    add_picture LOGO_PATH (Inches 3.8) (Inches 0.6) (Inches 5.5) ;;
    ret tt) ;;

  add_textbox (Inches 1) (Inches 4.7) (Inches 11.333) (Inches 0.8)
    "Brand Kit" [kw_font_size 40; kw_bold true; kw_color WHITE; kw_alignment CENTER] ;;

  add_textbox (Inches 1) (Inches 5.4) (Inches 11.333) (Inches 0.6)
    "Visual Identity & Brand Guidelines"
    [kw_font_size 20; kw_color BLUE_LIGHT; kw_alignment CENTER] ;;

  add_textbox (Inches 1) (Inches 6.1) (Inches 11.333) (Inches 0.4)
    ("Version 1.0  •  " +:+ strftime_B_Y now +:+ "  •  www.credsuvidha.com")
    [kw_font_size 11; kw_italic true; kw_color TEXT_MUTED; kw_alignment CENTER] ;;

  add_shape_with_fill (Inches 0) (Inches 7.2) (Inches 13.333) (Inches 0.3) BLUE_PRIMARY RECTANGLE ;;

  set_notes ("[KEY POINT]: Welcome to the CredSuvidha Brand Kit presentation." +:+ nl +:+
             "[DATA]: This guide covers our visual identity including logo, colors, typography, " +:+
             "and UI components." +:+ nl +:+
             "[TRANSITION]: Let's start with an overview of our brand.")).

(** ** Slide 2: brand overview *)

(** The loop over the four key-figure cards; [card_width], [card_height],
    [start_x], [spacing] and [card_y] are the builder's locals. *)
Definition brand_overview_cards (card_width card_height start_x spacing card_y : Z)
    (stats : list (string * string * RGBColor)) : SlideM unit :=
  for_each (enumerate stats) (fun '(i, (number, label, color)) =>
    let x := start_x + i * (card_width + spacing) in

    card <- add_shape_with_fill x card_y card_width card_height WHITE RECTANGLE ;;
    set_line_color card BORDER ;;
    set_line_width card (Pt 0.5) ;;

    add_shape_with_fill x card_y card_width (Pt 4) color RECTANGLE ;;

    add_textbox x (card_y + Inches 0.2) card_width (Inches 0.6)
      number [kw_font_size 28; kw_bold true; kw_color color; kw_alignment CENTER] ;;

    add_textbox x (card_y + Inches 0.85) card_width (Inches 0.4)
      label [kw_font_size 12; kw_color TEXT_GRAY; kw_alignment CENTER] ;;
    ret tt).

Definition build_brand_overview : Builder := new_slide (
  set_background BG_ALT ;;

  add_accent_bar (Inches 0) BLUE_PRIMARY (Pt 4) ;;
  add_logo_header ;;
  add_footer_bar ;;
  add_slide_number 2 12 ;;

  add_textbox (Inches 0.8) (Inches 0.5) (Inches 8) (Inches 0.7)
    "Brand Overview" [kw_font_size 32; kw_bold true; kw_color NAVY_DARK] ;;

  mission_box <- add_shape_with_fill (Inches 0.8) (Inches 1.4) (Inches 11.7) (Inches 1.0)
                   BLUE_TINT RECTANGLE ;;
  set_line_color mission_box BLUE_PRIMARY ;;
  set_line_width mission_box (Pt 1) ;;

  add_textbox (Inches 1.2) (Inches 1.5) (Inches 11) (Inches 0.8)
    (dq +:+ "Smart Financial Solutions for a Better Tomorrow" +:+ dq)
    [kw_font_size 22; kw_bold true; kw_color NAVY_DARK; kw_alignment CENTER] ;;

  font1 <- lift (set_font 18 true false NAVY_DARK "Calibri") ;;
  font2 <- lift (set_font 18 true false LOGO_GOLD "Calibri") ;;
  shapes_add (TextBox (Inches 0.8) (Inches 2.5) (Inches 11.7) (Inches 0.5) true
    [ {| p_alignment := Some CENTER; p_space_after := None;
         p_runs :=
           [ {| run_text := "Trusted Partner. "; run_font := font1 |};
             {| run_text := "Swift Solutions."; run_font := font2 |} ] |} ]) ;;

  let stats :=
    [ ("500+ Cr", "Loans Disbursed", BLUE_PRIMARY);
      ("10,000+", "Happy Customers", LOGO_GOLD);
      ("50+", "Banking Partners", EMERALD);
      ("24/7", "Expert Support", ACCENT_PRI) ] in

  let card_width := Inches 2.6 in
  let card_height := Inches 1.5 in
  let start_x := Inches 0.8 in
  let spacing := Inches 0.2 in
  let card_y := Inches 3.3 in

  brand_overview_cards card_width card_height start_x spacing card_y stats ;;

  add_textbox (Inches 0.8) (Inches 5.2) (Inches 11.7) (Inches 1.0)
    ("CredSuvidha is a modern financial services facilitator providing smart solutions across " +:+
     "loans, credit cards, and insurance. We partner with 50+ banks to offer the best rates " +:+
     "and fastest approvals for every Indian customer.")
    [kw_font_size 13; kw_color TEXT_GRAY; kw_alignment CENTER] ;;

  badge <- add_shape_with_fill (Inches 5.0) (Inches 6.3) (Inches 3.3) (Inches 0.35)
             BLUE_PRIMARY ROUNDED_RECTANGLE ;;
  add_textbox (Inches 5.0) (Inches 6.32) (Inches 3.3) (Inches 0.3)
    "Financial Services (Fintech)"
    [kw_font_size 11; kw_bold true; kw_color WHITE; kw_alignment CENTER] ;;

  set_notes ("[KEY POINT]: CredSuvidha is a fintech facilitator providing loans, credit cards, and insurance." +:+ nl +:+
             "[DATA]: 500+ Cr disbursed, 10K+ customers, 50+ banking partners, 24/7 support." +:+ nl +:+
             "[TRANSITION]: Let's look at our visual identity starting with the logo.")).

(** ** Slide 3: logo guidelines *)

Definition logo_elements_rows (elements : list (string * string)) : SlideM unit :=
  for_each (enumerate elements) (fun '(i, (label, desc)) =>
    let y := Inches 5.25 + i * Inches 0.35 in
    add_textbox (Inches 1.0) y (Inches 1.5) (Inches 0.3)
      ("● " +:+ label +:+ ":") [kw_font_size 11; kw_bold true; kw_color BLUE_PRIMARY] ;;
    add_textbox (Inches 2.6) y (Inches 4.5) (Inches 0.3)
      desc [kw_font_size 11; kw_color TEXT_DARK] ;;
    ret tt).

Definition logo_dos_rows (dos : list string) : SlideM unit :=
  for_each (enumerate dos) (fun '(i, item) =>
    add_textbox (Inches 7.7) (Inches 5.3 + i * Inches 0.32) (Inches 5) (Inches 0.3)
      ("●  " +:+ item) [kw_font_size 10; kw_color TEXT_DARK] ;;
    ret tt).

Definition logo_donts_rows (donts : list string) : SlideM unit :=
  for_each (enumerate donts) (fun '(i, item) =>
    add_textbox (Inches 10.4) (Inches 5.3 + i * Inches 0.32) (Inches 3) (Inches 0.3)
      ("●  " +:+ item) [kw_font_size 10; kw_color TEXT_DARK] ;;
    ret tt).

Definition build_logo_slide : Builder := new_slide (
  set_background BG_ALT ;;

  add_accent_bar (Inches 0) BLUE_PRIMARY (Pt 4) ;;
  add_logo_header ;;
  add_footer_bar ;;
  add_slide_number 3 12 ;;

  add_textbox (Inches 0.8) (Inches 0.5) (Inches 8) (Inches 0.7)
    "Logo" [kw_font_size 32; kw_bold true; kw_color NAVY_DARK] ;;

  add_textbox (Inches 0.8) (Inches 1.1) (Inches 11.7) (Inches 0.5)
    "Interlocking C and S letterforms with an upward growth arrow — symbolizing financial progress and partnership."
    [kw_font_size 13; kw_color TEXT_GRAY] ;;

  when logo_exists (
    card1 <- add_shape_with_fill (Inches 0.8) (Inches 1.8) (Inches 5.4) (Inches 2.8)
               WHITE RECTANGLE ;;
    set_line_color card1 BORDER ;; set_line_width card1 (Pt 0.5) ;;
    add_picture LOGO_PATH (Inches 1.5) (Inches 2.0) (Inches 4.0) ;;
    add_textbox (Inches 0.8) (Inches 4.3) (Inches 5.4) (Inches 0.3)
      "Primary — Light Background"
      [kw_font_size 10; kw_color TEXT_MUTED; kw_alignment CENTER] ;;

    card2 <- add_shape_with_fill (Inches 6.5) (Inches 1.8) (Inches 5.9) (Inches 2.8)
               LOGO_BG RECTANGLE ;;
    set_line_color card2 BORDER ;; set_line_width card2 (Pt 0.5) ;;
    add_picture LOGO_PATH (Inches 7.4) (Inches 2.0) (Inches 4.0) ;;
    add_textbox (Inches 6.5) (Inches 4.3) (Inches 5.9) (Inches 0.3)
      "On Brand Cream — #FAF6F1"
      [kw_font_size 10; kw_color TEXT_MUTED; kw_alignment CENTER] ;;
    ret tt) ;;

  add_textbox (Inches 0.8) (Inches 4.85) (Inches 4) (Inches 0.4)
    "Logo Elements" [kw_font_size 16; kw_bold true; kw_color NAVY_DARK] ;;

  let elements :=
    [ ("Symbol", "Interlocking C (navy) & S (gold) with upward arrow");
      ("Wordmark", dq +:+ "CREDSUVIDHA.COM" +:+ dq +:+ " in navy blue uppercase");
      ("Tagline", dq +:+ "TRUSTED PARTNER. SWIFT SOLUTIONS." +:+ dq +:+ " in gold");
      ("Min Size", "120px wide (digital) / 30mm (print)") ] in

  logo_elements_rows elements ;;

  add_textbox (Inches 7.5) (Inches 4.85) (Inches 2.5) (Inches 0.4)
    "✓  Do" [kw_font_size 16; kw_bold true; kw_color EMERALD_DK] ;;

  let dos := [ "Use on white, cream, or light backgrounds";
               "Use inverted version on dark backgrounds";
               "Maintain proportions when scaling" ] in
  logo_dos_rows dos ;;

  add_textbox (Inches 10.2) (Inches 4.85) (Inches 2.5) (Inches 0.4)
    "✗  Don't" [kw_font_size 16; kw_bold true; kw_color (RGB 0xDC 0x26 0x26)] ;;

  let donts := [ "Stretch or distort the logo";
                 "Change the logo colors";
                 "Place on busy backgrounds" ] in
  logo_donts_rows donts ;;

  set_notes ("[KEY POINT]: The logo features interlocking C and S with a growth arrow." +:+ nl +:+
             "[DATA]: Navy blue = trust/stability, Gold = prosperity/value." +:+ nl +:+
             "[TRANSITION]: Now let's examine our color palette in detail.")).

(** ** Slide 4: colour palette *)

(** [r, g, b = int(hex_code[1:3], 16), int(hex_code[3:5], 16),
    int(hex_code[5:7], 16)] *)
Definition hex_channels (hex_code : string) : result (Z * Z * Z) :=
  let! r := int16 (slice hex_code 1 3) in
  let! g := int16 (slice hex_code 3 5) in
  let! b := int16 (slice hex_code 5 7) in
  Ok (r, g, b).

Definition palette_brand_blues (sw sh sx sy : Z) (brand_blues : list (string * string))
    : SlideM unit :=
  for_each (enumerate brand_blues) (fun '(i, (hex_code, label)) =>
    let x := sx + i * (sw + Inches 0.08) in
    channels <- lift (hex_channels hex_code) ;;
    let '(r, g, b) := channels in
    rgb <- lift (RGBColor_new r g b) ;;
    swatch <- add_shape_with_fill x sy sw sh rgb RECTANGLE ;;
    set_line_color swatch BORDER ;; set_line_width swatch (Pt 0.5) ;;

    let text_col := if (r + g + b <? 400)%Z then WHITE else TEXT_DARK in
    add_textbox x (sy + sh + Pt 2) sw (Inches 0.2)
      label [kw_font_size 8; kw_bold true; kw_color TEXT_GRAY; kw_alignment CENTER] ;;
    add_textbox x (sy + sh + Inches 0.18) sw (Inches 0.2)
      (upper hex_code) [kw_font_size 7; kw_color TEXT_MUTED; kw_alignment CENTER] ;;
    ret tt).

Definition palette_logo_colors (logo_colors : list (string * string)) : SlideM unit :=
  for_each (enumerate logo_colors) (fun '(i, (hex_code, label)) =>
    let x := Inches 0.8 + i * Inches 2.5 in
    channels <- lift (hex_channels hex_code) ;;
    let '(r, g, b) := channels in
    rgb <- lift (RGBColor_new r g b) ;;
    swatch <- add_shape_with_fill x (Inches 3.4) (Inches 2.2) (Inches 0.55) rgb RECTANGLE ;;
    set_line_color swatch BORDER ;; set_line_width swatch (Pt 0.5) ;;
    add_textbox x (Inches 3.98) (Inches 2.2) (Inches 0.3)
      (label +:+ "  " +:+ hex_code)
      [kw_font_size 9; kw_color TEXT_GRAY; kw_alignment CENTER] ;;
    ret tt).

Definition palette_accent_colors (accent_colors : list (string * string)) : SlideM unit :=
  for_each (enumerate accent_colors) (fun '(i, (hex_code, label)) =>
    let x := Inches 0.8 + i * (Inches 2.0 + Inches 0.08) in
    channels <- lift (hex_channels hex_code) ;;
    let '(r, g, b) := channels in
    rgb <- lift (RGBColor_new r g b) ;;
    swatch <- add_shape_with_fill x (Inches 4.8) (Inches 2.0) (Inches 0.55) rgb RECTANGLE ;;
    set_line_color swatch BORDER ;; set_line_width swatch (Pt 0.5) ;;
    let text_col := if (r + g + b <? 400)%Z then WHITE else TEXT_DARK in
    add_textbox x (Inches 5.38) (Inches 2.0) (Inches 0.25)
      (label +:+ "  " +:+ upper hex_code)
      [kw_font_size 8; kw_color TEXT_GRAY; kw_alignment CENTER] ;;
    ret tt).

Definition palette_emerald_colors (emerald_colors : list (string * string)) : SlideM unit :=
  for_each (enumerate emerald_colors) (fun '(i, (hex_code, label)) =>
    let x := Inches 0.8 + i * Inches 2.5 in
    channels <- lift (hex_channels hex_code) ;;
    let '(r, g, b) := channels in
    rgb <- lift (RGBColor_new r g b) ;;
    swatch <- add_shape_with_fill x (Inches 6.1) (Inches 2.2) (Inches 0.5) rgb RECTANGLE ;;
    set_line_color swatch BORDER ;; set_line_width swatch (Pt 0.5) ;;
    add_textbox x (Inches 6.63) (Inches 2.2) (Inches 0.25)
      (label +:+ "  " +:+ upper hex_code)
      [kw_font_size 8; kw_color TEXT_GRAY; kw_alignment CENTER] ;;
    ret tt).

Definition build_color_palette_slide : Builder := new_slide (
  set_background BG_ALT ;;

  add_accent_bar (Inches 0) BLUE_PRIMARY (Pt 4) ;;
  add_logo_header ;;
  add_footer_bar ;;
  add_slide_number 4 12 ;;

  add_textbox (Inches 0.8) (Inches 0.5) (Inches 8) (Inches 0.7)
    "Color Palette" [kw_font_size 32; kw_bold true; kw_color NAVY_DARK] ;;

  add_textbox (Inches 0.8) (Inches 1.1) (Inches 11.7) (Inches 0.4)
    "Built around trust (navy blue), warmth (gold/amber), energy (orange), and growth (emerald green)."
    [kw_font_size 13; kw_color TEXT_GRAY] ;;

  add_textbox (Inches 0.8) (Inches 1.6) (Inches 3) (Inches 0.3)
    "Primary — Brand Blue" [kw_font_size 14; kw_bold true; kw_color NAVY_DARK] ;;

  let brand_blues :=
    [ ("#142857", "950"); ("#193f8f", "900"); ("#1747b6", "800"); ("#1458e1", "700");
      ("#1a6ef5", "600★"); ("#338dff", "500"); ("#59b0ff", "400");
      ("#8ecdff", "300"); ("#bce0ff", "200"); ("#eef7ff", "50") ] in

  let sw := Inches 1.15 in
  let sh := Inches 0.65 in
  let sx := Inches 0.8 in
  let sy := Inches 1.95 in

  palette_brand_blues sw sh sx sy brand_blues ;;

  add_textbox (Inches 0.8) (Inches 3.1) (Inches 4) (Inches 0.3)
    "Logo Colors" [kw_font_size 14; kw_bold true; kw_color NAVY_DARK] ;;

  let logo_colors := [ ("#1B3A5C", "Logo Navy"); ("#C5961E", "Logo Gold"); ("#FAF6F1", "Logo BG") ] in
  palette_logo_colors logo_colors ;;

  add_textbox (Inches 0.8) (Inches 4.45) (Inches 4) (Inches 0.3)
    "Accent — Orange" [kw_font_size 14; kw_bold true; kw_color NAVY_DARK] ;;

  let accent_colors :=
    [ ("#c2410c", "700"); ("#ea580c", "600"); ("#f97316", "500★");
      ("#fb923c", "400"); ("#fdba74", "300"); ("#fff7ed", "50") ] in
  palette_accent_colors accent_colors ;;

  add_textbox (Inches 0.8) (Inches 5.8) (Inches 4) (Inches 0.3)
    "Success — Emerald Green" [kw_font_size 14; kw_bold true; kw_color NAVY_DARK] ;;

  let emerald_colors :=
    [ ("#059669", "600"); ("#10b981", "500"); ("#34d399", "400"); ("#ecfdf5", "50") ] in
  palette_emerald_colors emerald_colors ;;

  set_notes ("[KEY POINT]: Our color system has 4 families — brand blue, logo colors, accent orange, emerald." +:+ nl +:+
             "[DATA]: Primary brand color is #1A6EF5 (Brand 600). Logo uses #1B3A5C navy and #C5961E gold." +:+ nl +:+
             "[TRANSITION]: Next, let's look at our gradient specifications.")).

(** ** Slide 5: gradients *)

(** [int(total_w * fraction)]: [total_w] is an [int] length; a stop's
    fraction is whatever number the list holds. *)
Definition segment_width (total_w : Z) (fraction : pynum) : result Z :=
  match fraction with
  | PInt k => Ok (total_w * k)
  | PFloat f => let! product := PyFloat.int_mul total_w f in PyFloat.to_int product
  end.

(** The inner loop, "simulate gradient with segments": [cx] starts at the
    card's [x] and advances by each segment's width. *)
Fixpoint gradient_segments (total_w card_h y cx : Z)
    (color_stops : list (RGBColor * pynum)) : SlideM unit :=
  match color_stops with
  | [] => ret tt
  | (color, fraction) :: rest =>
      seg_w <- lift (segment_width total_w fraction) ;;
      seg <- add_shape_with_fill cx y seg_w card_h color RECTANGLE ;;
      line_fill_background seg ;;
      gradient_segments total_w card_h y (cx + seg_w) rest
  end.

(** Where card [i] of the gradients slide goes: two columns, filled top
    to bottom, three rows each. *)
Definition gradients_origin (card_w card_h start_y i : Z) : Z * Z :=
  let col := if (i <? 3)%Z then 0 else 1 in
  let row := i mod 3 in
  let x := Inches 0.8 + col * (card_w + Inches 0.3) in
  let y := start_y + row * (card_h + Inches 0.55) in
  (x, y).

Definition gradients_cards (card_w card_h start_y : Z)
    (gradients : list (string * string * list (RGBColor * pynum))) : SlideM unit :=
  for_each (enumerate gradients) (fun '(i, (name, css, color_stops)) =>
    let '(x, y) := gradients_origin card_w card_h start_y i in

    let total_w := card_w in
    gradient_segments total_w card_h y x color_stops ;;

    add_textbox x (y + card_h + Pt 2) card_w (Inches 0.2)
      name [kw_font_size 11; kw_bold true; kw_color NAVY_DARK] ;;
    add_textbox x (y + card_h + Inches 0.22) card_w (Inches 0.2)
      css [kw_font_size 8; kw_color TEXT_MUTED] ;;
    ret tt).

Definition build_gradients_slide : Builder := new_slide (
  set_background BG_ALT ;;

  add_accent_bar (Inches 0) BLUE_PRIMARY (Pt 4) ;;
  add_logo_header ;;
  add_footer_bar ;;
  add_slide_number 5 12 ;;

  add_textbox (Inches 0.8) (Inches 0.5) (Inches 8) (Inches 0.7)
    "Gradients" [kw_font_size 32; kw_bold true; kw_color NAVY_DARK] ;;

  add_textbox (Inches 0.8) (Inches 1.1) (Inches 11.7) (Inches 0.4)
    "Signature gradients used across buttons, backgrounds, and accent elements."
    [kw_font_size 13; kw_color TEXT_GRAY] ;;

  let gradients :=
    [ ("Primary CTA", "linear-gradient(135deg, #1a6ef5, #338dff)",
       [(BLUE_PRIMARY, 0.5%py); (BLUE_BRIGHT, 0.5%py)]);
      ("Hero / Header", "linear-gradient(135deg, #142857 → #1a6ef5 → #338dff)",
       [(NAVY_DARK, 0.33%py); (BLUE_PRIMARY, 0.34%py); (BLUE_BRIGHT, 0.33%py)]);
      ("Accent CTA", "linear-gradient(135deg, #f97316, #fb923c)",
       [(ACCENT_PRI, 0.5%py); (ACCENT_LT, 0.5%py)]);
      ("Gradient Text", "linear-gradient(135deg, #1a6ef5 → #338dff → #f97316)",
       [(BLUE_PRIMARY, 0.33%py); (BLUE_BRIGHT, 0.34%py); (ACCENT_PRI, 0.33%py)]);
      ("Success", "linear-gradient(135deg, #059669, #10b981)",
       [(EMERALD_DK, 0.5%py); (EMERALD, 0.5%py)]);
      ("Logo Badge", "linear-gradient(to bottom right, #1a6ef5, #59b0ff)",
       [(BLUE_PRIMARY, 0.5%py); (BLUE_LIGHT, 0.5%py)]) ] in

  let card_w := Inches 5.8 in
  let card_h := Inches 0.7 in
  let start_y := Inches 1.65 in

  gradients_cards card_w card_h start_y gradients ;;

  set_notes ("[KEY POINT]: We have 6 signature gradients for different use cases." +:+ nl +:+
             "[DATA]: Primary CTA uses brand-600 → brand-500, Hero uses navy → brand-600 → brand-500." +:+ nl +:+
             "[TRANSITION]: Let's examine our typography system.")).

(** ** Slide 6: typography *)

Definition typography_weights (weights : list (string * bool)) : SlideM unit :=
  for_each (enumerate weights) (fun '(i, (weight, bold)) =>
    let y := Inches 2.55 + i * Inches 0.35 in
    add_textbox (Inches 1.2) y (Inches 1.8) (Inches 0.3)
      weight [kw_font_size 10; kw_color TEXT_MUTED] ;;
    add_textbox (Inches 3.0) y (Inches 5) (Inches 0.3)
      "Smart Financial Solutions for a Better Tomorrow"
      [kw_font_size 13; kw_bold bold; kw_color TEXT_DARK] ;;
    ret tt).

Definition typography_scale (scale_items : list (string * string * string)) : SlideM unit :=
  for_each (enumerate scale_items) (fun '(i, (element, size, weight)) =>
    let y := Inches 2.2 + i * Inches 0.52 in
    add_textbox (Inches 8.8) y (Inches 1.5) (Inches 0.25)
      element [kw_font_size 11; kw_bold true; kw_color BLUE_PRIMARY] ;;
    add_textbox (Inches 10.3) y (Inches 1.0) (Inches 0.25)
      size [kw_font_size 10; kw_color TEXT_DARK] ;;
    add_textbox (Inches 11.3) y (Inches 1.3) (Inches 0.25)
      weight [kw_font_size 10; kw_color TEXT_GRAY] ;;
    ret tt).

Definition build_typography_slide : Builder := new_slide (
  set_background BG_ALT ;;

  add_accent_bar (Inches 0) BLUE_PRIMARY (Pt 4) ;;
  add_logo_header ;;
  add_footer_bar ;;
  add_slide_number 6 12 ;;

  add_textbox (Inches 0.8) (Inches 0.5) (Inches 8) (Inches 0.7)
    "Typography" [kw_font_size 32; kw_bold true; kw_color NAVY_DARK] ;;

  add_textbox (Inches 0.8) (Inches 1.1) (Inches 11.7) (Inches 0.4)
    "Dual typeface system — clean sans-serif for body, elegant serif for display."
    [kw_font_size 13; kw_color TEXT_GRAY] ;;

  inter_box <- add_shape_with_fill (Inches 0.8) (Inches 1.65) (Inches 7.5) (Inches 3.2)
                 WHITE RECTANGLE ;;
  set_line_color inter_box BORDER ;; set_line_width inter_box (Pt 0.5) ;;

  add_textbox (Inches 1.0) (Inches 1.75) (Inches 7) (Inches 0.4)
    "Inter — Primary Typeface (Sans-Serif)"
    [kw_font_size 18; kw_bold true; kw_color BLUE_PRIMARY] ;;

  add_textbox (Inches 1.0) (Inches 2.15) (Inches 7) (Inches 0.3)
    "Body text, navigation, buttons, labels, all UI elements"
    [kw_font_size 11; kw_italic true; kw_color TEXT_GRAY] ;;

  let weights :=
    [ ("Light 300", false); ("Regular 400", false); ("Medium 500", false);
      ("SemiBold 600", true); ("Bold 700", true); ("ExtraBold 800", true) ] in
  typography_weights weights ;;

  playfair_box <- add_shape_with_fill (Inches 0.8) (Inches 5.0) (Inches 7.5) (Inches 1.3)
                    WHITE RECTANGLE ;;
  set_line_color playfair_box BORDER ;; set_line_width playfair_box (Pt 0.5) ;;

  add_textbox (Inches 1.0) (Inches 5.1) (Inches 7) (Inches 0.4)
    "Playfair Display — Display Typeface (Serif)"
    [kw_font_size 18; kw_bold true; kw_color BLUE_PRIMARY] ;;

  add_textbox (Inches 1.0) (Inches 5.5) (Inches 7) (Inches 0.3)
    "Hero headlines and special emphasis. Bold (700) and ExtraBold (800)."
    [kw_font_size 11; kw_italic true; kw_color TEXT_GRAY] ;;

  add_textbox (Inches 1.0) (Inches 5.85) (Inches 7) (Inches 0.35)
    "Trusted Partner. Swift Solutions."
    [kw_font_size 20; kw_bold true; kw_color NAVY_DARK; kw_font_name "Calibri"] ;;

  add_textbox (Inches 8.6) (Inches 1.65) (Inches 4) (Inches 0.4)
    "Type Scale" [kw_font_size 18; kw_bold true; kw_color NAVY_DARK] ;;

  let scale_items :=
    [ ("Hero H1", "48-60px", "ExtraBold");
      ("Section H2", "36-40px", "Bold");
      ("Card H3", "20-24px", "SemiBold");
      ("Body", "14-16px", "Regular");
      ("Small/Label", "12-13px", "Medium");
      ("Caption", "10-11px", "Medium, uppercase") ] in

  scale_box <- add_shape_with_fill (Inches 8.6) (Inches 2.1) (Inches 4.2) (Inches 3.4)
                 WHITE RECTANGLE ;;
  set_line_color scale_box BORDER ;; set_line_width scale_box (Pt 0.5) ;;

  typography_scale scale_items ;;

  add_textbox (Inches 8.6) (Inches 5.6) (Inches 4.2) (Inches 0.8)
    ("Google Fonts:" +:+ nl +:+ "Inter: wght@300;400;500;600;700;800;900" +:+ nl +:+
     "Playfair Display: wght@700;800")
    [kw_font_size 9; kw_color TEXT_MUTED] ;;

  set_notes ("[KEY POINT]: Two fonts — Inter for everything, Playfair Display for special headlines." +:+ nl +:+
             "[DATA]: Inter has 7 weights (300-900). Playfair Display has Bold and ExtraBold." +:+ nl +:+
             "[TRANSITION]: Let's look at how these translate into UI components.")).

(** ** Slide 7: buttons and UI components *)

Definition buttons_row (buttons : list (string * RGBColor * RGBColor * string))
    : SlideM unit :=
  for_each (enumerate buttons) (fun '(i, (text, bg_color, text_color, label)) =>
    let x := Inches 0.8 + i * Inches 2.8 in
    let y := Inches 1.8 in

    btn <- add_shape_with_fill x y (Inches 2.4) (Inches 0.55) bg_color ROUNDED_RECTANGLE ;;
    when (bool_decide (bg_color = WHITE)) (
      set_line_color btn BLUE_PRIMARY ;;
      set_line_width btn (Pt 2)) ;;

    add_textbox x (y + Pt 4) (Inches 2.4) (Inches 0.45)
      text [kw_font_size 13; kw_bold true; kw_color text_color; kw_alignment CENTER] ;;
    add_textbox x (y + Inches 0.6) (Inches 2.4) (Inches 0.2)
      label [kw_font_size 9; kw_color TEXT_MUTED; kw_alignment CENTER] ;;
    ret tt).

(** Where effect card [i] goes: two columns, filled left to right. *)
Definition effects_origin (i : Z) : Z * Z :=
  let col := i mod 2 in
  let row := i / 2 in
  let x := Inches 0.8 + col * Inches 6.3 in
  let y := Inches 3.7 + row * Inches 1.55 in
  (x, y).

Definition effects_cards (effects : list (string * string * string)) : SlideM unit :=
  for_each (enumerate effects) (fun '(i, (title, css, usage)) =>
    let '(x, y) := effects_origin i in

    card <- add_shape_with_fill x y (Inches 5.9) (Inches 1.35) WHITE RECTANGLE ;;
    set_line_color card BORDER ;; set_line_width card (Pt 0.5) ;;

    add_shape_with_fill x y (Inches 5.9) (Pt 3) BLUE_PRIMARY RECTANGLE ;;

    add_textbox (x + Inches 0.2) (y + Inches 0.1) (Inches 2) (Inches 0.3)
      title [kw_font_size 13; kw_bold true; kw_color NAVY_DARK] ;;
    add_textbox (x + Inches 0.2) (y + Inches 0.4) (Inches 3.2) (Inches 0.8)
      css [kw_font_size 9; kw_color TEXT_GRAY] ;;
    add_textbox (x + Inches 3.5) (y + Inches 0.4) (Inches 2.2) (Inches 0.8)
      ("Usage:" +:+ nl +:+ usage) [kw_font_size 10; kw_color BLUE_PRIMARY] ;;
    ret tt).

Definition build_buttons_ui_slide : Builder := new_slide (
  set_background BG_ALT ;;

  add_accent_bar (Inches 0) BLUE_PRIMARY (Pt 4) ;;
  add_logo_header ;;
  add_footer_bar ;;
  add_slide_number 7 12 ;;

  add_textbox (Inches 0.8) (Inches 0.5) (Inches 8) (Inches 0.7)
    "Buttons & UI Components" [kw_font_size 32; kw_bold true; kw_color NAVY_DARK] ;;

  add_textbox (Inches 0.8) (Inches 1.3) (Inches 4) (Inches 0.4)
    "Button Variants" [kw_font_size 18; kw_bold true; kw_color NAVY_DARK] ;;

  let buttons :=
    [ ("Get Started →", BLUE_PRIMARY, WHITE, "Primary");
      ("Explore Services", WHITE, BLUE_PRIMARY, "Secondary");
      ("Apply Now", ACCENT_PRI, WHITE, "Accent");
      ("Learn More", NAVY_DARK, WHITE, "Dark") ] in
  buttons_row buttons ;;

  add_textbox (Inches 0.8) (Inches 2.7) (Inches 11) (Inches 0.3)
    "Border-radius: 100px (pill)  •  Padding: 12px 28px  •  Font: Inter SemiBold 14px  •  Transition: 300ms"
    [kw_font_size 10; kw_italic true; kw_color TEXT_MUTED] ;;

  add_textbox (Inches 0.8) (Inches 3.2) (Inches 4) (Inches 0.4)
    "UI Effects" [kw_font_size 18; kw_bold true; kw_color NAVY_DARK] ;;

  let effects :=
    [ ("Glass Morphism",
       "bg: rgba(255,255,255,0.08)" +:+ nl +:+ "backdrop-filter: blur(20px)" +:+ nl +:+
       "border: 1px solid rgba(255,255,255,0.15)",
       "Hero stats, overlaid cards");
      ("Card Hover",
       "transform: translateY(-8px)" +:+ nl +:+ "box-shadow: 0 25px 60px rgba(0,0,0,0.12)",
       "Service cards, feature cards");
      ("Pulse Glow",
       "box-shadow: 0 0 20-40px" +:+ nl +:+ "rgba(26,110,245, 0.3-0.6)",
       "Active states, attention draw");
      ("Scroll Reveal",
       "opacity: 0→1" +:+ nl +:+ "translateY(30px)→0" +:+ nl +:+ "transition: 0.8s ease",
       "Section entrance animations") ] in
  effects_cards effects ;;

  set_notes ("[KEY POINT]: 4 button variants and 4 key UI effects define our component system." +:+ nl +:+
             "[DATA]: All buttons use pill shape (100px radius), transitions at 300ms." +:+ nl +:+
             "[TRANSITION]: Let's discuss our core brand values.")).

(** ** Slide 8: brand values *)

(** Where value card [i] goes: two columns, filled left to right. *)
Definition brand_values_origin (card_w card_h i : Z) : Z * Z :=
  let col := i mod 2 in
  let row := i / 2 in
  let x := Inches 0.8 + col * (card_w + Inches 0.3) in
  let y := Inches 1.65 + row * (card_h + Inches 0.25) in
  (x, y).

Definition brand_values_cards (card_w card_h : Z)
    (values : list (string * string * RGBColor * string)) : SlideM unit :=
  for_each (enumerate values) (fun '(i, (title, desc, color, icon)) =>
    let '(x, y) := brand_values_origin card_w card_h i in

    card <- add_shape_with_fill x y card_w card_h WHITE RECTANGLE ;;
    set_line_color card BORDER ;; set_line_width card (Pt 0.5) ;;

    add_shape_with_fill x y card_w (Pt 5) color RECTANGLE ;;

    circle <- add_shape_with_fill (x + Inches 0.3) (y + Inches 0.3)
                (Inches 0.7) (Inches 0.7) color OVAL ;;

    add_textbox (x + Inches 1.2) (y + Inches 0.35) (Inches 4) (Inches 0.4)
      title [kw_font_size 22; kw_bold true; kw_color NAVY_DARK] ;;

    add_textbox (x + Inches 0.3) (y + Inches 1.15) (card_w - Inches 0.6) (Inches 0.9)
      desc [kw_font_size 13; kw_color TEXT_GRAY] ;;
    ret tt).

Definition build_brand_values_slide : Builder := new_slide (
  set_background BG_ALT ;;

  add_accent_bar (Inches 0) BLUE_PRIMARY (Pt 4) ;;
  add_logo_header ;;
  add_footer_bar ;;
  add_slide_number 8 12 ;;

  add_textbox (Inches 0.8) (Inches 0.5) (Inches 8) (Inches 0.7)
    "Brand Values" [kw_font_size 32; kw_bold true; kw_color NAVY_DARK] ;;

  add_textbox (Inches 0.8) (Inches 1.1) (Inches 11.7) (Inches 0.4)
    "Four pillars that define everything we do at CredSuvidha."
    [kw_font_size 13; kw_color TEXT_GRAY] ;;

  let values :=
    [ ("Trust", "RBI regulated partners, IRDAI registered, ISO 27001 compliant. Security and compliance are at our core.",
       BLUE_PRIMARY, "🛡");
      ("Speed", "Swift paperless loan approvals. Quick turnaround powered by 50+ banking partners.",
       LOGO_GOLD, "⚡");
      ("Expertise", "24/7 expert support. 500+ Cr loans disbursed. 10,000+ happy customers served.",
       EMERALD, "🎯");
      ("Simplicity", "Clean, modern, and accessible. Making financial decisions easy for every Indian.",
       ACCENT_PRI, "✨") ] in

  let card_w := Inches 5.8 in
  let card_h := Inches 2.3 in

  brand_values_cards card_w card_h values ;;

  set_notes ("[KEY POINT]: Trust, Speed, Expertise, and Simplicity are our four brand pillars." +:+ nl +:+
             "[DATA]: These values guide every decision from product design to customer service." +:+ nl +:+
             "[TRANSITION]: Let's wrap up with contact info and compliance details.")).

(** ** Slide 9: contact and compliance *)

Definition contact_rows (contacts : list (string * string)) : SlideM unit :=
  for_each (enumerate contacts) (fun '(i, (label, value)) =>
    let y := Inches 2.2 + i * Inches 0.55 in
    add_textbox (Inches 1.4) y (Inches 1.5) (Inches 0.3)
      (label +:+ ":") [kw_font_size 13; kw_bold true; kw_color BLUE_PRIMARY] ;;
    add_textbox (Inches 3.0) y (Inches 3.5) (Inches 0.3)
      value [kw_font_size 13; kw_color TEXT_DARK] ;;
    ret tt).

Definition compliance_rows (badges : list (string * string)) : SlideM unit :=
  for_each (enumerate badges) (fun '(i, (badge, desc)) =>
    let y := Inches 2.2 + i * Inches 0.75 in

    check <- add_shape_with_fill (Inches 7.4) (y + Pt 2) (Inches 0.3) (Inches 0.3)
               EMERALD OVAL ;;
    add_textbox (Inches 7.4) (y + Pt 2) (Inches 0.3) (Inches 0.3)
      "✓" [kw_font_size 10; kw_bold true; kw_color WHITE; kw_alignment CENTER] ;;

    add_textbox (Inches 7.9) y (Inches 4.3) (Inches 0.3)
      badge [kw_font_size 13; kw_bold true; kw_color NAVY_DARK] ;;
    add_textbox (Inches 7.9) (y + Inches 0.3) (Inches 4.3) (Inches 0.3)
      desc [kw_font_size 10; kw_color TEXT_GRAY] ;;
    ret tt).

Definition build_contact_compliance_slide : Builder := new_slide (
  set_background BG_ALT ;;

  add_accent_bar (Inches 0) BLUE_PRIMARY (Pt 4) ;;
  add_logo_header ;;
  add_footer_bar ;;
  add_slide_number 9 12 ;;

  add_textbox (Inches 0.8) (Inches 0.5) (Inches 8) (Inches 0.7)
    "Contact & Compliance" [kw_font_size 32; kw_bold true; kw_color NAVY_DARK] ;;

  contact_card <- add_shape_with_fill (Inches 0.8) (Inches 1.4) (Inches 5.8) (Inches 3.5)
                    WHITE RECTANGLE ;;
  set_line_color contact_card BORDER ;; set_line_width contact_card (Pt 0.5) ;;
  add_shape_with_fill (Inches 0.8) (Inches 1.4) (Inches 5.8) (Pt 4) BLUE_PRIMARY RECTANGLE ;;

  add_textbox (Inches 1.2) (Inches 1.6) (Inches 5) (Inches 0.4)
    "Contact Information" [kw_font_size 20; kw_bold true; kw_color NAVY_DARK] ;;

  let contacts :=
    [ ("Phone", "+91 93076 73391");
      ("Email", "info@credsuvidha.com");
      ("Website", "www.credsuvidha.com");
      ("Social", "Facebook • Twitter/X • LinkedIn • Instagram") ] in
  contact_rows contacts ;;

  comp_card <- add_shape_with_fill (Inches 7.0) (Inches 1.4) (Inches 5.5) (Inches 3.5)
                 WHITE RECTANGLE ;;
  set_line_color comp_card BORDER ;; set_line_width comp_card (Pt 0.5) ;;
  add_shape_with_fill (Inches 7.0) (Inches 1.4) (Inches 5.5) (Pt 4) EMERALD RECTANGLE ;;

  add_textbox (Inches 7.4) (Inches 1.6) (Inches 5) (Inches 0.4)
    "Compliance & Certifications" [kw_font_size 20; kw_bold true; kw_color NAVY_DARK] ;;

  let badges :=
    [ ("RBI Regulated Partners", "All banking partners regulated by Reserve Bank of India");
      ("IRDAI Registered", "Insurance products through IRDAI registered entities");
      ("ISO 27001 Compliant", "Information security management system compliance") ] in
  compliance_rows badges ;;

  disclaimer_box <- add_shape_with_fill (Inches 0.8) (Inches 5.2) (Inches 11.7) (Inches 0.8)
                      BLUE_TINT RECTANGLE ;;
  set_line_color disclaimer_box BLUE_PALE ;; set_line_width disclaimer_box (Pt 0.5) ;;

  add_textbox (Inches 1.0) (Inches 5.3) (Inches 11.3) (Inches 0.6)
    ("Disclaimer: CredSuvidha acts as a facilitator. All financial products are subject to " +:+
     "respective institution policies. Interest rates may vary based on individual eligibility and market conditions.")
    [kw_font_size 10; kw_italic true; kw_color TEXT_GRAY; kw_alignment CENTER] ;;

  set_notes ("[KEY POINT]: Contact us at +91 93076 73391 or info@credsuvidha.com." +:+ nl +:+
             "[DATA]: We maintain RBI, IRDAI, and ISO 27001 compliance across all partners." +:+ nl +:+
             "[TRANSITION]: Finally, let's review the technical specifications.")).

(** ** Slide 10: technical specifications *)

(** Where spec card [i] goes: three columns, filled left to right. *)
Definition technical_origin (card_w card_h i : Z) : Z * Z :=
  let col := i mod 3 in
  let row := i / 3 in
  let x := Inches 0.8 + col * (card_w + Inches 0.25) in
  let y := Inches 1.65 + row * (card_h + Inches 0.25) in
  (x, y).

Definition technical_cards (card_w card_h : Z)
    (specs : list (string * string * RGBColor)) : SlideM unit :=
  for_each (enumerate specs) (fun '(i, (title, desc, color)) =>
    let '(x, y) := technical_origin card_w card_h i in

    card <- add_shape_with_fill x y card_w card_h WHITE RECTANGLE ;;
    set_line_color card BORDER ;; set_line_width card (Pt 0.5) ;;

    add_shape_with_fill x y (Pt 5) card_h color RECTANGLE ;;

    add_textbox (x + Inches 0.3) (y + Inches 0.2) (card_w - Inches 0.5) (Inches 0.35)
      title [kw_font_size 15; kw_bold true; kw_color NAVY_DARK] ;;
    add_textbox (x + Inches 0.3) (y + Inches 0.6) (card_w - Inches 0.5) (Inches 1.3)
      desc [kw_font_size 12; kw_color TEXT_GRAY] ;;
    ret tt).

Definition build_technical_slide : Builder := new_slide (
  set_background BG_ALT ;;

  add_accent_bar (Inches 0) BLUE_PRIMARY (Pt 4) ;;
  add_logo_header ;;
  add_footer_bar ;;
  add_slide_number 10 12 ;;

  add_textbox (Inches 0.8) (Inches 0.5) (Inches 8) (Inches 0.7)
    "Technical Specifications" [kw_font_size 32; kw_bold true; kw_color NAVY_DARK] ;;

  add_textbox (Inches 0.8) (Inches 1.1) (Inches 11.7) (Inches 0.4)
    "Technology stack and dependencies powering the CredSuvidha website."
    [kw_font_size 13; kw_color TEXT_GRAY] ;;

  let specs :=
    [ ("CSS Framework",
       "Tailwind CSS via CDN" +:+ nl +:+ "(cdn.tailwindcss.com) with custom" +:+ nl +:+
       "brand theme configuration", BLUE_PRIMARY);
      ("Typography",
       "Google Fonts: Inter (300-900) +" +:+ nl +:+ "Playfair Display (700-800)" +:+ nl +:+
       "Preconnected for performance", LOGO_GOLD);
      ("JavaScript",
       "Vanilla JS — scroll reveal," +:+ nl +:+ "counter animation, mobile menu," +:+ nl +:+
       "smooth scroll, form handling", EMERALD);
      ("Architecture",
       "Single-page HTML application" +:+ nl +:+ "No build step required" +:+ nl +:+
       "All-in-one file deployment", ACCENT_PRI);
      ("Hosting",
       "Netlify (static hosting)" +:+ nl +:+ "Custom domain: www.credsuvidha.com" +:+ nl +:+
       "Git-based deployment", NAVY);
      ("Version Control",
       "Git repository" +:+ nl +:+ "Pushed to remote" +:+ nl +:+
       "Continuous deployment via Netlify", BLUE_BRIGHT) ] in

  let card_w := Inches 3.7 in
  let card_h := Inches 2.1 in

  technical_cards card_w card_h specs ;;

  assets_box <- add_shape_with_fill (Inches 0.8) (Inches 6.0) (Inches 11.7) (Inches 0.6)
                  BLUE_TINT RECTANGLE ;;
  set_line_color assets_box BLUE_PALE ;; set_line_width assets_box (Pt 0.5) ;;

  add_textbox (Inches 1.0) (Inches 6.05) (Inches 11.3) (Inches 0.5)
    ("Assets: logo.png • assets/images/logo.png • assets/brandkit/brand-guidelines.html • " +:+
     "assets/brandkit/brand-tokens.json • assets/brandkit/CredSuvidha-BrandKit.pdf • " +:+
     "assets/brandkit/CredSuvidha-BrandKit.pptx")
    [kw_font_size 9; kw_color TEXT_GRAY; kw_alignment CENTER] ;;

  set_notes ("[KEY POINT]: The website is a single HTML file deployed on Netlify with no build step." +:+ nl +:+
             "[DATA]: Tailwind CSS + Google Fonts + Vanilla JS. All resources are CDN-based." +:+ nl +:+
             "[TRANSITION]: Let's summarize what we've covered in this brand kit.")).

(** ** Slide 11: summary *)

Definition summary_rows (takeaways : list (string * string * RGBColor)) : SlideM unit :=
  for_each (enumerate takeaways) (fun '(i, (label, desc, color)) =>
    let y := Inches 1.4 + i * Inches 0.72 in

    card <- add_shape_with_fill (Inches 0.8) y (Inches 11.7) (Inches 0.6) WHITE RECTANGLE ;;
    set_line_color card BORDER ;; set_line_width card (Pt 0.5) ;;

    add_shape_with_fill (Inches 0.8) y (Pt 5) (Inches 0.6) color RECTANGLE ;;

    add_textbox (Inches 1.2) (y + Pt 4) (Inches 1.5) (Inches 0.4)
      ("●  " +:+ label) [kw_font_size 13; kw_bold true; kw_color color] ;;
    add_textbox (Inches 2.8) (y + Pt 4) (Inches 9.5) (Inches 0.4)
      desc [kw_font_size 12; kw_color TEXT_DARK] ;;
    ret tt).

Definition build_summary_slide : Builder := new_slide (
  set_background BLUE_TINT ;;

  add_accent_bar (Inches 0) NAVY_DARK (Pt 5) ;;
  add_logo_header ;;
  add_footer_bar ;;
  add_slide_number 11 12 ;;

  add_textbox (Inches 0.8) (Inches 0.5) (Inches 8) (Inches 0.7)
    "Key Takeaways" [kw_font_size 32; kw_bold true; kw_color NAVY_DARK] ;;

  let takeaways :=
    [ ("Logo", "Interlocking C&S with growth arrow — navy + gold on light backgrounds", BLUE_PRIMARY);
      ("Colors", "Primary #1A6EF5  •  Navy #142857  •  Accent #F97316  •  Emerald #10B981", NAVY);
      ("Typography", "Inter (sans-serif) for everything  •  Playfair Display (serif) for display", LOGO_GOLD);
      ("Buttons", "4 variants: Primary, Secondary, Accent, Dark — all pill-shaped (100px radius)", EMERALD);
      ("Values", "Trust, Speed, Expertise, Simplicity — every decision guided by these pillars", ACCENT_PRI);
      ("Compliance", "RBI Regulated  •  IRDAI Registered  •  ISO 27001 Compliant", BLUE_PRIMARY);
      ("Tech Stack", "Tailwind CSS + Inter/Playfair fonts + Vanilla JS → Netlify deployment", NAVY) ] in
  summary_rows takeaways ;;

  add_textbox (Inches 0.8) (Inches 6.5) (Inches 11.7) (Inches 0.35)
    "This brand kit is a living document — update as CredSuvidha evolves. Consistency builds trust."
    [kw_font_size 12; kw_bold true; kw_italic true; kw_color NAVY; kw_alignment CENTER] ;;

  set_notes ("[KEY POINT]: Recap of all brand kit elements covered." +:+ nl +:+
             "[DATA]: 7 key areas — logo, colors, typography, buttons, values, compliance, tech." +:+ nl +:+
             "[TRANSITION]: Thank you for reviewing the CredSuvidha brand kit.")).

(** ** Slide 12: thank you *)
Definition build_thankyou_slide : Builder := new_slide (
  set_background NAVY_DARK ;;

  add_shape_with_fill (Inches 0) (Inches 3.2) (Inches 6.667) (Pt 3) BLUE_PRIMARY RECTANGLE ;;
  add_shape_with_fill (Inches 6.667) (Inches 3.2) (Inches 6.666) (Pt 3) LOGO_GOLD RECTANGLE ;;

  when logo_exists (
    add_picture LOGO_PATH (Inches 4.2) (Inches 0.5) (Inches 5.0) ;;
    ret tt) ;;

  add_textbox (Inches 1) (Inches 3.5) (Inches 11.333) (Inches 0.9)
    "Thank You" [kw_font_size 44; kw_bold true; kw_color WHITE; kw_alignment CENTER] ;;

  add_textbox (Inches 1) (Inches 4.5) (Inches 11.333) (Inches 0.5)
    "+91 93076 73391  •  info@credsuvidha.com  •  www.credsuvidha.com"
    [kw_font_size 16; kw_color BLUE_LIGHT; kw_alignment CENTER] ;;

  font1 <- lift (set_font 20 true false WHITE "Calibri") ;;
  font2 <- lift (set_font 20 true false LOGO_GOLD "Calibri") ;;
  shapes_add (TextBox (Inches 1) (Inches 5.3) (Inches 11.333) (Inches 0.5) true
    [ {| p_alignment := Some CENTER; p_space_after := None;
         p_runs :=
           [ {| run_text := "Trusted Partner. "; run_font := font1 |};
             {| run_text := "Swift Solutions."; run_font := font2 |} ] |} ]) ;;

  add_textbox (Inches 1) (Inches 6.3) (Inches 11.333) (Inches 0.3)
    "© 2025 CredSuvidha. All rights reserved."
    [kw_font_size 10; kw_color TEXT_MUTED; kw_alignment CENTER] ;;

  add_shape_with_fill (Inches 0) (Inches 7.2) (Inches 13.333) (Inches 0.3) BLUE_PRIMARY RECTANGLE ;;

  set_notes ("[KEY POINT]: Thank the audience for their time." +:+ nl +:+
             "[DATA]: Provide contact details for follow-up questions." +:+ nl +:+
             "For brand kit updates or questions, reach out to info@credsuvidha.com.")).

(** ** The build *)

(** [build_presentation()]: the deck handed to [prs.save(OUTPUT_PATH)]. *)
Definition build_presentation : result Presentation :=
  let prs := Presentation_new in
  let prs := {| slide_width := Inches 13.333; slide_height := Inches 7.5;
                slides := slides prs |} in
  let! prs := build_title_slide prs in
  let! prs := build_brand_overview prs in
  let! prs := build_logo_slide prs in
  let! prs := build_color_palette_slide prs in
  let! prs := build_gradients_slide prs in
  let! prs := build_typography_slide prs in
  let! prs := build_buttons_ui_slide prs in
  let! prs := build_brand_values_slide prs in
  let! prs := build_contact_compliance_slide prs in
  let! prs := build_technical_slide prs in
  let! prs := build_summary_slide prs in
  let! prs := build_thankyou_slide prs in
  Ok prs.

End Builders.

(** Running the script: [build_presentation()].  The script has no
    [TOKENS_PATH] and opens no token file. *)
Definition main (LOGO_PATH : string) (w : World) : result Presentation :=
  build_presentation LOGO_PATH (logo_present w) (clock w).

End Pptx.

(** * The PDF: [generate_brandkit_pdf.py] *)

Module Pdf.

Local Open Scope py_scope.

(** ** ReportLab values *)

(** [reportlab.lib.units] and [reportlab.lib.pagesizes]: lengths are
    points, as floats. *)
Definition inch : pynum := 72.0.
Definition cm : pynum := inch / 2.54.
Definition mm : pynum := cm * 0.1.
Definition A4 : pynum * pynum := (210 * mm, 297 * mm).

(** A colour made by [HexColor(val)], kept with the string it was made
    from. *)
Inductive Color : Type := HexColor (val : string).

(** [HexColor(val)] on a run-time string: [val] is read as an integer, in
    base 16 after a leading [#] or [0x], in base 10 otherwise, and
    [ValueError] is raised when it is not one.  The library leaves the
    reading to [int()], which also takes a sign, blanks around the number
    and underscores between digits; here a number is digits only (see
    [int16]).  So what is accepted here the library accepts, and a raise
    is stated below only of texts without any digit ([digitless]), which
    [int()] rejects too. *)
Definition is_decimal (s : string) : bool :=
  match s with
  | EmptyString => false
  | _ => forallb (fun c => let n := nat_of_ascii c in
                           (48 <=? n)%nat && (n <=? 57)%nat)
                 (list_ascii_of_string s)
  end.

Definition is_hex (s : string) : bool :=
  match int16 s with Ok _ => true | Raise _ => false end.

Definition HexColor_of (val : string) : result Color :=
  let ok :=
    if String.prefix "#" val then is_hex (substring 1 (String.length val) val)
    else if String.prefix "0x" (substring 0 2 val) || String.prefix "0X" (substring 0 2 val)
         then is_hex (substring 2 (String.length val) val)
         else is_decimal val in
  if ok then Ok (HexColor val) else Raise ValueError.

Inductive TA : Type := TA_LEFT | TA_CENTER | TA_RIGHT | TA_JUSTIFY.

(** [ParagraphStyle(name, **kw)]: the attributes a call leaves out keep
    the library's defaults ([None] here). *)
Record ParagraphStyle : Type :=
  { name : string; fontName : option string; fontSize : option pynum;
    textColor : option Color; spaceBefore : option pynum;
    spaceAfter : option pynum; alignment : option TA; leading : option pynum;
    leftIndent : option pynum; bulletIndent : option pynum }.

Definition kw_fontName (v : string) (st : ParagraphStyle) : ParagraphStyle :=
  {| name := name st; fontName := Some v; fontSize := fontSize st;
     textColor := textColor st; spaceBefore := spaceBefore st;
     spaceAfter := spaceAfter st; alignment := alignment st; leading := leading st;
     leftIndent := leftIndent st; bulletIndent := bulletIndent st |}.
Definition kw_fontSize (v : pynum) (st : ParagraphStyle) : ParagraphStyle :=
  {| name := name st; fontName := fontName st; fontSize := Some v;
     textColor := textColor st; spaceBefore := spaceBefore st;
     spaceAfter := spaceAfter st; alignment := alignment st; leading := leading st;
     leftIndent := leftIndent st; bulletIndent := bulletIndent st |}.
Definition kw_textColor (v : Color) (st : ParagraphStyle) : ParagraphStyle :=
  {| name := name st; fontName := fontName st; fontSize := fontSize st;
     textColor := Some v; spaceBefore := spaceBefore st;
     spaceAfter := spaceAfter st; alignment := alignment st; leading := leading st;
     leftIndent := leftIndent st; bulletIndent := bulletIndent st |}.
Definition kw_spaceBefore (v : pynum) (st : ParagraphStyle) : ParagraphStyle :=
  {| name := name st; fontName := fontName st; fontSize := fontSize st;
     textColor := textColor st; spaceBefore := Some v;
     spaceAfter := spaceAfter st; alignment := alignment st; leading := leading st;
     leftIndent := leftIndent st; bulletIndent := bulletIndent st |}.
Definition kw_spaceAfter (v : pynum) (st : ParagraphStyle) : ParagraphStyle :=
  {| name := name st; fontName := fontName st; fontSize := fontSize st;
     textColor := textColor st; spaceBefore := spaceBefore st;
     spaceAfter := Some v; alignment := alignment st; leading := leading st;
     leftIndent := leftIndent st; bulletIndent := bulletIndent st |}.
Definition kw_alignment (v : TA) (st : ParagraphStyle) : ParagraphStyle :=
  {| name := name st; fontName := fontName st; fontSize := fontSize st;
     textColor := textColor st; spaceBefore := spaceBefore st;
     spaceAfter := spaceAfter st; alignment := Some v; leading := leading st;
     leftIndent := leftIndent st; bulletIndent := bulletIndent st |}.
Definition kw_leading (v : pynum) (st : ParagraphStyle) : ParagraphStyle :=
  {| name := name st; fontName := fontName st; fontSize := fontSize st;
     textColor := textColor st; spaceBefore := spaceBefore st;
     spaceAfter := spaceAfter st; alignment := alignment st; leading := Some v;
     leftIndent := leftIndent st; bulletIndent := bulletIndent st |}.
Definition kw_leftIndent (v : pynum) (st : ParagraphStyle) : ParagraphStyle :=
  {| name := name st; fontName := fontName st; fontSize := fontSize st;
     textColor := textColor st; spaceBefore := spaceBefore st;
     spaceAfter := spaceAfter st; alignment := alignment st; leading := leading st;
     leftIndent := Some v; bulletIndent := bulletIndent st |}.
Definition kw_bulletIndent (v : pynum) (st : ParagraphStyle) : ParagraphStyle :=
  {| name := name st; fontName := fontName st; fontSize := fontSize st;
     textColor := textColor st; spaceBefore := spaceBefore st;
     spaceAfter := spaceAfter st; alignment := alignment st; leading := leading st;
     leftIndent := leftIndent st; bulletIndent := Some v |}.

Definition ParagraphStyle_new (style_name : string)
    (kws : list (ParagraphStyle -> ParagraphStyle)) : ParagraphStyle :=
  fold_left (fun st f => f st) kws
    {| name := style_name; fontName := None; fontSize := None; textColor := None;
       spaceBefore := None; spaceAfter := None; alignment := None; leading := None;
       leftIndent := None; bulletIndent := None |}.

(** A style sheet: its styles, looked up by name. *)
Definition StyleSheet : Type := list ParagraphStyle.

(** [getSampleStyleSheet()], as far as the script reads it: the entry
    [BodyText], every attribute of which the script then sets itself. *)
Definition getSampleStyleSheet : StyleSheet :=
  [ ParagraphStyle_new "BodyText" [kw_spaceBefore 6] ].

(** [styles[key]]; [KeyError] cannot arise on the names the script uses,
    all of them in the sheet [get_styles] returns (the fallback is the
    bare style of that name). *)
Definition getitem (styles : StyleSheet) (key : string) : ParagraphStyle :=
  match List.find (fun st => String.eqb (name st) key) styles with
  | Some st => st
  | None => ParagraphStyle_new key []
  end.

(** [styles[key].attr = v] *)
Definition set_style_attr (key : string) (kw : ParagraphStyle -> ParagraphStyle)
    : Prog StyleSheet unit :=
  fun styles =>
    Ok (tt, map (fun st => if String.eqb (name st) key then kw st else st) styles).

(** [reportlab.graphics.shapes] *)
Module shapes.
Inductive Shape : Type :=
| Rect (x y width height : pynum) (fillColor : Color) (strokeColor : option Color)
       (strokeWidth : pynum)
| String (x y : pynum) (text : string) (fontName : string) (fontSize : pynum)
         (fillColor : Color).
End shapes.

Record Drawing : Type :=
  { d_width : pynum; d_height : pynum; contents : list shapes.Shape }.

Definition Drawing_new (width height : pynum) : Drawing :=
  {| d_width := width; d_height := height; contents := [] |}.

(** [d.add(shape)] *)
Definition add (sh : shapes.Shape) : Prog Drawing unit :=
  fun d => Ok (tt, {| d_width := d_width d; d_height := d_height d;
                      contents := contents d ++ [sh] |}).

Record Image : Type :=
  { filename : string; img_width : pynum; img_height : pynum;
    hAlign : option string }.

Definition Image_new (path : string) (width height : pynum) : Image :=
  {| filename := path; img_width := width; img_height := height; hAlign := None |}.

(** [img.hAlign = v] *)
Definition set_hAlign (img : Image) (v : string) : Image :=
  {| filename := filename img; img_width := img_width img;
     img_height := img_height img; hAlign := Some v |}.

(** A [TableStyle] command; a cell is (column, row), negative indices
    counting from the end. *)
Inductive TableCmd : Type :=
| FONTNAME (start stop : Z * Z) (font : string)
| FONTSIZE (start stop : Z * Z) (size : pynum)
| TEXTCOLOR (start stop : Z * Z) (c : Color)
| BACKGROUND (start stop : Z * Z) (c : Color)
| ALIGN (start stop : Z * Z) (a : string)
| VALIGN (start stop : Z * Z) (a : string)
| TOPPADDING (start stop : Z * Z) (n : pynum)
| BOTTOMPADDING (start stop : Z * Z) (n : pynum)
| LEFTPADDING (start stop : Z * Z) (n : pynum)
| RIGHTPADDING (start stop : Z * Z) (n : pynum)
| GRID (start stop : Z * Z) (weight : pynum) (c : Color)
| BOX (start stop : Z * Z) (weight : pynum) (c : Color)
| LINEABOVE (start stop : Z * Z) (weight : pynum) (c : Color)
| ROWBACKGROUNDS (start stop : Z * Z) (colors : list Color)
| ROUNDEDCORNERS (radii : list pynum).

(** What a table cell holds. *)
Inductive Cell : Type :=
| CellText (s : string)
| CellParagraph (text : string) (style : ParagraphStyle)
| CellDrawing (d : Drawing)
| CellImage (img : Image).

Record Table : Type :=
  { data : list (list Cell); colWidths : list pynum; repeatRows : Z;
    table_style : list TableCmd }.

(** [Table(data, colWidths=..., repeatRows=...)]; [repeatRows] defaults
    to 0. *)
Definition Table_new (cells : list (list Cell)) (widths : list pynum)
    (repeat_rows : Z) : Table :=
  {| data := cells; colWidths := widths; repeatRows := repeat_rows;
     table_style := [] |}.

(** [t.setStyle(TableStyle(cmds))]: the commands are added to the
    table's. *)
Definition setStyle (t : Table) (cmds : list TableCmd) : Table :=
  {| data := data t; colWidths := colWidths t; repeatRows := repeatRows t;
     table_style := table_style t ++ cmds |}.

Inductive Flowable : Type :=
| PageBreak
| Paragraph (text : string) (style : ParagraphStyle)
| Spacer (width height : pynum)
| HRFlowable (width : string) (thickness : pynum) (color : Color) (spaceAfter : pynum)
| FTable (t : Table)
| FDrawing (d : Drawing).

(** The canvas operations the page callbacks issue. *)
Inductive CanvasOp : Type :=
| saveState
| restoreState
| setFillColor (c : Color)
| setStrokeColor (c : Color)
| setLineWidth (w : pynum)
| setFont (psfontname : string) (size : pynum)
| rect (x y width height : pynum) (fill stroke : bool)
| roundRect (x y width height radius : pynum) (fill stroke : bool)
| line (x1 y1 x2 y2 : pynum)
| drawImage (image : string) (x y width height : pynum)
            (preserveAspectRatio : bool) (mask : string)
| drawString (x y : pynum) (text : string)
| drawCentredString (x y : pynum) (text : string)
| drawRightString (x y : pynum) (text : string).

Definition text_cells (rows : list (list string)) : list (list Cell) :=
  map (map CellText) rows.

(** ** Brand colours *)

Definition NAVY_DARK   := HexColor "#142857".
Definition NAVY        := HexColor "#193f8f".
Definition BLUE_DEEP   := HexColor "#1747b6".
Definition BLUE        := HexColor "#1458e1".
Definition BLUE_PRIMARY:= HexColor "#1a6ef5".
Definition BLUE_BRIGHT := HexColor "#338dff".
Definition BLUE_LIGHT  := HexColor "#59b0ff".
Definition BLUE_LIGHTER:= HexColor "#8ecdff".
Definition BLUE_PALE   := HexColor "#bce0ff".
Definition BLUE_WASH   := HexColor "#d9edff".
Definition BLUE_TINT   := HexColor "#eef7ff".

Definition ACCENT_DARK := HexColor "#c2410c".
Definition ACCENT      := HexColor "#ea580c".
Definition ACCENT_PRI  := HexColor "#f97316".
Definition ACCENT_LT   := HexColor "#fb923c".

Definition EMERALD_DK  := HexColor "#059669".
Definition EMERALD     := HexColor "#10b981".
Definition EMERALD_LT  := HexColor "#34d399".

Definition LOGO_NAVY   := HexColor "#1B3A5C".
Definition LOGO_GOLD   := HexColor "#C5961E".
Definition LOGO_BG     := HexColor "#FAF6F1".

Definition TEXT_DARK   := HexColor "#1e293b".
Definition TEXT_GRAY   := HexColor "#64748b".
Definition TEXT_MUTED  := HexColor "#94a3b8".
Definition BORDER      := HexColor "#e2e8f0".
Definition BG_ALT      := HexColor "#f8fafc".
Definition WHITE       := HexColor "#FFFFFF".

(** ** Page setup *)

Definition PAGE_WIDTH : pynum := fst A4.
Definition PAGE_HEIGHT : pynum := snd A4.
Definition MARGIN_LEFT : pynum := 0.75 * inch.
Definition MARGIN_RIGHT : pynum := 0.75 * inch.
Definition MARGIN_TOP : pynum := 0.9 * inch.
Definition MARGIN_BOTTOM : pynum := 0.85 * inch.
Definition CONTENT_WIDTH : pynum := PAGE_WIDTH - MARGIN_LEFT - MARGIN_RIGHT.

(** [get_styles()] *)
Definition get_styles : result StyleSheet :=
  let styles := getSampleStyleSheet in
  exec (
    append (ParagraphStyle_new "DocTitle" [kw_fontName "Helvetica-Bold"; kw_fontSize 28;
      kw_textColor WHITE; kw_spaceAfter 6; kw_alignment TA_LEFT; kw_leading 34]) ;;
    append (ParagraphStyle_new "DocSubtitle" [kw_fontName "Helvetica"; kw_fontSize 16;
      kw_textColor BLUE_LIGHT; kw_spaceAfter 4; kw_alignment TA_LEFT; kw_leading 20]) ;;
    append (ParagraphStyle_new "SectionHeader" [kw_fontName "Helvetica-Bold"; kw_fontSize 20;
      kw_textColor NAVY_DARK; kw_spaceBefore 20; kw_spaceAfter 10; kw_leading 24]) ;;
    append (ParagraphStyle_new "SubHeader" [kw_fontName "Helvetica-Bold"; kw_fontSize 14;
      kw_textColor BLUE_PRIMARY; kw_spaceBefore 14; kw_spaceAfter 6; kw_leading 18]) ;;
    append (ParagraphStyle_new "SubSubHeader" [kw_fontName "Helvetica-Bold"; kw_fontSize 11;
      kw_textColor NAVY; kw_spaceBefore 10; kw_spaceAfter 4; kw_leading 14]) ;;
    set_style_attr "BodyText" (kw_fontName "Helvetica") ;;
    set_style_attr "BodyText" (kw_fontSize 10) ;;
    set_style_attr "BodyText" (kw_textColor TEXT_DARK) ;;
    set_style_attr "BodyText" (kw_spaceBefore 3) ;;
    set_style_attr "BodyText" (kw_spaceAfter 6) ;;
    set_style_attr "BodyText" (kw_leading 14) ;;
    set_style_attr "BodyText" (kw_alignment TA_JUSTIFY) ;;
    append (ParagraphStyle_new "BodyLeft" [kw_fontName "Helvetica"; kw_fontSize 10;
      kw_textColor TEXT_DARK; kw_spaceBefore 3; kw_spaceAfter 6; kw_leading 14;
      kw_alignment TA_LEFT]) ;;
    append (ParagraphStyle_new "BulletText" [kw_fontName "Helvetica"; kw_fontSize 10;
      kw_textColor TEXT_DARK; kw_spaceBefore 2; kw_spaceAfter 2; kw_leading 14;
      kw_leftIndent 20; kw_bulletIndent 10]) ;;
    append (ParagraphStyle_new "CaptionText" [kw_fontName "Helvetica-Oblique"; kw_fontSize 8;
      kw_textColor TEXT_MUTED; kw_spaceBefore 2; kw_spaceAfter 8; kw_alignment TA_LEFT]) ;;
    append (ParagraphStyle_new "FooterStyle" [kw_fontName "Helvetica"; kw_fontSize 8;
      kw_textColor TEXT_GRAY; kw_alignment TA_CENTER]) ;;
    append (ParagraphStyle_new "TaglineStyle" [kw_fontName "Helvetica-Bold"; kw_fontSize 18;
      kw_textColor NAVY_DARK; kw_spaceBefore 6; kw_spaceAfter 6; kw_alignment TA_CENTER;
      kw_leading 22]) ;;
    append (ParagraphStyle_new "ValueTitle" [kw_fontName "Helvetica-Bold"; kw_fontSize 12;
      kw_textColor NAVY_DARK; kw_spaceBefore 4; kw_spaceAfter 2; kw_leading 15]) ;;
    append (ParagraphStyle_new "SmallText" [kw_fontName "Helvetica"; kw_fontSize 9;
      kw_textColor TEXT_GRAY; kw_spaceBefore 1; kw_spaceAfter 3; kw_leading 12]) ;;
    append (ParagraphStyle_new "TableHeader" [kw_fontName "Helvetica-Bold"; kw_fontSize 9;
      kw_textColor WHITE; kw_alignment TA_CENTER; kw_leading 12]) ;;
    append (ParagraphStyle_new "TableCell" [kw_fontName "Helvetica"; kw_fontSize 9;
      kw_textColor TEXT_DARK; kw_alignment TA_LEFT; kw_leading 12])) styles.

(** ** Tables and drawings *)

(** [create_color_swatch_table(colors_list, swatch_size=14)] *)
Definition create_color_swatch_table (colors_list : list (string * string * string))
    (swatch_size : pynum) : result Table :=
  let data := [[CellText "Swatch"; CellText "Name"; CellText "Hex Code"; CellText "Usage"]] in
  let! data := exec (
    for_each colors_list (fun '(name, hex_code, usage) =>
      let swatch := Drawing_new (swatch_size + 4) (swatch_size + 4) in
      fill <- lift (HexColor_of hex_code) ;;
      swatch <- lift (exec (add (shapes.Rect 2 2 swatch_size swatch_size fill
                                   (Some (HexColor "#D1D5DB")) 0.5)) swatch) ;;
      append [CellDrawing swatch; CellText name; CellText hex_code; CellText usage])) data in

  let col_widths := [0.5 * inch; 1.8 * inch; 1.2 * inch; CONTENT_WIDTH - 3.5 * inch] in
  let t := Table_new data col_widths 1%Z in
  let t := setStyle t
    [ FONTNAME (0, 0)%Z (-1, 0)%Z "Helvetica-Bold";
      FONTSIZE (0, 0)%Z (-1, 0)%Z 9;
      TEXTCOLOR (0, 0)%Z (-1, 0)%Z WHITE;
      BACKGROUND (0, 0)%Z (-1, 0)%Z NAVY;
      ALIGN (0, 0)%Z (-1, 0)%Z "CENTER";
      FONTNAME (0, 1)%Z (-1, -1)%Z "Helvetica";
      FONTSIZE (0, 1)%Z (-1, -1)%Z 9;
      TEXTCOLOR (0, 1)%Z (-1, -1)%Z TEXT_DARK;
      VALIGN (0, 0)%Z (-1, -1)%Z "MIDDLE";
      TOPPADDING (0, 0)%Z (-1, -1)%Z 6;
      BOTTOMPADDING (0, 0)%Z (-1, -1)%Z 6;
      LEFTPADDING (0, 0)%Z (-1, -1)%Z 6;
      RIGHTPADDING (0, 0)%Z (-1, -1)%Z 6;
      GRID (0, 0)%Z (-1, -1)%Z 0.5 (HexColor "#D1D5DB");
      ROWBACKGROUNDS (0, 1)%Z (-1, -1)%Z [WHITE; BLUE_TINT] ] in
  Ok t.

(** [width or CONTENT_WIDTH] *)
Definition width_or (width : option pynum) (fallback : pynum) : pynum :=
  match width with
  | Some w => if py_truthy w then w else fallback
  | None => fallback
  end.

(** [create_gradient_drawing(colors, label, width=None, height=40)] *)
Definition create_gradient_drawing (colors : list string) (label : string)
    (width : option pynum) (height : pynum) : result Drawing :=
  let w := width_or width CONTENT_WIDTH in
  let d := Drawing_new w (height + 16) in
  let! segment_w := py_truediv w (PInt (Z.of_nat (length colors))) in
  exec (
    for_each (enumerate colors) (fun '(i, color) =>
      fill <- lift (HexColor_of color) ;;
      add (shapes.Rect (PInt i * segment_w) 16 segment_w height fill None 0)) ;;
    add (shapes.String 4 2 label "Helvetica" 7 TEXT_GRAY)) d.

Section Build.

(** What the callbacks and the story read from outside: whether
    [LOGO_PATH] exists, and the clock. *)
Variable LOGO_PATH : string.
Variable logo_exists : bool.
Variable now : datetime.

(** The document a page callback is given: it reads the page number. *)
Record DocState : Type := { page : Z }.

(** [draw_cover_page(c_obj, doc)] *)
Definition draw_cover_page (doc : DocState) : Prog (list CanvasOp) unit :=
  append (saveState) ;;
  let '(w, h) := A4 in
  append (setFillColor NAVY_DARK) ;;
  append (rect 0 (h * 0.45) w (h * 0.55) true false) ;;
  let stripe_y := h * 0.45 in
  append (setFillColor BLUE_PRIMARY) ;;
  append (rect 0 stripe_y (w * 0.5) 4 true false) ;;
  append (setFillColor LOGO_GOLD) ;;
  append (rect (w * 0.5) stripe_y (w * 0.5) 4 true false) ;;
  when logo_exists (
    let logo_w := 2.5 * inch in
    let logo_h := 1.3 * inch in
    let logo_x := MARGIN_LEFT in
    let logo_y := h * 0.82 in
    append (drawImage LOGO_PATH logo_x logo_y logo_w logo_h true "auto") ;;
    ret tt) ;;
  append (setFillColor WHITE) ;;
  append (setFont "Helvetica-Bold" 32) ;;
  let title_y := h * 0.68 in
  append (drawString MARGIN_LEFT title_y "Brand Kit") ;;
  append (setFillColor BLUE_LIGHT) ;;
  append (setFont "Helvetica" 16) ;;
  append (drawString MARGIN_LEFT (title_y - 30) "Visual Identity & Brand Guidelines") ;;
  let badge_y := title_y - 65 in
  append (setFillColor BLUE_PRIMARY) ;;
  append (roundRect MARGIN_LEFT badge_y 120 22 4 true false) ;;
  append (setFillColor WHITE) ;;
  append (setFont "Helvetica-Bold" 9) ;;
  append (drawString (MARGIN_LEFT + 12) (badge_y + 7) "VERSION 1.0") ;;
  let info_y := h * 0.35 in
  append (setFillColor TEXT_GRAY) ;;
  append (setFont "Helvetica" 11) ;;
  append (drawString MARGIN_LEFT info_y "Company: CredSuvidha") ;;
  append (drawString MARGIN_LEFT (info_y - 20) ("Date: " +:+ strftime_B_Y now)) ;;
  append (drawString MARGIN_LEFT (info_y - 40) "Domain: www.credsuvidha.com") ;;
  append (drawString MARGIN_LEFT (info_y - 60) "Industry: Financial Services (Fintech)") ;;
  append (setFillColor LOGO_GOLD) ;;
  append (setFont "Helvetica-Bold" 14) ;;
  append (drawCentredString (w / 2) (h * 0.08) "Trusted Partner. Swift Solutions.") ;;
  append (setFillColor NAVY_DARK) ;;
  append (rect 0 0 w 30 true false) ;;
  append (setFillColor BLUE_LIGHT) ;;
  append (setFont "Helvetica" 7) ;;
  append (drawCentredString (w / 2) 11
    "© 2025 CredSuvidha. All rights reserved. | www.credsuvidha.com") ;;
  append (restoreState).

(** [draw_header_footer(c_obj, doc)] *)
Definition draw_header_footer (doc : DocState) : Prog (list CanvasOp) unit :=
  append (saveState) ;;
  let '(w, h) := A4 in
  append (setStrokeColor BLUE_PRIMARY) ;;
  append (setLineWidth 1.5) ;;
  append (line MARGIN_LEFT (h - 0.55 * inch) (w / 2) (h - 0.55 * inch)) ;;
  append (setStrokeColor LOGO_GOLD) ;;
  append (line (w / 2) (h - 0.55 * inch) (w - MARGIN_RIGHT) (h - 0.55 * inch)) ;;
  append (setFillColor TEXT_GRAY) ;;
  append (setFont "Helvetica" 8) ;;
  append (drawString MARGIN_LEFT (h - 0.48 * inch) "CredSuvidha Brand Kit") ;;
  when logo_exists (
    append (drawImage LOGO_PATH (w - MARGIN_RIGHT - 1.0 * inch) (h - 0.53 * inch) (0.95 *
      inch) (0.42 * inch) true "auto") ;;
    ret tt) ;;
  append (setFillColor NAVY_DARK) ;;
  append (rect 0 0 w (0.4 * inch) true false) ;;
  append (setFillColor BLUE_LIGHT) ;;
  append (setFont "Helvetica" 7) ;;
  append (drawString (0.3 * inch) (0.15 * inch)
    "CredSuvidha — Trusted Partner. Swift Solutions.") ;;
  append (setFillColor LOGO_GOLD) ;;
  append (drawRightString (w - 0.3 * inch) (0.15 * inch) "www.credsuvidha.com") ;;
  append (setFillColor WHITE) ;;
  append (drawCentredString (w / 2) (0.15 * inch) ("Page " +:+ str_of_int (page doc))) ;;
  append (restoreState).

(** The story [build_pdf()] assembles. *)
Definition build_story (styles : StyleSheet) : Prog (list Flowable) unit :=
  append (PageBreak) ;;

  (* ─── Brand Overview ─── *)
  append (Paragraph "Brand Overview" (getitem styles "SectionHeader")) ;;
  append (HRFlowable "100%" 2 BLUE_PRIMARY 12) ;;
  append (Paragraph
    ("CredSuvidha is a modern financial services facilitator providing smart " +:+
     "financial solutions across loans, credit cards, and insurance. With 50+ " +:+
     "banking partners and 10,000+ satisfied customers, we make financial decisions " +:+
     "simple, transparent, and accessible for every Indian.")
    (getitem styles "BodyText")) ;;
  append (Spacer 1 12) ;;
  let tagline_data :=
    [ [CellParagraph ("Trusted Partner. <font color=" +:+ dq +:+ "#C5961E" +:+ dq +:+
        ">Swift Solutions.</font>") (getitem styles "TaglineStyle")] ] in
  let tagline_table := Table_new tagline_data [CONTENT_WIDTH] 0%Z in
  let tagline_table := setStyle tagline_table
    [ BACKGROUND (0, 0)%Z (-1, -1)%Z BLUE_TINT;
      ALIGN (0, 0)%Z (-1, -1)%Z "CENTER";
      TOPPADDING (0, 0)%Z (-1, -1)%Z 16;
      BOTTOMPADDING (0, 0)%Z (-1, -1)%Z 16;
      BOX (0, 0)%Z (-1, -1)%Z 1 BLUE_PRIMARY;
      ROUNDEDCORNERS [8; 8; 8; 8] ] in
  append (FTable tagline_table) ;;
  append (Spacer 1 8) ;;
  append (Paragraph
    "Primary brand tagline — used across all communications"
    (getitem styles "CaptionText")) ;;
  append (Spacer 1 16) ;;
  append (Paragraph "Brand Values" (getitem styles "SubHeader")) ;;
  let values :=
    [ ("Trust",
        "RBI regulated partners, IRDAI registered, ISO 27001 compliant. Security and " +:+
        "compliance at our core.", "#1a6ef5");
      ("Speed", "Swift paperless loan approvals. Quick turnaround powered by 50+ banking "
        +:+ "partners.", "#C5961E");
      ("Expertise",
        "24/7 expert support. 500+ Cr loans disbursed. 10,000+ happy customers served.",
        "#10b981");
      ("Simplicity",
        "Clean, modern, and accessible. Making financial decisions easy for every " +:+
        "Indian.", "#f97316") ] in
  for_each values (fun '(title, desc, color) =>
    accent <- lift (HexColor_of color) ;;
    let val_data :=
      [ [CellParagraph ("<font color=" +:+ dq +:+ color +:+ dq +:+ ">●</font>  <b>" +:+
          title +:+ "</b>") (getitem styles "ValueTitle")];
        [CellParagraph desc (getitem styles "SmallText")] ] in
    let val_table := Table_new val_data [CONTENT_WIDTH] 0%Z in
    let val_table := setStyle val_table
      [ BACKGROUND (0, 0)%Z (-1, -1)%Z WHITE;
        TOPPADDING (0, 0)%Z (0, 0)%Z 8;
        BOTTOMPADDING (0, -1)%Z (-1, -1)%Z 8;
        LEFTPADDING (0, 0)%Z (-1, -1)%Z 12;
        RIGHTPADDING (0, 0)%Z (-1, -1)%Z 12;
        BOX (0, 0)%Z (-1, -1)%Z 0.5 BORDER;
        LINEABOVE (0, 0)%Z (-1, 0)%Z 3 accent ] in
    append (FTable val_table) ;;
    append (Spacer 1 6) ;;
    ret tt) ;;
  append (Spacer 1 10) ;;
  append (Paragraph "Key Metrics" (getitem styles "SubHeader")) ;;
  let stats_data := text_cells
    [ ["500+ Cr"; "10,000+"; "50+"; "24/7"];
      ["Loans Disbursed"; "Happy Customers"; "Banking Partners"; "Expert Support"] ] in
  let stats_table := Table_new stats_data (replicate 4 (CONTENT_WIDTH / 4)) 0%Z in
  let stats_table := setStyle stats_table
    [ FONTNAME (0, 0)%Z (-1, 0)%Z "Helvetica-Bold";
      FONTSIZE (0, 0)%Z (-1, 0)%Z 16;
      TEXTCOLOR (0, 0)%Z (-1, 0)%Z BLUE_PRIMARY;
      FONTNAME (0, 1)%Z (-1, 1)%Z "Helvetica";
      FONTSIZE (0, 1)%Z (-1, 1)%Z 9;
      TEXTCOLOR (0, 1)%Z (-1, 1)%Z TEXT_GRAY;
      ALIGN (0, 0)%Z (-1, -1)%Z "CENTER";
      VALIGN (0, 0)%Z (-1, -1)%Z "MIDDLE";
      TOPPADDING (0, 0)%Z (-1, -1)%Z 10;
      BOTTOMPADDING (0, 0)%Z (-1, -1)%Z 10;
      BACKGROUND (0, 0)%Z (-1, -1)%Z BLUE_TINT;
      BOX (0, 0)%Z (-1, -1)%Z 0.5 BLUE_PALE ] in
  append (FTable stats_table) ;;
  append (PageBreak) ;;

  (* ─── Logo ─── *)
  append (Paragraph "Logo" (getitem styles "SectionHeader")) ;;
  append (HRFlowable "100%" 2 BLUE_PRIMARY 12) ;;
  append (Paragraph
    ("The CredSuvidha logo features interlocking C and S letterforms with an upward " +:+
     "growth arrow, symbolizing financial progress and trusted partnership. The " +:+
     "navy blue represents trust and stability, while the gold represents " +:+
     "prosperity and value.")
    (getitem styles "BodyText")) ;;
  append (Spacer 1 12) ;;
  when logo_exists (
    append (Paragraph "Primary — Light Background" (getitem styles "SubSubHeader")) ;;
    let logo_img := Image_new LOGO_PATH (3.5 * inch) (1.8 * inch) in
    let logo_img := set_hAlign logo_img "CENTER" in
    let logo_data := [[CellImage logo_img]] in
    let logo_table := Table_new logo_data [CONTENT_WIDTH] 0%Z in
    let logo_table := setStyle logo_table
      [ BACKGROUND (0, 0)%Z (-1, -1)%Z WHITE;
        ALIGN (0, 0)%Z (-1, -1)%Z "CENTER";
        TOPPADDING (0, 0)%Z (-1, -1)%Z 20;
        BOTTOMPADDING (0, 0)%Z (-1, -1)%Z 20;
        BOX (0, 0)%Z (-1, -1)%Z 1 BORDER ] in
    append (FTable logo_table) ;;
    append (Spacer 1 12) ;;
    append (Paragraph "On Brand Cream — #FAF6F1" (getitem styles "SubSubHeader")) ;;
    let logo_img2 := Image_new LOGO_PATH (3.5 * inch) (1.8 * inch) in
    let logo_img2 := set_hAlign logo_img2 "CENTER" in
    let logo_data2 := [[CellImage logo_img2]] in
    let logo_table2 := Table_new logo_data2 [CONTENT_WIDTH] 0%Z in
    let logo_table2 := setStyle logo_table2
      [ BACKGROUND (0, 0)%Z (-1, -1)%Z LOGO_BG;
        ALIGN (0, 0)%Z (-1, -1)%Z "CENTER";
        TOPPADDING (0, 0)%Z (-1, -1)%Z 20;
        BOTTOMPADDING (0, 0)%Z (-1, -1)%Z 20;
        BOX (0, 0)%Z (-1, -1)%Z 1 BORDER ] in
    append (FTable logo_table2) ;;
    ret tt) ;;
  append (Spacer 1 12) ;;
  append (Paragraph "Logo Elements" (getitem styles "SubHeader")) ;;
  let elements_data := text_cells
    [ ["Element"; "Description"];
      ["Symbol"; "Interlocking " +:+ dq +:+ "C" +:+ dq +:+ " (navy blue) and " +:+ dq +:+
        "S" +:+ dq +:+ " (gold) with upward growth arrow"];
      ["Wordmark"; dq +:+ "CREDSUVIDHA.COM" +:+ dq +:+ " in navy blue uppercase"];
      ["Tagline"; dq +:+ "TRUSTED PARTNER. SWIFT SOLUTIONS." +:+ dq +:+ " in gold"];
      ["Min Size"; "120px wide (digital) / 30mm (print)"];
      ["Clear Space"; "Equal to the height of the " +:+ dq +:+ "C" +:+ dq +:+
        " around all sides"] ] in
  let elem_table := Table_new elements_data [1.5 * inch; CONTENT_WIDTH - 1.5 * inch] 0%Z in
  let elem_table := setStyle elem_table
    [ FONTNAME (0, 0)%Z (-1, 0)%Z "Helvetica-Bold";
      FONTSIZE (0, 0)%Z (-1, 0)%Z 9;
      TEXTCOLOR (0, 0)%Z (-1, 0)%Z WHITE;
      BACKGROUND (0, 0)%Z (-1, 0)%Z NAVY;
      FONTNAME (0, 1)%Z (-1, -1)%Z "Helvetica";
      FONTSIZE (0, 1)%Z (-1, -1)%Z 9;
      TEXTCOLOR (0, 1)%Z (-1, -1)%Z TEXT_DARK;
      FONTNAME (0, 1)%Z (0, -1)%Z "Helvetica-Bold";
      VALIGN (0, 0)%Z (-1, -1)%Z "MIDDLE";
      TOPPADDING (0, 0)%Z (-1, -1)%Z 6;
      BOTTOMPADDING (0, 0)%Z (-1, -1)%Z 6;
      LEFTPADDING (0, 0)%Z (-1, -1)%Z 8;
      GRID (0, 0)%Z (-1, -1)%Z 0.5 (HexColor "#D1D5DB");
      ROWBACKGROUNDS (0, 1)%Z (-1, -1)%Z [WHITE; BLUE_TINT] ] in
  append (FTable elem_table) ;;
  append (Spacer 1 14) ;;
  append (Paragraph "Usage Guidelines" (getitem styles "SubHeader")) ;;
  let dos_donts := text_cells
    [ ["Do ✓"; "Don't ✗"];
      ["Use on white, cream, or very light backgrounds";
        "Don't stretch or distort the logo"];
      ["Use inverted (white) version on dark backgrounds"; "Don't change the logo colors"];
      ["Maintain proportions when scaling";
        "Don't place on busy or low-contrast backgrounds"];
      ["Keep minimum clear space around logo";
        "Don't add effects like drop shadows or outlines"] ] in
  let dd_table := Table_new dos_donts (replicate 2 (CONTENT_WIDTH / 2)) 0%Z in
  let dd_table := setStyle dd_table
    [ FONTNAME (0, 0)%Z (-1, 0)%Z "Helvetica-Bold";
      FONTSIZE (0, 0)%Z (-1, 0)%Z 10;
      TEXTCOLOR (0, 0)%Z (0, 0)%Z (HexColor "#059669");
      TEXTCOLOR (1, 0)%Z (1, 0)%Z (HexColor "#DC2626");
      BACKGROUND (0, 0)%Z (-1, 0)%Z (HexColor "#F1F5F9");
      FONTNAME (0, 1)%Z (-1, -1)%Z "Helvetica";
      FONTSIZE (0, 1)%Z (-1, -1)%Z 9;
      TEXTCOLOR (0, 1)%Z (-1, -1)%Z TEXT_DARK;
      VALIGN (0, 0)%Z (-1, -1)%Z "TOP";
      TOPPADDING (0, 0)%Z (-1, -1)%Z 6;
      BOTTOMPADDING (0, 0)%Z (-1, -1)%Z 6;
      LEFTPADDING (0, 0)%Z (-1, -1)%Z 8;
      GRID (0, 0)%Z (-1, -1)%Z 0.5 (HexColor "#D1D5DB");
      ROWBACKGROUNDS (0, 1)%Z (-1, -1)%Z [WHITE; HexColor "#FEF2F2"] ] in
  append (FTable dd_table) ;;
  append (PageBreak) ;;

  (* ─── Color Palette ─── *)
  append (Paragraph "Color Palette" (getitem styles "SectionHeader")) ;;
  append (HRFlowable "100%" 2 BLUE_PRIMARY 12) ;;
  append (Paragraph
    ("Our color system is built around trust (navy blue), warmth (gold/amber), " +:+
     "energy (orange), and growth (emerald green).")
    (getitem styles "BodyText")) ;;
  append (Spacer 1 8) ;;
  append (Paragraph "Primary — Brand Blue" (getitem styles "SubHeader")) ;;
  let brand_blue_colors :=
    [ ("950 Navy Dark", "#142857", "Dark backgrounds, footers");
      ("900 Navy", "#193f8f", "Deep accents");
      ("800 Deep Blue", "#1747b6", "Strong emphasis");
      ("700 Blue", "#1458e1", "Links, interactive");
      ("600 Primary ★", "#1a6ef5", "Primary CTA, buttons, icons");
      ("500 Bright", "#338dff", "Hover states, secondary CTA");
      ("400 Light", "#59b0ff", "Decorative elements");
      ("300 Lighter", "#8ecdff", "Subtle highlights");
      ("200 Pale", "#bce0ff", "Light borders");
      ("100 Wash", "#d9edff", "Subtle backgrounds");
      ("50 Tint", "#eef7ff", "Page tint, badges") ] in
  t <- lift (create_color_swatch_table brand_blue_colors 14) ;;
  append (FTable t) ;;
  append (Spacer 1 12) ;;
  append (Paragraph "Logo Colors (Extracted)" (getitem styles "SubHeader")) ;;
  let logo_colors :=
    [ ("Logo Navy", "#1B3A5C", "C letterform, wordmark text");
      ("Logo Gold", "#C5961E", "S letterform, tagline text");
      ("Logo Background", "#FAF6F1", "Original logo background") ] in
  t <- lift (create_color_swatch_table logo_colors 14) ;;
  append (FTable t) ;;
  append (Spacer 1 12) ;;
  append (Paragraph "Accent — Orange" (getitem styles "SubHeader")) ;;
  let accent_colors :=
    [ ("700 Dark", "#c2410c", "Pressed state");
      ("600 Medium", "#ea580c", "Hover state");
      ("500 Primary ★", "#f97316", "Accent CTA, highlights");
      ("400 Light", "#fb923c", "Soft accent");
      ("300 Lighter", "#fdba74", "Decorative");
      ("50 Tint", "#fff7ed", "Accent background") ] in
  t <- lift (create_color_swatch_table accent_colors 14) ;;
  append (FTable t) ;;
  append (PageBreak) ;;
  append (Paragraph "Success — Emerald Green" (getitem styles "SubHeader")) ;;
  let emerald_colors :=
    [ ("600 Dark", "#059669", "Success dark");
      ("500 Primary", "#10b981", "Success indicators, positive values");
      ("400 Light", "#34d399", "Ticker positive values");
      ("50 Tint", "#ecfdf5", "Success background") ] in
  t <- lift (create_color_swatch_table emerald_colors 14) ;;
  append (FTable t) ;;
  append (Spacer 1 12) ;;
  append (Paragraph "Neutrals — Slate Grays" (getitem styles "SubHeader")) ;;
  let neutral_colors :=
    [ ("Slate 900", "#0f172a", "Strongest text");
      ("Text Primary", "#1e293b", "Body text");
      ("Slate 700", "#334155", "Strong secondary");
      ("Text Secondary", "#64748b", "Secondary text, captions");
      ("Text Muted", "#94a3b8", "Muted text, placeholders");
      ("Border", "#e2e8f0", "Borders, dividers");
      ("Background Alt", "#f8fafc", "Alt section backgrounds");
      ("White", "#ffffff", "Page backgrounds, cards") ] in
  t <- lift (create_color_swatch_table neutral_colors 14) ;;
  append (FTable t) ;;
  append (PageBreak) ;;

  (* ─── Gradients ─── *)
  append (Paragraph "Gradients" (getitem styles "SectionHeader")) ;;
  append (HRFlowable "100%" 2 BLUE_PRIMARY 12) ;;
  append (Paragraph
    "Signature gradients used across buttons, backgrounds, and accent elements."
    (getitem styles "BodyText")) ;;
  append (Spacer 1 10) ;;
  let gradients :=
    [ (["#1a6ef5"; "#338dff"], "Primary CTA: brand-600 → brand-500");
      (["#142857"; "#1a6ef5"; "#338dff"], "Hero / Header: navy → brand-600 → brand-500");
      (["#f97316"; "#fb923c"], "Accent CTA: accent-500 → accent-400");
      (["#1a6ef5"; "#338dff"; "#f97316"],
        "Gradient Text: brand-600 → brand-500 → accent-500");
      (["#059669"; "#10b981"], "Success: emerald-600 → emerald-500");
      (["#1a6ef5"; "#59b0ff"], "Logo Badge: brand-600 → brand-400") ] in
  for_each gradients (fun '(colors, label) =>
    d <- lift (create_gradient_drawing colors label None 40) ;;
    append (FDrawing d) ;;
    append (Spacer 1 10) ;;
    ret tt) ;;
  append (Spacer 1 8) ;;
  append (Paragraph "CSS Specifications" (getitem styles "SubSubHeader")) ;;
  let grad_data := text_cells
    [ ["Name"; "CSS Value"];
      ["Primary CTA"; "linear-gradient(135deg, #1a6ef5, #338dff)"];
      ["Hero"; "linear-gradient(135deg, #142857 0%, #1a6ef5 50%, #338dff 100%)"];
      ["Accent CTA"; "linear-gradient(135deg, #f97316, #fb923c)"];
      ["Gradient Text"; "linear-gradient(135deg, #1a6ef5 0%, #338dff 50%, #f97316 100%)"];
      ["Success"; "linear-gradient(135deg, #059669, #10b981)"];
      ["Logo Badge"; "linear-gradient(to bottom right, #1a6ef5, #59b0ff)"] ] in
  let grad_table := Table_new grad_data [1.5 * inch; CONTENT_WIDTH - 1.5 * inch] 0%Z in
  let grad_table := setStyle grad_table
    [ FONTNAME (0, 0)%Z (-1, 0)%Z "Helvetica-Bold";
      FONTSIZE (0, 0)%Z (-1, 0)%Z 9;
      TEXTCOLOR (0, 0)%Z (-1, 0)%Z WHITE;
      BACKGROUND (0, 0)%Z (-1, 0)%Z NAVY;
      FONTNAME (0, 1)%Z (0, -1)%Z "Helvetica-Bold";
      FONTNAME (1, 1)%Z (1, -1)%Z "Courier";
      FONTSIZE (0, 1)%Z (-1, -1)%Z 8;
      TEXTCOLOR (0, 1)%Z (-1, -1)%Z TEXT_DARK;
      VALIGN (0, 0)%Z (-1, -1)%Z "MIDDLE";
      TOPPADDING (0, 0)%Z (-1, -1)%Z 5;
      BOTTOMPADDING (0, 0)%Z (-1, -1)%Z 5;
      LEFTPADDING (0, 0)%Z (-1, -1)%Z 8;
      GRID (0, 0)%Z (-1, -1)%Z 0.5 (HexColor "#D1D5DB");
      ROWBACKGROUNDS (0, 1)%Z (-1, -1)%Z [WHITE; BLUE_TINT] ] in
  append (FTable grad_table) ;;
  append (PageBreak) ;;

  (* ─── Typography ─── *)
  append (Paragraph "Typography" (getitem styles "SectionHeader")) ;;
  append (HRFlowable "100%" 2 BLUE_PRIMARY 12) ;;
  append (Paragraph
    ("A dual typeface system combining clean sans-serif for body text with elegant " +:+
     "serif for display elements.")
    (getitem styles "BodyText")) ;;
  append (Spacer 1 8) ;;
  append (Paragraph "Inter — Primary Typeface (Sans-Serif)" (getitem styles "SubHeader")) ;;
  append (Paragraph
    ("Used for body text, navigation, buttons, labels, and all UI elements. " +:+
     "Available weights: Light (300) through Black (900).")
    (getitem styles "SmallText")) ;;
  append (Spacer 1 4) ;;
  let type_data := text_cells
    [ ["Weight"; "Size"; "Usage"];
      ["Light (300)"; "—"; "Subtle body text, descriptions"];
      ["Regular (400)"; "14-16px"; "Body text, paragraphs"];
      ["Medium (500)"; "13-14px"; "Navigation, labels, badges"];
      ["SemiBold (600)"; "14px"; "Buttons, strong emphasis"];
      ["Bold (700)"; "20-40px"; "Section headers, card titles"];
      ["ExtraBold (800)"; "48-60px"; "Hero headlines, H1"];
      ["Black (900)"; "—"; "Special emphasis only"] ] in
  let type_table := Table_new type_data [1.5 * inch; 1.2 * inch; CONTENT_WIDTH - 2.7 *
    inch] 0%Z in
  let type_table := setStyle type_table
    [ FONTNAME (0, 0)%Z (-1, 0)%Z "Helvetica-Bold";
      FONTSIZE (0, 0)%Z (-1, 0)%Z 9;
      TEXTCOLOR (0, 0)%Z (-1, 0)%Z WHITE;
      BACKGROUND (0, 0)%Z (-1, 0)%Z NAVY;
      FONTNAME (0, 1)%Z (-1, -1)%Z "Helvetica";
      FONTSIZE (0, 1)%Z (-1, -1)%Z 9;
      FONTNAME (0, 1)%Z (0, -1)%Z "Helvetica-Bold";
      VALIGN (0, 0)%Z (-1, -1)%Z "MIDDLE";
      TOPPADDING (0, 0)%Z (-1, -1)%Z 5;
      BOTTOMPADDING (0, 0)%Z (-1, -1)%Z 5;
      LEFTPADDING (0, 0)%Z (-1, -1)%Z 8;
      GRID (0, 0)%Z (-1, -1)%Z 0.5 (HexColor "#D1D5DB");
      ROWBACKGROUNDS (0, 1)%Z (-1, -1)%Z [WHITE; BLUE_TINT] ] in
  append (FTable type_table) ;;
  append (Spacer 1 14) ;;
  append (Paragraph
    "Playfair Display — Display Typeface (Serif)"
    (getitem styles "SubHeader")) ;;
  append (Paragraph
    ("Used sparingly for hero headlines and special emphasis. Conveys elegance and " +:+
     "authority. Available in Bold (700) and ExtraBold (800).")
    (getitem styles "SmallText")) ;;
  append (Spacer 1 10) ;;
  append (Paragraph "Type Scale" (getitem styles "SubHeader")) ;;
  let scale_data := text_cells
    [ ["Element"; "Font"; "Size"; "Weight"];
      ["Hero H1"; "Inter"; "48-60px"; "ExtraBold (800)"];
      ["Section H2"; "Inter"; "36-40px"; "Bold (700)"];
      ["Card H3"; "Inter"; "20-24px"; "SemiBold (600)"];
      ["Body"; "Inter"; "14-16px"; "Regular (400)"];
      ["Small / Label"; "Inter"; "12-13px"; "Medium (500)"];
      ["Caption"; "Inter"; "10-11px"; "Medium, uppercase"];
      ["Display"; "Playfair Display"; "36-60px"; "Bold/ExtraBold"] ] in
  let scale_table := Table_new scale_data [1.5 * inch; 1.5 * inch; 1.3 * inch;
    CONTENT_WIDTH - 4.3 * inch] 0%Z in
  let scale_table := setStyle scale_table
    [ FONTNAME (0, 0)%Z (-1, 0)%Z "Helvetica-Bold";
      FONTSIZE (0, 0)%Z (-1, 0)%Z 9;
      TEXTCOLOR (0, 0)%Z (-1, 0)%Z WHITE;
      BACKGROUND (0, 0)%Z (-1, 0)%Z NAVY;
      FONTNAME (0, 1)%Z (-1, -1)%Z "Helvetica";
      FONTSIZE (0, 1)%Z (-1, -1)%Z 9;
      FONTNAME (0, 1)%Z (0, -1)%Z "Helvetica-Bold";
      VALIGN (0, 0)%Z (-1, -1)%Z "MIDDLE";
      TOPPADDING (0, 0)%Z (-1, -1)%Z 5;
      BOTTOMPADDING (0, 0)%Z (-1, -1)%Z 5;
      LEFTPADDING (0, 0)%Z (-1, -1)%Z 8;
      GRID (0, 0)%Z (-1, -1)%Z 0.5 (HexColor "#D1D5DB");
      ROWBACKGROUNDS (0, 1)%Z (-1, -1)%Z [WHITE; BLUE_TINT] ] in
  append (FTable scale_table) ;;
  append (Spacer 1 14) ;;
  append (Paragraph "Font Loading" (getitem styles "SubSubHeader")) ;;
  append (Paragraph
    ("<font face=" +:+ dq +:+ "Courier" +:+ dq +:+ " size=" +:+ dq +:+ "8" +:+ dq +:+
     ">https://fonts.googleapis.com/css2?family=Inter:wght@300;400;500;600;700;800;900&amp;family=Playfair+Display:wght@700;800&amp;display=swap</font>")
    (getitem styles "SmallText")) ;;
  append (PageBreak) ;;

  (* ─── Buttons & UI Components ─── *)
  append (Paragraph "Buttons & UI Components" (getitem styles "SectionHeader")) ;;
  append (HRFlowable "100%" 2 BLUE_PRIMARY 12) ;;
  append (Paragraph "Button Variants" (getitem styles "SubHeader")) ;;
  let btn_data := text_cells
    [ ["Variant"; "Background"; "Text"; "Shadow"; "Usage"];
      ["Primary"; "gradient(#1a6ef5, #338dff)"; "White"; "brand-500/30";
        "Main CTA: Get Started, Apply Now"];
      ["Secondary"; "White + 2px brand border"; "#1a6ef5"; "None";
        "Secondary: Explore Services"];
      ["Accent"; "gradient(#f97316, #fb923c)"; "White"; "accent-500/30"; "Highlight CTA"];
      ["Dark"; "#142857 solid"; "White"; "None"; "Subtle: Learn More"] ] in
  let btn_table := Table_new btn_data [0.8 * inch; 1.8 * inch; 0.7 * inch; 1.0 * inch;
    CONTENT_WIDTH - 4.3 * inch] 0%Z in
  let btn_table := setStyle btn_table
    [ FONTNAME (0, 0)%Z (-1, 0)%Z "Helvetica-Bold";
      FONTSIZE (0, 0)%Z (-1, 0)%Z 8;
      TEXTCOLOR (0, 0)%Z (-1, 0)%Z WHITE;
      BACKGROUND (0, 0)%Z (-1, 0)%Z NAVY;
      FONTNAME (0, 1)%Z (-1, -1)%Z "Helvetica";
      FONTSIZE (0, 1)%Z (-1, -1)%Z 8;
      FONTNAME (0, 1)%Z (0, -1)%Z "Helvetica-Bold";
      VALIGN (0, 0)%Z (-1, -1)%Z "MIDDLE";
      TOPPADDING (0, 0)%Z (-1, -1)%Z 5;
      BOTTOMPADDING (0, 0)%Z (-1, -1)%Z 5;
      LEFTPADDING (0, 0)%Z (-1, -1)%Z 6;
      GRID (0, 0)%Z (-1, -1)%Z 0.5 (HexColor "#D1D5DB");
      ROWBACKGROUNDS (0, 1)%Z (-1, -1)%Z [WHITE; BLUE_TINT] ] in
  append (FTable btn_table) ;;
  append (Spacer 1 6) ;;
  append (Paragraph
    ("Border-radius: 100px (pill shape)  •  Padding: 12px 28px  •  Font: Inter " +:+
     "SemiBold 14px  •  Transition: 300ms")
    (getitem styles "CaptionText")) ;;
  append (Spacer 1 14) ;;
  append (Paragraph "UI Effects" (getitem styles "SubHeader")) ;;
  let effects_data := text_cells
    [ ["Effect"; "CSS Properties"; "Usage"];
      ["Glass Morphism"; "bg: rgba(255,255,255,0.08); backdrop-filter: blur(20px);" +:+ nl
        +:+ "border: 1px solid rgba(255,255,255,0.15)"; "Hero stats, overlaid cards"];
      ["Card Hover"; "transform: translateY(-8px);" +:+ nl +:+
        "box-shadow: 0 25px 60px rgba(0,0,0,0.12)"; "Service cards, feature cards"];
      ["Pulse Glow"; "box-shadow: 0 0 20-40px rgba(26,110,245,0.3-0.6)";
        "Active states, attention draw"];
      ["Scroll Reveal"; "opacity: 0→1; translateY(30px)→0;" +:+ nl +:+
        "transition: 0.8s ease"; "Section entrance animations"] ] in
  let effects_table := Table_new effects_data [1.1 * inch; 3.0 * inch; CONTENT_WIDTH - 4.1
    * inch] 0%Z in
  let effects_table := setStyle effects_table
    [ FONTNAME (0, 0)%Z (-1, 0)%Z "Helvetica-Bold";
      FONTSIZE (0, 0)%Z (-1, 0)%Z 8;
      TEXTCOLOR (0, 0)%Z (-1, 0)%Z WHITE;
      BACKGROUND (0, 0)%Z (-1, 0)%Z NAVY;
      FONTNAME (0, 1)%Z (-1, -1)%Z "Helvetica";
      FONTSIZE (0, 1)%Z (-1, -1)%Z 8;
      FONTNAME (0, 1)%Z (0, -1)%Z "Helvetica-Bold";
      FONTNAME (1, 1)%Z (1, -1)%Z "Courier";
      VALIGN (0, 0)%Z (-1, -1)%Z "TOP";
      TOPPADDING (0, 0)%Z (-1, -1)%Z 5;
      BOTTOMPADDING (0, 0)%Z (-1, -1)%Z 5;
      LEFTPADDING (0, 0)%Z (-1, -1)%Z 6;
      GRID (0, 0)%Z (-1, -1)%Z 0.5 (HexColor "#D1D5DB");
      ROWBACKGROUNDS (0, 1)%Z (-1, -1)%Z [WHITE; BLUE_TINT] ] in
  append (FTable effects_table) ;;
  append (PageBreak) ;;

  (* ─── Brand Information ─── *)
  append (Paragraph "Brand Information" (getitem styles "SectionHeader")) ;;
  append (HRFlowable "100%" 2 BLUE_PRIMARY 12) ;;
  append (Paragraph "Company Details" (getitem styles "SubHeader")) ;;
  let company_data := text_cells
    [ ["Field"; "Value"];
      ["Company Name"; "CredSuvidha"];
      ["Tagline"; "Trusted Partner. Swift Solutions."];
      ["Description"; "Smart Financial Solutions for a Better Tomorrow"];
      ["Domain"; "www.credsuvidha.com"];
      ["Industry"; "Financial Services (Fintech)"];
      ["Copyright"; "© 2025 CredSuvidha. All rights reserved."] ] in
  let company_table := Table_new company_data [1.5 * inch; CONTENT_WIDTH - 1.5 * inch] 0%Z
    in
  let company_table := setStyle company_table
    [ FONTNAME (0, 0)%Z (-1, 0)%Z "Helvetica-Bold";
      FONTSIZE (0, 0)%Z (-1, 0)%Z 9;
      TEXTCOLOR (0, 0)%Z (-1, 0)%Z WHITE;
      BACKGROUND (0, 0)%Z (-1, 0)%Z NAVY;
      FONTNAME (0, 1)%Z (0, -1)%Z "Helvetica-Bold";
      FONTNAME (1, 1)%Z (1, -1)%Z "Helvetica";
      FONTSIZE (0, 1)%Z (-1, -1)%Z 9;
      TEXTCOLOR (0, 1)%Z (-1, -1)%Z TEXT_DARK;
      VALIGN (0, 0)%Z (-1, -1)%Z "MIDDLE";
      TOPPADDING (0, 0)%Z (-1, -1)%Z 6;
      BOTTOMPADDING (0, 0)%Z (-1, -1)%Z 6;
      LEFTPADDING (0, 0)%Z (-1, -1)%Z 8;
      GRID (0, 0)%Z (-1, -1)%Z 0.5 (HexColor "#D1D5DB");
      ROWBACKGROUNDS (0, 1)%Z (-1, -1)%Z [WHITE; BLUE_TINT] ] in
  append (FTable company_table) ;;
  append (Spacer 1 14) ;;
  append (Paragraph "Contact Information" (getitem styles "SubHeader")) ;;
  let contact_data := text_cells
    [ ["Channel"; "Details"];
      ["Phone"; "+91 93076 73391"];
      ["Email"; "info@credsuvidha.com"];
      ["Website"; "https://www.credsuvidha.com"];
      ["Social"; "Facebook  •  Twitter/X  •  LinkedIn  •  Instagram"] ] in
  let contact_table := Table_new contact_data [1.5 * inch; CONTENT_WIDTH - 1.5 * inch] 0%Z
    in
  let contact_table := setStyle contact_table
    [ FONTNAME (0, 0)%Z (-1, 0)%Z "Helvetica-Bold";
      FONTSIZE (0, 0)%Z (-1, 0)%Z 9;
      TEXTCOLOR (0, 0)%Z (-1, 0)%Z WHITE;
      BACKGROUND (0, 0)%Z (-1, 0)%Z BLUE_PRIMARY;
      FONTNAME (0, 1)%Z (0, -1)%Z "Helvetica-Bold";
      FONTNAME (1, 1)%Z (1, -1)%Z "Helvetica";
      FONTSIZE (0, 1)%Z (-1, -1)%Z 9;
      TEXTCOLOR (0, 1)%Z (-1, -1)%Z TEXT_DARK;
      VALIGN (0, 0)%Z (-1, -1)%Z "MIDDLE";
      TOPPADDING (0, 0)%Z (-1, -1)%Z 6;
      BOTTOMPADDING (0, 0)%Z (-1, -1)%Z 6;
      LEFTPADDING (0, 0)%Z (-1, -1)%Z 8;
      GRID (0, 0)%Z (-1, -1)%Z 0.5 (HexColor "#D1D5DB");
      ROWBACKGROUNDS (0, 1)%Z (-1, -1)%Z [WHITE; BLUE_TINT] ] in
  append (FTable contact_table) ;;
  append (Spacer 1 14) ;;
  append (Paragraph "Compliance & Certifications" (getitem styles "SubHeader")) ;;
  let compliance_items :=
    [ ("RBI Regulated Partners",
        "All banking partners are regulated by the Reserve Bank of India");
      ("IRDAI Registered", "Insurance products through IRDAI registered entities");
      ("ISO 27001 Compliant", "Information security management system compliance") ] in
  for_each compliance_items (fun '(badge, desc) =>
    let comp_data :=
      [ [CellParagraph ("<font color=" +:+ dq +:+ "#059669" +:+ dq +:+ ">✓</font>  <b>" +:+
          badge +:+ "</b>") (getitem styles "BodyLeft")];
        [CellParagraph desc (getitem styles "SmallText")] ] in
    let comp_table := Table_new comp_data [CONTENT_WIDTH] 0%Z in
    let comp_table := setStyle comp_table
      [ BACKGROUND (0, 0)%Z (-1, -1)%Z (HexColor "#ecfdf5");
        TOPPADDING (0, 0)%Z (0, 0)%Z 8;
        BOTTOMPADDING (0, -1)%Z (-1, -1)%Z 8;
        LEFTPADDING (0, 0)%Z (-1, -1)%Z 12;
        BOX (0, 0)%Z (-1, -1)%Z 0.5 EMERALD_LT ] in
    append (FTable comp_table) ;;
    append (Spacer 1 4) ;;
    ret tt) ;;
  append (Spacer 1 14) ;;
  append (Paragraph "Technical Specifications" (getitem styles "SubHeader")) ;;
  let tech_data := text_cells
    [ ["Component"; "Details"];
      ["CSS Framework"; "Tailwind CSS via CDN (cdn.tailwindcss.com) with custom theme"];
      ["Fonts"; "Google Fonts: Inter (300-900) + Playfair Display (700-800)"];
      ["JavaScript";
        "Vanilla JS — scroll reveal, counter animation, mobile menu, smooth scroll"];
      ["Architecture"; "Single-page HTML application — no build step required"];
      ["Hosting"; "Netlify (static) — custom domain: www.credsuvidha.com"];
      ["Git"; "Version controlled — deployed via Git push to Netlify"] ] in
  let tech_table := Table_new tech_data [1.3 * inch; CONTENT_WIDTH - 1.3 * inch] 0%Z in
  let tech_table := setStyle tech_table
    [ FONTNAME (0, 0)%Z (-1, 0)%Z "Helvetica-Bold";
      FONTSIZE (0, 0)%Z (-1, 0)%Z 9;
      TEXTCOLOR (0, 0)%Z (-1, 0)%Z WHITE;
      BACKGROUND (0, 0)%Z (-1, 0)%Z NAVY;
      FONTNAME (0, 1)%Z (0, -1)%Z "Helvetica-Bold";
      FONTNAME (1, 1)%Z (1, -1)%Z "Helvetica";
      FONTSIZE (0, 1)%Z (-1, -1)%Z 9;
      TEXTCOLOR (0, 1)%Z (-1, -1)%Z TEXT_DARK;
      VALIGN (0, 0)%Z (-1, -1)%Z "MIDDLE";
      TOPPADDING (0, 0)%Z (-1, -1)%Z 5;
      BOTTOMPADDING (0, 0)%Z (-1, -1)%Z 5;
      LEFTPADDING (0, 0)%Z (-1, -1)%Z 8;
      GRID (0, 0)%Z (-1, -1)%Z 0.5 (HexColor "#D1D5DB");
      ROWBACKGROUNDS (0, 1)%Z (-1, -1)%Z [WHITE; BLUE_TINT] ] in
  append (FTable tech_table) ;;
  append (PageBreak) ;;

  (* ─── Asset Inventory ─── *)
  append (Paragraph "Asset Inventory" (getitem styles "SectionHeader")) ;;
  append (HRFlowable "100%" 2 BLUE_PRIMARY 12) ;;
  let assets_data := text_cells
    [ ["Asset"; "File Path"; "Purpose"];
      ["Primary Logo"; "logo.png"; "Full logo — symbol + wordmark + tagline"];
      ["Logo (Assets)"; "assets/images/logo.png"; "Same logo in organized assets folder"];
      ["Brand Kit (HTML)"; "assets/brandkit/brand-guidelines.html";
        "Interactive visual brand guidelines"];
      ["Brand Kit (PDF)"; "assets/brandkit/CredSuvidha-BrandKit.pdf"; "This document"];
      ["Brand Tokens"; "assets/brandkit/brand-tokens.json";
        "Machine-readable design tokens"];
      ["Website"; "index.html"; "Main website (single-page application)"];
      ["Netlify Config"; "netlify.toml"; "Deployment config with headers & redirects"] ] in
  let assets_table := Table_new assets_data [1.2 * inch; 2.5 * inch; CONTENT_WIDTH - 3.7 *
    inch] 0%Z in
  let assets_table := setStyle assets_table
    [ FONTNAME (0, 0)%Z (-1, 0)%Z "Helvetica-Bold";
      FONTSIZE (0, 0)%Z (-1, 0)%Z 9;
      TEXTCOLOR (0, 0)%Z (-1, 0)%Z WHITE;
      BACKGROUND (0, 0)%Z (-1, 0)%Z NAVY;
      FONTNAME (0, 1)%Z (-1, -1)%Z "Helvetica";
      FONTSIZE (0, 1)%Z (-1, -1)%Z 9;
      FONTNAME (0, 1)%Z (0, -1)%Z "Helvetica-Bold";
      FONTNAME (1, 1)%Z (1, -1)%Z "Courier";
      FONTSIZE (1, 1)%Z (1, -1)%Z 8;
      TEXTCOLOR (0, 1)%Z (-1, -1)%Z TEXT_DARK;
      TEXTCOLOR (1, 1)%Z (1, -1)%Z BLUE_PRIMARY;
      VALIGN (0, 0)%Z (-1, -1)%Z "MIDDLE";
      TOPPADDING (0, 0)%Z (-1, -1)%Z 6;
      BOTTOMPADDING (0, 0)%Z (-1, -1)%Z 6;
      LEFTPADDING (0, 0)%Z (-1, -1)%Z 8;
      GRID (0, 0)%Z (-1, -1)%Z 0.5 (HexColor "#D1D5DB");
      ROWBACKGROUNDS (0, 1)%Z (-1, -1)%Z [WHITE; BLUE_TINT] ] in
  append (FTable assets_table) ;;
  append (Spacer 1 30) ;;
  let final_note_data :=
    [ [CellParagraph
        ("<b>This brand kit is a living document.</b> As CredSuvidha evolves, update " +:+
        "this guide to reflect new brand elements, services, and visual standards. " +:+
        "Consistency is key to building a strong, trusted brand presence.") (getitem styles
        "BodyLeft")] ] in
  let final_table := Table_new final_note_data [CONTENT_WIDTH] 0%Z in
  let final_table := setStyle final_table
    [ BACKGROUND (0, 0)%Z (-1, -1)%Z BLUE_TINT;
      TOPPADDING (0, 0)%Z (-1, -1)%Z 14;
      BOTTOMPADDING (0, 0)%Z (-1, -1)%Z 14;
      LEFTPADDING (0, 0)%Z (-1, -1)%Z 16;
      RIGHTPADDING (0, 0)%Z (-1, -1)%Z 16;
      BOX (0, 0)%Z (-1, -1)%Z 1 BLUE_PRIMARY ] in
  append (FTable final_table).

End Build.

(** ** The build *)

(** The document [SimpleDocTemplate(OUTPUT_PATH, ...)] describes and
    [doc.build(story, onFirstPage=..., onLaterPages=...)] lays out. *)
Record Document : Type :=
  { doc_filename : string; pagesize : pynum * pynum;
    leftMargin : pynum; rightMargin : pynum; topMargin : pynum; bottomMargin : pynum;
    title : string; author : string; subject : string;
    story : list Flowable;
    onFirstPage : DocState -> Prog (list CanvasOp) unit;
    onLaterPages : DocState -> Prog (list CanvasOp) unit }.

(** What the template draws on the canvas of page [n], before the page's
    flowables: [onFirstPage] on page 1, [onLaterPages] on every other. *)
Definition page_canvas (doc : Document) (n : Z) : result (list CanvasOp) :=
  exec ((if (n =? 1)%Z then onFirstPage doc else onLaterPages doc) {| page := n |}) [].

(** [with open(TOKENS_PATH, 'r') as f: tokens = json.load(f)] *)
Definition load_tokens (file : tokens_file) : result json :=
  match file with
  | TokensAbsent => Raise FileNotFoundError
  | TokensMalformed => Raise JSONDecodeError
  | TokensJson value => Ok value
  end.

Section Run.

Variable LOGO_PATH : string.
Variable OUTPUT_PATH : string.

(** [build_pdf()]: the document written to [OUTPUT_PATH]. *)
Definition build_pdf (logo_exists : bool) (now : datetime) : result Document :=
  let! styles := get_styles in
  let story := [] in
  let! story := exec (build_story LOGO_PATH logo_exists styles) story in
  Ok {| doc_filename := OUTPUT_PATH;
        pagesize := A4;
        leftMargin := MARGIN_LEFT;
        rightMargin := MARGIN_RIGHT;
        topMargin := MARGIN_TOP;
        bottomMargin := MARGIN_BOTTOM;
        title := "CredSuvidha Brand Kit";
        author := "CredSuvidha";
        subject := "Visual Identity & Brand Guidelines";
        story := story;
        onFirstPage := draw_cover_page LOGO_PATH logo_exists now;
        onLaterPages := draw_header_footer LOGO_PATH logo_exists |}.

(** Running the script: the module body loads the tokens into [tokens],
    which nothing reads afterwards, then [build_pdf()] runs. *)
Definition main (w : World) : result Document :=
  let! tokens := load_tokens (brand_tokens w) in
  build_pdf (logo_present w) (clock w).

End Run.

End Pdf.

(** * Reading the documents *)

(** ** The deck *)

Definition shape_left (sh : Pptx.Shape) : Z :=
  match sh with
  | Pptx.AutoShape _ l _ _ _ _ _ | Pptx.TextBox l _ _ _ _ _ | Pptx.Picture _ l _ _ => l
  end.

Definition shape_top (sh : Pptx.Shape) : Z :=
  match sh with
  | Pptx.AutoShape _ _ t _ _ _ _ | Pptx.TextBox _ t _ _ _ _ | Pptx.Picture _ _ t _ => t
  end.

Definition shape_width (sh : Pptx.Shape) : Z :=
  match sh with
  | Pptx.AutoShape _ _ _ w _ _ _ | Pptx.TextBox _ _ w _ _ _ | Pptx.Picture _ _ _ w => w
  end.

Definition is_picture (sh : Pptx.Shape) : bool :=
  match sh with Pptx.Picture _ _ _ _ => true | _ => false end.

(** The slide with more shapes at the end of its shape tree. *)
Definition add_shapes (s : Pptx.Slide) (l : list Pptx.Shape) : Pptx.Slide :=
  {| Pptx.background := Pptx.background s; Pptx.shapes := Pptx.shapes s ++ l;
     Pptx.notes_text := Pptx.notes_text s |}.

(** A solid rectangle without outline, as [add_shape_with_fill] leaves it. *)
Definition filled (shape_type : Pptx.MSO_SHAPE) (left top width height : Z)
    (c : Pptx.RGBColor) : Pptx.Shape :=
  Pptx.AutoShape shape_type left top width height (Pptx.FillSolid (Some c))
    {| Pptx.line_fill := Pptx.FillBackground; Pptx.line_width := None |}.

(** The same with an outline of colour [lc] and width [lw]. *)
Definition outlined (shape_type : Pptx.MSO_SHAPE) (left top width height : Z)
    (c lc : Pptx.RGBColor) (lw : Z) : Pptx.Shape :=
  Pptx.AutoShape shape_type left top width height (Pptx.FillSolid (Some c))
    {| Pptx.line_fill := Pptx.FillSolid (Some lc); Pptx.line_width := Some lw |}.

(** The font [set_font] leaves on a run when it returns: the size is the
    one given, to the centipoint. *)
Definition font_set (size_pt : pynum) (is_bold is_italic : bool) (rgb : Pptx.RGBColor)
    (name : string) : Pptx.Font :=
  {| Pptx.f_name := name;
     Pptx.f_size := Pptx.Centipoints (Pptx.centipoints (Pptx.Pt size_pt));
     Pptx.f_bold := is_bold; Pptx.f_italic := is_italic; Pptx.f_color := rgb |}.

(** The text box [add_textbox] adds. *)
Definition textbox (left top width height : Z) (text : string)
    (kws : list (Pptx.TextKw -> Pptx.TextKw)) : Pptx.Shape :=
  let k := Pptx.keywords kws in
  Pptx.TextBox left top width height true
    [ {| Pptx.p_alignment := Some (Pptx.alignment k); Pptx.p_space_after := None;
         Pptx.p_runs :=
           [ {| Pptx.run_text := text;
                Pptx.run_font := font_set (Pptx.font_size k) (Pptx.bold k)
                                   (Pptx.italic k) (Pptx.color k) (Pptx.font_name k) |} ] |} ].

(** The segments of a band of solid colours: each starts where the one
    before it ends. *)
Fixpoint band (cx y height : Z) (segments : list (Pptx.RGBColor * Z)) : list Pptx.Shape :=
  match segments with
  | [] => []
  | (c, w) :: rest => filled Pptx.RECTANGLE cx y w height c :: band (cx + w) y height rest
  end.

(** All the stops' widths, [int(total_w * fraction)] each. *)
Fixpoint segment_widths (total_w : Z) (fractions : list pynum) : result (list Z) :=
  match fractions with
  | [] => Ok []
  | f :: rest =>
      let! w := Pptx.segment_width total_w f in
      let! ws := segment_widths total_w rest in
      Ok (w :: ws)
  end.

Definition sum_list (l : list Z) : Z := fold_right Z.add 0 l.

(** ** The grid of the specification

    "col = i mod columns, row = i div columns,
     x = originX + col * (cellWidth + gutterX),
     y = originY + row * (cellHeight + gutterY)". *)
Definition spec_grid_origin (originX originY cellWidth cellHeight gutterX gutterY
    columns i : Z) : Z * Z :=
  let col := i mod columns in
  let row := i / columns in
  (originX + col * (cellWidth + gutterX), originY + row * (cellHeight + gutterY)).

(** ** The PDF *)

(** The bands [create_gradient_drawing] draws, from band number [i] on. *)
Fixpoint pdf_band (segment_w height : pynum) (i : Z) (colors : list string)
    : list Pdf.shapes.Shape :=
  match colors with
  | [] => []
  | c :: rest =>
      Pdf.shapes.Rect (PInt i * segment_w)%py 16%py segment_w height (Pdf.HexColor c)
        None 0%py
      :: pdf_band segment_w height (i + 1) rest
  end.

Definition rect_width (sh : Pdf.shapes.Shape) : option pynum :=
  match sh with
  | Pdf.shapes.Rect _ _ w _ _ _ _ => Some w
  | Pdf.shapes.String _ _ _ _ _ _ => None
  end.

(** A colour code [HexColor] accepts. *)
Definition hex_ok (val : string) : Prop := Pdf.HexColor_of val = Ok (Pdf.HexColor val).

(** ** The card grids of the deck

    What each pass over a list of items adds to the slide for item [i],
    written with the origin the grid of the specification gives. *)

Definition brand_values_card (card_w card_h : Z)
    (entry : Z * (string * string * Pptx.RGBColor * string)) : list Pptx.Shape :=
  let '(i, (title, desc, color, icon)) := entry in
  let '(x, y) := spec_grid_origin (Pptx.Inches 0.8) (Pptx.Inches 1.65) card_w card_h
                   (Pptx.Inches 0.3) (Pptx.Inches 0.25) 2 i in
  [ outlined Pptx.RECTANGLE x y card_w card_h Pptx.WHITE Pptx.BORDER (Pptx.Pt 0.5);
    filled Pptx.RECTANGLE x y card_w (Pptx.Pt 5) color;
    filled Pptx.OVAL (x + Pptx.Inches 0.3) (y + Pptx.Inches 0.3) (Pptx.Inches 0.7)
      (Pptx.Inches 0.7) color;
    textbox (x + Pptx.Inches 1.2) (y + Pptx.Inches 0.35) (Pptx.Inches 4) (Pptx.Inches 0.4)
      title [Pptx.kw_font_size 22; Pptx.kw_bold true; Pptx.kw_color Pptx.NAVY_DARK];
    textbox (x + Pptx.Inches 0.3) (y + Pptx.Inches 1.15) (card_w - Pptx.Inches 0.6)
      (Pptx.Inches 0.9) desc [Pptx.kw_font_size 13; Pptx.kw_color Pptx.TEXT_GRAY] ].

Definition technical_card (card_w card_h : Z)
    (entry : Z * (string * string * Pptx.RGBColor)) : list Pptx.Shape :=
  let '(i, (title, desc, color)) := entry in
  let '(x, y) := spec_grid_origin (Pptx.Inches 0.8) (Pptx.Inches 1.65) card_w card_h
                   (Pptx.Inches 0.25) (Pptx.Inches 0.25) 3 i in
  [ outlined Pptx.RECTANGLE x y card_w card_h Pptx.WHITE Pptx.BORDER (Pptx.Pt 0.5);
    filled Pptx.RECTANGLE x y (Pptx.Pt 5) card_h color;
    textbox (x + Pptx.Inches 0.3) (y + Pptx.Inches 0.2) (card_w - Pptx.Inches 0.5)
      (Pptx.Inches 0.35) title
      [Pptx.kw_font_size 15; Pptx.kw_bold true; Pptx.kw_color Pptx.NAVY_DARK];
    textbox (x + Pptx.Inches 0.3) (y + Pptx.Inches 0.6) (card_w - Pptx.Inches 0.5)
      (Pptx.Inches 1.3) desc [Pptx.kw_font_size 12; Pptx.kw_color Pptx.TEXT_GRAY] ].

(** The effect cards are 5.9 in by 1.35 in, on a pitch of 6.3 in by
    1.55 in. *)
Definition effects_card (entry : Z * (string * string * string)) : list Pptx.Shape :=
  let '(i, (title, css, usage)) := entry in
  let '(x, y) := spec_grid_origin (Pptx.Inches 0.8) (Pptx.Inches 3.7)
                   (Pptx.Inches 5.9) (Pptx.Inches 1.35)
                   (Pptx.Inches 6.3 - Pptx.Inches 5.9) (Pptx.Inches 1.55 - Pptx.Inches 1.35)
                   2 i in
  [ outlined Pptx.RECTANGLE x y (Pptx.Inches 5.9) (Pptx.Inches 1.35) Pptx.WHITE Pptx.BORDER
      (Pptx.Pt 0.5);
    filled Pptx.RECTANGLE x y (Pptx.Inches 5.9) (Pptx.Pt 3) Pptx.BLUE_PRIMARY;
    textbox (x + Pptx.Inches 0.2) (y + Pptx.Inches 0.1) (Pptx.Inches 2) (Pptx.Inches 0.3)
      title [Pptx.kw_font_size 13; Pptx.kw_bold true; Pptx.kw_color Pptx.NAVY_DARK];
    textbox (x + Pptx.Inches 0.2) (y + Pptx.Inches 0.4) (Pptx.Inches 3.2) (Pptx.Inches 0.8)
      css [Pptx.kw_font_size 9; Pptx.kw_color Pptx.TEXT_GRAY];
    textbox (x + Pptx.Inches 3.5) (y + Pptx.Inches 0.4) (Pptx.Inches 2.2) (Pptx.Inches 0.8)
      ("Usage:" +:+ nl +:+ usage) [Pptx.kw_font_size 10; Pptx.kw_color Pptx.BLUE_PRIMARY] ].

(** The key-figure cards stand in one row. *)
Definition brand_overview_card (card_width card_height start_x spacing card_y : Z)
    (entry : Z * (string * string * Pptx.RGBColor)) : list Pptx.Shape :=
  let '(i, (number, label, color)) := entry in
  let x := start_x + i * (card_width + spacing) in
  [ outlined Pptx.RECTANGLE x card_y card_width card_height Pptx.WHITE Pptx.BORDER
      (Pptx.Pt 0.5);
    filled Pptx.RECTANGLE x card_y card_width (Pptx.Pt 4) color;
    textbox x (card_y + Pptx.Inches 0.2) card_width (Pptx.Inches 0.6) number
      [Pptx.kw_font_size 28; Pptx.kw_bold true; Pptx.kw_color color;
       Pptx.kw_alignment Pptx.CENTER];
    textbox x (card_y + Pptx.Inches 0.85) card_width (Pptx.Inches 0.4) label
      [Pptx.kw_font_size 12; Pptx.kw_color Pptx.TEXT_GRAY; Pptx.kw_alignment Pptx.CENTER] ].

(** A gradient card: its band, then its two captions.  The cards fill two
    columns top to bottom. *)
Definition gradients_card (card_w card_h start_y : Z)
    (entry : Z * (string * string * list (Pptx.RGBColor * pynum))) : list Pptx.Shape :=
  let '(i, (name, css, color_stops)) := entry in
  let x := Pptx.Inches 0.8 + (if (i <? 3)%Z then 0 else 1) * (card_w + Pptx.Inches 0.3) in
  let y := start_y + (i mod 3) * (card_h + Pptx.Inches 0.55) in
  match segment_widths card_w (map snd color_stops) with
  | Ok widths =>
      band x y card_h (zip (map fst color_stops) widths)
      ++ [ textbox x (y + card_h + Pptx.Pt 2) card_w (Pptx.Inches 0.2) name
             [Pptx.kw_font_size 11; Pptx.kw_bold true; Pptx.kw_color Pptx.NAVY_DARK];
           textbox x (y + card_h + Pptx.Inches 0.22) card_w (Pptx.Inches 0.2) css
             [Pptx.kw_font_size 8; Pptx.kw_color Pptx.TEXT_MUTED] ]
  | Raise _ => []
  end.

Definition stops_ok (card_w : Z)
    (gradient : string * string * list (Pptx.RGBColor * pynum)) : Prop :=
  exists widths, segment_widths card_w (map snd (snd gradient)) = Ok widths.

(** ** The palettes *)

(** The colour a swatch of the deck is filled with. *)
Definition swatch_rgb (hex_code : string) : result Pptx.RGBColor :=
  let! channels := Pptx.hex_channels hex_code in
  let '(r, g, b) := channels in
  Pptx.RGBColor_new r g b.

Definition swatch_ok (entry : string * string) : Prop :=
  exists rgb, swatch_rgb (fst entry) = Ok rgb.

(** A swatch of the brand-blue row with its two captions, the second the
    colour code in upper case. *)
Definition brand_blue_swatch (sw sh sx sy : Z) (entry : Z * (string * string))
    : list Pptx.Shape :=
  let '(i, (hex_code, label)) := entry in
  let x := sx + i * (sw + Pptx.Inches 0.08) in
  match swatch_rgb hex_code with
  | Ok rgb =>
      [ outlined Pptx.RECTANGLE x sy sw sh rgb Pptx.BORDER (Pptx.Pt 0.5);
        textbox x (sy + sh + Pptx.Pt 2) sw (Pptx.Inches 0.2) label
          [Pptx.kw_font_size 8; Pptx.kw_bold true; Pptx.kw_color Pptx.TEXT_GRAY;
           Pptx.kw_alignment Pptx.CENTER];
        textbox x (sy + sh + Pptx.Inches 0.18) sw (Pptx.Inches 0.2) (upper hex_code)
          [Pptx.kw_font_size 7; Pptx.kw_color Pptx.TEXT_MUTED; Pptx.kw_alignment Pptx.CENTER] ]
  | Raise _ => []
  end.

Definition accent_swatch (entry : Z * (string * string)) : list Pptx.Shape :=
  let '(i, (hex_code, label)) := entry in
  let x := Pptx.Inches 0.8 + i * (Pptx.Inches 2.0 + Pptx.Inches 0.08) in
  match swatch_rgb hex_code with
  | Ok rgb =>
      [ outlined Pptx.RECTANGLE x (Pptx.Inches 4.8) (Pptx.Inches 2.0) (Pptx.Inches 0.55) rgb
          Pptx.BORDER (Pptx.Pt 0.5);
        textbox x (Pptx.Inches 5.38) (Pptx.Inches 2.0) (Pptx.Inches 0.25)
          (label +:+ "  " +:+ upper hex_code)
          [Pptx.kw_font_size 8; Pptx.kw_color Pptx.TEXT_GRAY; Pptx.kw_alignment Pptx.CENTER] ]
  | Raise _ => []
  end.

Definition emerald_swatch (entry : Z * (string * string)) : list Pptx.Shape :=
  let '(i, (hex_code, label)) := entry in
  let x := Pptx.Inches 0.8 + i * Pptx.Inches 2.5 in
  match swatch_rgb hex_code with
  | Ok rgb =>
      [ outlined Pptx.RECTANGLE x (Pptx.Inches 6.1) (Pptx.Inches 2.2) (Pptx.Inches 0.5) rgb
          Pptx.BORDER (Pptx.Pt 0.5);
        textbox x (Pptx.Inches 6.63) (Pptx.Inches 2.2) (Pptx.Inches 0.25)
          (label +:+ "  " +:+ upper hex_code)
          [Pptx.kw_font_size 8; Pptx.kw_color Pptx.TEXT_GRAY; Pptx.kw_alignment Pptx.CENTER] ]
  | Raise _ => []
  end.

(** A swatch of the logo colours with its caption, the colour code as it
    is given. *)
Definition logo_swatch (entry : Z * (string * string)) : list Pptx.Shape :=
  let '(i, (hex_code, label)) := entry in
  let x := Pptx.Inches 0.8 + i * Pptx.Inches 2.5 in
  match swatch_rgb hex_code with
  | Ok rgb =>
      [ outlined Pptx.RECTANGLE x (Pptx.Inches 3.4) (Pptx.Inches 2.2) (Pptx.Inches 0.55) rgb
          Pptx.BORDER (Pptx.Pt 0.5);
        textbox x (Pptx.Inches 3.98) (Pptx.Inches 2.2) (Pptx.Inches 0.3)
          (label +:+ "  " +:+ hex_code)
          [Pptx.kw_font_size 9; Pptx.kw_color Pptx.TEXT_GRAY; Pptx.kw_alignment Pptx.CENTER] ]
  | Raise _ => []
  end.

(** The header row and a data row of a palette table of the PDF: the
    swatch, the name, the colour code as given, the usage note. *)
Definition swatch_header : list Pdf.Cell :=
  [Pdf.CellText "Swatch"; Pdf.CellText "Name"; Pdf.CellText "Hex Code"; Pdf.CellText "Usage"].

Definition swatch_row (swatch_size : pynum) (triple : string * string * string)
    : list Pdf.Cell :=
  let '(name, hex_code, usage) := triple in
  [ Pdf.CellDrawing
      {| Pdf.d_width := (swatch_size + 4)%py; Pdf.d_height := (swatch_size + 4)%py;
         Pdf.contents :=
           [ Pdf.shapes.Rect 2%py 2%py swatch_size swatch_size (Pdf.HexColor hex_code)
               (Some (Pdf.HexColor "#D1D5DB")) 0.5%py ] |};
    Pdf.CellText name; Pdf.CellText hex_code; Pdf.CellText usage ].

(** The triple a data row shows. *)
Definition row_triple (row : list Pdf.Cell) : option (string * string * string) :=
  match row with
  | [_; Pdf.CellText name; Pdf.CellText hex_code; Pdf.CellText usage] =>
      Some (name, hex_code, usage)
  | _ => None
  end.

(** ReportLab's reading of the background commands of a table style, for
    one row of a table of [nrows] rows: a negative row index counts from
    the end, [BACKGROUND] paints its rows, [ROWBACKGROUNDS] cycles through
    its colours from its first row on, and a later command paints over an
    earlier one. *)
Definition row_index (nrows r : Z) : Z := if (r <? 0)%Z then nrows + r else r.

Definition paints (nrows row : Z) (cmd : Pdf.TableCmd) : option Pdf.Color :=
  match cmd with
  | Pdf.BACKGROUND (_, sr) (_, er) c =>
      if ((row_index nrows sr <=? row)%Z && (row <=? row_index nrows er)%Z)%bool
      then Some c else None
  | Pdf.ROWBACKGROUNDS (_, sr) (_, er) colors =>
      if ((row_index nrows sr <=? row)%Z && (row <=? row_index nrows er)%Z)%bool
      then colors !! Z.to_nat ((row - row_index nrows sr) mod Z.of_nat (length colors))
      else None
  | _ => None
  end.

Definition row_background (t : Pdf.Table) (row : Z) : option Pdf.Color :=
  let nrows := Z.of_nat (length (Pdf.data t)) in
  fold_left (fun bg cmd => match paints nrows row cmd with Some c => Some c | None => bg end)
    (Pdf.table_style t) None.

(** The column widths and the style every palette table gets: those of the
    table made from no colour at all. *)
Definition swatch_col_widths : list pynum :=
  match Pdf.create_color_swatch_table [] 14%py with
  | Ok t => Pdf.colWidths t
  | Raise _ => []
  end.

Definition swatch_table_style : list Pdf.TableCmd :=
  match Pdf.create_color_swatch_table [] 14%py with
  | Ok t => Pdf.table_style t
  | Raise _ => []
  end.

Definition triple_ok (triple : string * string * string) : Prop :=
  hex_ok (snd (fst triple)).

(** ** The logo *)

(** No picture on any slide. *)
Definition no_picture (prs : Pptx.Presentation) : bool :=
  forallb (fun slide => forallb (fun sh => negb (is_picture sh)) (Pptx.shapes slide))
    (Pptx.slides prs).

Definition is_drawImage (op : Pdf.CanvasOp) : bool :=
  match op with Pdf.drawImage _ _ _ _ _ _ _ => true | _ => false end.

Definition is_image_cell (c : Pdf.Cell) : bool :=
  match c with Pdf.CellImage _ => true | _ => false end.

Definition has_image (f : Pdf.Flowable) : bool :=
  match f with
  | Pdf.FTable t => existsb (existsb is_image_cell) (Pdf.data t)
  | _ => false
  end.

(** The story of the document a run builds, and the canvas operations of
    its page [n]. *)
Definition story_of (run : result Pdf.Document) : result (list Pdf.Flowable) :=
  let! doc := run in Ok (Pdf.story doc).

Definition canvas_of (run : result Pdf.Document) (n : Z) : result (list Pdf.CanvasOp) :=
  let! doc := run in Pdf.page_canvas doc n.

(** A run with the tokens in place, with or without the logo. *)
Definition world_with (tokens : json) (logo : bool) (now : datetime) : World :=
  {| brand_tokens := TokensJson tokens; logo_present := logo; clock := now |}.

(** ** The recurring frame *)

#[global] Instance PP_ALIGN_eq_dec : EqDecision Pptx.PP_ALIGN.
Proof. solve_decision. Defined.
#[global] Instance MSO_SHAPE_eq_dec : EqDecision Pptx.MSO_SHAPE.
Proof. solve_decision. Defined.
#[global] Instance Fill_eq_dec : EqDecision Pptx.Fill.
Proof. solve_decision. Defined.
#[global] Instance Line_eq_dec : EqDecision Pptx.Line.
Proof. solve_decision. Defined.
#[global] Instance Font_eq_dec : EqDecision Pptx.Font.
Proof. solve_decision. Defined.
#[global] Instance Run_eq_dec : EqDecision Pptx.Run.
Proof. solve_decision. Defined.
#[global] Instance Paragraph_eq_dec : EqDecision Pptx.Paragraph.
Proof. solve_decision. Defined.
#[global] Instance Shape_eq_dec : EqDecision Pptx.Shape.
Proof. solve_decision. Defined.







(** Two runs to try things on: one without token file and logo, one with
    both. *)
Definition bare_world : World :=
  {| brand_tokens := TokensAbsent; logo_present := false;
     clock := {| dt_year := 2025; dt_month := 1 |} |}.


(** ** Layout geometry

    A document with its texts blanked: what is left is every position,
    size, colour and font of every block. *)

Definition blank_run (r : Pptx.Run) : Pptx.Run :=
  {| Pptx.run_text := ""; Pptx.run_font := Pptx.run_font r |}.

Definition blank_paragraph (p : Pptx.Paragraph) : Pptx.Paragraph :=
  {| Pptx.p_alignment := Pptx.p_alignment p; Pptx.p_space_after := Pptx.p_space_after p;
     Pptx.p_runs := map blank_run (Pptx.p_runs p) |}.

Definition shape_geometry (sh : Pptx.Shape) : Pptx.Shape :=
  match sh with
  | Pptx.TextBox l t w h wrap paragraphs =>
      Pptx.TextBox l t w h wrap (map blank_paragraph paragraphs)
  | _ => sh
  end.

Definition slide_geometry (slide : Pptx.Slide) : Pptx.Slide :=
  {| Pptx.background := Pptx.background slide;
     Pptx.shapes := map shape_geometry (Pptx.shapes slide);
     Pptx.notes_text := None |}.

Definition deck_geometry (run : result Pptx.Presentation) : result Pptx.Presentation :=
  let! prs := run in
  Ok {| Pptx.slide_width := Pptx.slide_width prs; Pptx.slide_height := Pptx.slide_height prs;
        Pptx.slides := map slide_geometry (Pptx.slides prs) |}.

Definition op_geometry (op : Pdf.CanvasOp) : Pdf.CanvasOp :=
  match op with
  | Pdf.drawString x y _ => Pdf.drawString x y ""
  | Pdf.drawCentredString x y _ => Pdf.drawCentredString x y ""
  | Pdf.drawRightString x y _ => Pdf.drawRightString x y ""
  | _ => op
  end.

Definition canvas_geometry (run : result Pdf.Document) (n : Z)
    : result (list Pdf.CanvasOp) :=
  let! ops := canvas_of run n in Ok (map op_geometry ops).

(** The page size and the margins of the document a run builds. *)
Definition page_setup_of (run : result Pdf.Document)
    : result (pynum * pynum * (pynum * pynum * pynum * pynum)) :=
  let! doc := run in
  Ok (Pdf.pagesize doc,
      (Pdf.leftMargin doc, Pdf.rightMargin doc, Pdf.topMargin doc, Pdf.bottomMargin doc)).

(** ** Gradient stops that can be sized

    [int(total_w * fraction)] raises only when the product is not a finite
    float. *)
Definition sizeable (total_w : Z) (stop : Pptx.RGBColor * pynum) : Prop :=
  match snd stop with
  | PInt _ => True
  | PFloat f =>
      PyFloat.is_finite (PyFloat.of_int total_w) = true
      /\ PyFloat.is_finite (PyFloat.mul (PyFloat.of_int total_w) f) = true
  end.

(** ** What the logo steps add *)

(** On the logo slide, the two cards the logo is shown on and their
    captions. *)
Definition logo_card_light : Pptx.Shape :=
  outlined Pptx.RECTANGLE (Pptx.Inches 0.8) (Pptx.Inches 1.8) (Pptx.Inches 5.4)
    (Pptx.Inches 2.8) Pptx.WHITE Pptx.BORDER (Pptx.Pt 0.5).

Definition logo_caption_light : Pptx.Shape :=
  textbox (Pptx.Inches 0.8) (Pptx.Inches 4.3) (Pptx.Inches 5.4) (Pptx.Inches 0.3)
    "Primary — Light Background"
    [Pptx.kw_font_size 10; Pptx.kw_color Pptx.TEXT_MUTED; Pptx.kw_alignment Pptx.CENTER].

Definition logo_card_cream : Pptx.Shape :=
  outlined Pptx.RECTANGLE (Pptx.Inches 6.5) (Pptx.Inches 1.8) (Pptx.Inches 5.9)
    (Pptx.Inches 2.8) Pptx.LOGO_BG Pptx.BORDER (Pptx.Pt 0.5).

Definition logo_caption_cream : Pptx.Shape :=
  textbox (Pptx.Inches 6.5) (Pptx.Inches 4.3) (Pptx.Inches 5.9) (Pptx.Inches 0.3)
    "On Brand Cream — #FAF6F1"
    [Pptx.kw_font_size 10; Pptx.kw_color Pptx.TEXT_MUTED; Pptx.kw_alignment Pptx.CENTER].

(** The shapes the logo steps add to the deck, slide by slide and in the
    order they are added: the logo on the title and closing slides, the
    logo in the header of the slides between, and on the logo slide the
    two cards, each with the logo and a caption. *)
Definition deck_logo_steps (LOGO_PATH : string) : list (list Pptx.Shape) :=
  let header :=
    Pptx.Picture LOGO_PATH (Pptx.Inches 10.8) (Pptx.Inches 0.2) (Pptx.Inches 2.2) in
  [ [ Pptx.Picture LOGO_PATH (Pptx.Inches 3.8) (Pptx.Inches 0.6) (Pptx.Inches 5.5) ];
    [ header ];
    [ header;
      logo_card_light;
      Pptx.Picture LOGO_PATH (Pptx.Inches 1.5) (Pptx.Inches 2.0) (Pptx.Inches 4.0);
      logo_caption_light;
      logo_card_cream;
      Pptx.Picture LOGO_PATH (Pptx.Inches 7.4) (Pptx.Inches 2.0) (Pptx.Inches 4.0);
      logo_caption_cream ] ]
  ++ replicate 8 [ header ]
  ++ [ [ Pptx.Picture LOGO_PATH (Pptx.Inches 4.2) (Pptx.Inches 0.5) (Pptx.Inches 5.0) ] ].

(** A shape a logo step adds: a picture, or one of the cards and captions
    of the logo slide. *)
Definition is_logo_step (sh : Pptx.Shape) : bool :=
  match sh with
  | Pptx.Picture _ _ _ _ => true
  | _ => existsb (fun x => bool_decide (sh = x))
           [logo_card_light; logo_caption_light; logo_card_cream; logo_caption_cream]
  end.

Definition without_logo_steps (slide : Pptx.Slide) : list Pptx.Shape :=
  filter (fun sh => negb (is_logo_step sh)) (Pptx.shapes slide).

(** The style of that name in the sheet [get_styles] returns. *)
Definition style_of (key : string) : Pdf.ParagraphStyle :=
  match Pdf.get_styles with
  | Ok styles => Pdf.getitem styles key
  | Raise _ => Pdf.ParagraphStyle_new key []
  end.

(** The flowables the logo step adds to the story of the PDF: the logo on
    white and on cream, each under its heading. *)
Definition pdf_logo_table (LOGO_PATH : string) (background : Pdf.Color) : Pdf.Table :=
  Pdf.setStyle
    (Pdf.Table_new
       [[Pdf.CellImage (Pdf.set_hAlign
                          (Pdf.Image_new LOGO_PATH (3.5 * Pdf.inch)%py (1.8 * Pdf.inch)%py)
                          "CENTER")]]
       [Pdf.CONTENT_WIDTH] 0)
    [ Pdf.BACKGROUND (0, 0) (-1, -1) background;
      Pdf.ALIGN (0, 0) (-1, -1) "CENTER";
      Pdf.TOPPADDING (0, 0) (-1, -1) 20%py;
      Pdf.BOTTOMPADDING (0, 0) (-1, -1) 20%py;
      Pdf.BOX (0, 0) (-1, -1) 1%py Pdf.BORDER ].

Definition pdf_logo_blocks (LOGO_PATH : string) : list Pdf.Flowable :=
  [ Pdf.Paragraph "Primary — Light Background" (style_of "SubSubHeader");
    Pdf.FTable (pdf_logo_table LOGO_PATH Pdf.WHITE);
    Pdf.Spacer 1%py 12%py;
    Pdf.Paragraph "On Brand Cream — #FAF6F1" (style_of "SubSubHeader");
    Pdf.FTable (pdf_logo_table LOGO_PATH Pdf.LOGO_BG) ].

(** The image files drawn on a canvas. *)
Definition canvas_images (ops : list Pdf.CanvasOp) : list string :=
  omap (fun op => match op with Pdf.drawImage f _ _ _ _ _ _ => Some f | _ => None end) ops.

(** ** The parts of the frame of a slide *)


(** * Further readings of the documents *)

(** ** Colour codes *)

(** A colour code as the scripts write them: [#] and six hexadecimal
    digits. *)
Definition is_hex_digit (c : ascii) : bool :=
  match hex_digit c with Some _ => true | None => false end.

Definition is_rrggbb (code : string) : bool :=
  match list_ascii_of_string code with
  | [c0; c1; c2; c3; c4; c5; c6] =>
      bool_decide (c0 = "#"%char) && forallb is_hex_digit [c1; c2; c3; c4; c5; c6]
  | _ => false
  end.

(** A text without any digit: its characters are ASCII and none is a
    decimal or hexadecimal digit, so that [int()] finds no number in it, in
    base 10 or in base 16. *)
Definition digitless (code : string) : bool :=
  forallb (fun c => (nat_of_ascii c <? 128)%nat && negb (is_hex_digit c))
    (list_ascii_of_string code).

(** ** Cards on a slide *)

(** Two cards of width [w] and height [h] with their top-left corners at
    [a] and [b] cover a common area. *)
Definition cards_overlap (a b : Z * Z) (w h : Z) : Prop :=
  fst a < fst b + w /\ fst b < fst a + w /\ snd a < snd b + h /\ snd b < snd a + h.

(** ** What a helper leaves of a slide *)

(** [s'] is [s] with [n] more shapes at the end: background, notes and the
    shapes that were there are as they were. *)
Definition extends_by (n : nat) (s s' : Pptx.Slide) : Prop :=
  Pptx.background s' = Pptx.background s
  /\ Pptx.notes_text s' = Pptx.notes_text s
  /\ exists added, length added = n /\ Pptx.shapes s' = Pptx.shapes s ++ added.

(** A helper run on [s] returns and extends [s] by [n] shapes. *)
Definition appends {A : Type} (n : nat) (helper : Pptx.SlideM A) (s : Pptx.Slide) : Prop :=
  exists a s', helper s = Ok (a, s') /\ extends_by n s s'.

(** A font size [set_font] accepts: it converts to EMU, and is between
    1 pt and 4000 pt to the centipoint. *)
Definition valid_font_size (size_pt : pynum) : Prop :=
  exists emu, Pptx.Pt_of size_pt = Ok emu
              /\ 100 <= Pptx.centipoints emu /\ Pptx.centipoints emu <= 400000.

(** The paragraph of an item of a bullet list. *)
Definition bullet_item (size_pt : pynum) (rgb : Pptx.RGBColor)
    (bullet_color : option Pptx.RGBColor) (spacing : Z) (item : string) : Pptx.Paragraph :=
  {| Pptx.p_alignment := None;
     Pptx.p_space_after := Some (Pptx.Centipoints (Pptx.centipoints spacing));
     Pptx.p_runs :=
       [ {| Pptx.run_text := "●  ";
            Pptx.run_font := font_set (size_pt - 2)%py false false
                               (default Pptx.BLUE_PRIMARY bullet_color) "Calibri" |};
         {| Pptx.run_text := item;
            Pptx.run_font := font_set size_pt false false rgb "Calibri" |} ] |}.

(** The three shapes of a button: the rounded rectangle, outlined when the
    button is white, its text and its label. *)
Definition button_shapes (entry : Z * (string * Pptx.RGBColor * Pptx.RGBColor * string))
    : list Pptx.Shape :=
  let '(i, (text, bg_color, text_color, label)) := entry in
  let x := Pptx.Inches 0.8 + i * Pptx.Inches 2.8 in
  let y := Pptx.Inches 1.8 in
  [ if bool_decide (bg_color = Pptx.WHITE)
    then outlined Pptx.ROUNDED_RECTANGLE x y (Pptx.Inches 2.4) (Pptx.Inches 0.55) bg_color
           Pptx.BLUE_PRIMARY (Pptx.Pt 2)
    else filled Pptx.ROUNDED_RECTANGLE x y (Pptx.Inches 2.4) (Pptx.Inches 0.55) bg_color;
    textbox x (y + Pptx.Pt 4) (Pptx.Inches 2.4) (Pptx.Inches 0.45) text
      [Pptx.kw_font_size 13; Pptx.kw_bold true; Pptx.kw_color text_color;
       Pptx.kw_alignment Pptx.CENTER];
    textbox x (y + Pptx.Inches 0.6) (Pptx.Inches 2.4) (Pptx.Inches 0.2) label
      [Pptx.kw_font_size 9; Pptx.kw_color Pptx.TEXT_MUTED; Pptx.kw_alignment Pptx.CENTER] ].

(** The line of an auto shape has a colour. *)
Definition has_outline (sh : Pptx.Shape) : bool :=
  match sh with
  | Pptx.AutoShape _ _ _ _ _ _ {| Pptx.line_fill := Pptx.FillSolid (Some _) |} => true
  | _ => false
  end.

(** ** The deck as a whole *)

Definition solid_background (s : Pptx.Slide) : bool :=
  match Pptx.background s with Pptx.FillSolid (Some _) => true | _ => false end.

Definition has_notes (s : Pptx.Slide) : bool :=
  match Pptx.notes_text s with Some _ => true | None => false end.


(** The image files of the pictures of a slide and of the tables of a
    story. *)
Definition slide_pictures (s : Pptx.Slide) : list string :=
  omap (fun sh => match sh with Pptx.Picture f _ _ _ => Some f | _ => None end)
    (Pptx.shapes s).

Definition story_tables (story : list Pdf.Flowable) : list Pdf.Table :=
  omap (fun f => match f with Pdf.FTable t => Some t | _ => None end) story.

Definition table_images (t : Pdf.Table) : list string :=
  omap (fun c => match c with Pdf.CellImage img => Some (Pdf.filename img) | _ => None end)
    (concat (Pdf.data t)).

(** Every row of the table has one cell per column width. *)
Definition table_rectangular (t : Pdf.Table) : bool :=
  forallb (fun row => (length row =? length (Pdf.colWidths t))%nat) (Pdf.data t).

Definition is_state_op (op : Pdf.CanvasOp) : bool :=
  match op with Pdf.saveState | Pdf.restoreState => true | _ => false end.




(** ** Sample inputs *)

(** The first two gradients of the gradients slide. *)
Definition deck_gradients : list (string * string * list (Pptx.RGBColor * pynum)) :=
  [ ("Primary CTA", "linear-gradient(135deg, #1a6ef5, #338dff)",
     [(Pptx.BLUE_PRIMARY, 0.5%py); (Pptx.BLUE_BRIGHT, 0.5%py)]);
    ("Hero / Header", "linear-gradient(135deg, #142857 → #1a6ef5 → #338dff)",
     [(Pptx.NAVY_DARK, 0.33%py); (Pptx.BLUE_PRIMARY, 0.34%py); (Pptx.BLUE_BRIGHT, 0.33%py)]) ].

(** The logo colours of the PDF palette. *)
Definition three_colors : list (string * string * string) :=
  [ ("Logo Navy", "#1B3A5C", "C letterform, wordmark text");
    ("Logo Gold", "#C5961E", "S letterform, tagline text");
    ("Logo Background", "#FAF6F1", "Original logo background") ].
(** * Proofs *)

(** ** Sequences of statements on a slide *)

Lemma alter_snoc {A} (f : A -> A) (l : list A) (x : A) :
  alter f (length l) (l ++ [x]) = l ++ [f x].
Proof.
  replace (length l) with (length l + 0)%nat by lia.
  rewrite alter_app_r. reflexivity.
Qed.

Lemma add_shapes_app s l1 l2 : add_shapes (add_shapes s l1) l2 = add_shapes s (l1 ++ l2).
Proof. unfold add_shapes; simpl. by rewrite app_assoc. Qed.

Lemma add_shapes_nil s : add_shapes s [] = s.
Proof. destruct s; unfold add_shapes; simpl. by rewrite app_nil_r. Qed.

Lemma add_shape_with_fill_spec l t w h c ty s :
  Pptx.add_shape_with_fill l t w h c ty s
  = Ok (length (Pptx.shapes s), add_shapes s [filled ty l t w h c]).
Proof.
  destruct s as [bg shs nt].
  unfold Pptx.add_shape_with_fill, Pptx.shapes_add, Pptx.fill_solid,
    Pptx.set_fill_fore_color, Pptx.line_fill_background, Pptx.set_shapes,
    bind, ret, add_shapes, filled; simpl.
  rewrite !alter_snoc. reflexivity.
Qed.

(** One statement, or one idiom of a few statements, run in front of the
    rest [k] of a sequence. *)
Lemma step_fill {B} l t w h c ty (k : nat -> Pptx.SlideM B) s :
  bind (Pptx.add_shape_with_fill l t w h c ty) k s
  = k (length (Pptx.shapes s)) (add_shapes s [filled ty l t w h c]).
Proof. unfold bind. by rewrite add_shape_with_fill_spec. Qed.

Lemma step_outlined {B} l t w h c ty lc lw (k : Pptx.SlideM B) s :
  bind (Pptx.add_shape_with_fill l t w h c ty)
    (fun card => bind (Pptx.set_line_color card lc)
       (fun _ => bind (Pptx.set_line_width card lw) (fun _ => k))) s
  = k (add_shapes s [outlined ty l t w h c lc lw]).
Proof.
  rewrite step_fill. destruct s as [bg shs nt].
  unfold bind, Pptx.set_line_color, Pptx.set_line_width, Pptx.set_shapes, add_shapes; simpl.
  rewrite !alter_snoc. reflexivity.
Qed.

Lemma step_segment {B} l t w h c ty (k : Pptx.SlideM B) s :
  bind (Pptx.add_shape_with_fill l t w h c ty)
    (fun seg => bind (Pptx.line_fill_background seg) (fun _ => k)) s
  = k (add_shapes s [filled ty l t w h c]).
Proof.
  rewrite step_fill. destruct s as [bg shs nt].
  unfold bind, Pptx.line_fill_background, Pptx.set_shapes, add_shapes; simpl.
  rewrite !alter_snoc. reflexivity.
Qed.

Lemma step_textbox {B} l t w h text kws (k : nat -> Pptx.SlideM B) s :
  (let kw := Pptx.keywords kws in
   Pptx.set_font (Pptx.font_size kw) (Pptx.bold kw) (Pptx.italic kw) (Pptx.color kw)
     (Pptx.font_name kw)
   = Ok (font_set (Pptx.font_size kw) (Pptx.bold kw) (Pptx.italic kw) (Pptx.color kw)
           (Pptx.font_name kw))) ->
  bind (Pptx.add_textbox l t w h text kws) k s
  = k (length (Pptx.shapes s)) (add_shapes s [textbox l t w h text kws]).
Proof.
  cbv zeta. intros Hfont. unfold Pptx.add_textbox, textbox. cbv zeta.
  unfold bind at 1. unfold bind at 1. unfold lift. rewrite Hfont. reflexivity.
Qed.

Lemma step_lift {S A B} (r : result A) (a : A) (k : A -> Prog S B) s :
  r = Ok a -> bind (lift r) k s = k a s.
Proof. intros ->. reflexivity. Qed.

Lemma returns_elim {A} (P : A -> Prop) (r : result A) :
  returns P r -> exists a, r = Ok a /\ P a.
Proof. destruct r as [a|e]; simpl; [by exists a|tauto]. Qed.

Lemma step_ret {S} (s : S) : ret tt s = Ok (tt, s).
Proof. reflexivity. Qed.

Ltac slide_steps :=
  repeat first
    [ rewrite step_outlined
    | rewrite step_segment
    | rewrite step_fill
    | rewrite step_textbox by reflexivity
    | rewrite add_shapes_app ];
  try rewrite step_ret.

(** A loop whose body only adds shapes adds them item after item. *)
Lemma for_each_emits {A} (P : A -> Prop) (body : A -> Pptx.SlideM unit)
    (emit : A -> list Pptx.Shape) (l : list A) :
  (forall x s, P x -> body x s = Ok (tt, add_shapes s (emit x))) ->
  Forall P l ->
  forall s, for_each l body s = Ok (tt, add_shapes s (flat_map emit l)).
Proof.
  intros Hbody Hl. induction Hl as [|x l Hx Hl IH]; intros s; simpl.
  - unfold ret. by rewrite add_shapes_nil.
  - unfold bind. rewrite (Hbody x s Hx), IH. by rewrite add_shapes_app.
Qed.

Lemma for_each_all {A} (body : A -> Pptx.SlideM unit) (emit : A -> list Pptx.Shape) l :
  (forall x s, body x s = Ok (tt, add_shapes s (emit x))) ->
  forall s, for_each l body s = Ok (tt, add_shapes s (flat_map emit l)).
Proof.
  intros H. apply (for_each_emits (fun _ => True)); [auto|].
  apply Forall_forall; auto.
Qed.

Lemma enumerate_Forall {A} (P : A -> Prop) (l : list A) :
  Forall P l -> Forall (fun entry => P (snd entry)) (enumerate l).
Proof.
  unfold enumerate. generalize 0. intros n H. revert n.
  induction H; intros n; simpl; constructor; auto.
Qed.

(** ** Gradient bands *)

Lemma gradient_segments_spec total_w card_h y (stops : list (Pptx.RGBColor * pynum)) :
  forall cx widths s,
    segment_widths total_w (map snd stops) = Ok widths ->
    Pptx.gradient_segments total_w card_h y cx stops s
    = Ok (tt, add_shapes s (band cx y card_h (zip (map fst stops) widths))).
Proof.
  induction stops as [|[c f] stops IH]; intros cx widths s Hw; simpl in *.
  - injection Hw as <-. simpl. unfold ret. by rewrite add_shapes_nil.
  - destruct (Pptx.segment_width total_w f) as [w|] eqn:Ew; [|discriminate].
    simpl in Hw.
    destruct (segment_widths total_w (map snd stops)) as [ws|] eqn:Ews; [|discriminate].
    injection Hw as <-. simpl.
    rewrite (step_lift _ w) by done.
    rewrite step_segment. rewrite (IH _ ws) by done.
    by rewrite add_shapes_app.
Qed.

Lemma band_length cx y h segs : length (band cx y h segs) = length segs.
Proof. revert cx; induction segs as [|[c w] segs IH]; intros cx; simpl; [done|by rewrite IH]. Qed.

Lemma band_lookup segs : forall cx y h (i : nat) c w,
  segs !! i = Some (c, w) ->
  band cx y h segs !! i
  = Some (filled Pptx.RECTANGLE (cx + sum_list (take i (map snd segs))) y w h c).
Proof.
  induction segs as [|[c0 w0] segs IH]; intros cx y h i c w Hi; [done|].
  destruct i as [|i]; simpl in *.
  - injection Hi as -> ->. by rewrite Z.add_0_r.
  - rewrite (IH _ _ _ _ _ _ Hi). do 2 f_equal. unfold sum_list. simpl. lia.
Qed.

Lemma segment_widths_Forall2 total_w fractions : forall widths,
  segment_widths total_w fractions = Ok widths ->
  Forall2 (fun f w => Pptx.segment_width total_w f = Ok w) fractions widths.
Proof.
  induction fractions as [|f fs IH]; intros widths H; simpl in H.
  - injection H as <-. constructor.
  - destruct (Pptx.segment_width total_w f) as [w|] eqn:Ew; [|discriminate]. simpl in H.
    destruct (segment_widths total_w fs) as [ws|] eqn:Ews; [|discriminate].
    injection H as <-. constructor; auto.
Qed.

Lemma pdf_band_loop segment_w height colors : forall i d,
  Forall hex_ok colors ->
  for_each (enumerate_from i colors) (fun '(i, color) =>
      bind (lift (Pdf.HexColor_of color)) (fun fill =>
        Pdf.add (Pdf.shapes.Rect (PInt i * segment_w)%py 16%py segment_w height fill None 0%py))) d
  = Ok (tt, {| Pdf.d_width := Pdf.d_width d; Pdf.d_height := Pdf.d_height d;
               Pdf.contents := Pdf.contents d ++ pdf_band segment_w height i colors |}).
Proof.
  induction colors as [|c colors IH]; intros i d Hok; simpl.
  - unfold ret. destruct d; simpl. by rewrite app_nil_r.
  - inversion Hok as [|? ? Hc Hrest]; subst.
    unfold bind at 1. unfold bind at 1. unfold lift. rewrite Hc. unfold Pdf.add at 1.
    rewrite IH by done. simpl. by rewrite <- app_assoc.
Qed.

Lemma create_gradient_drawing_spec colors label width height segment_w :
  py_truediv (Pdf.width_or width Pdf.CONTENT_WIDTH) (PInt (Z.of_nat (length colors)))
    = Ok segment_w ->
  Forall hex_ok colors ->
  Pdf.create_gradient_drawing colors label width height
  = Ok {| Pdf.d_width := Pdf.width_or width Pdf.CONTENT_WIDTH;
          Pdf.d_height := (height + 16)%py;
          Pdf.contents := pdf_band segment_w height 0 colors
                          ++ [Pdf.shapes.String 4%py 2%py label "Helvetica" 7%py Pdf.TEXT_GRAY] |}.
Proof.
  intros Hdiv Hok. unfold Pdf.create_gradient_drawing. rewrite Hdiv. cbn [result_bind].
  unfold exec, enumerate. unfold bind at 1. rewrite pdf_band_loop by done. reflexivity.
Qed.

Lemma pdf_band_length segment_w height colors : forall i,
  length (pdf_band segment_w height i colors) = length colors.
Proof. induction colors as [|c colors IH]; intros i; simpl; [done|by rewrite IH]. Qed.

Lemma pdf_band_widths segment_w height colors : forall i,
  Forall (fun sh => rect_width sh = Some segment_w) (pdf_band segment_w height i colors).
Proof. induction colors as [|c colors IH]; intros i; simpl; constructor; auto. Qed.

(** C1 (as amended).  In the deck, given stops ((c_1,f_1),...,(c_n,f_n)) and
    a band of width [total_w] starting at [x], the inner loop of
    [build_gradients_slide] adds exactly one solid rectangle without outline
    per stop, in stop order; segment [i] has width [int(total_w * f_i)]
    (truncation, not rounding) and starts at [x] plus the widths of the
    segments before it, so consecutive segments adjoin; no stop's width is
    adjusted afterwards.  In the PDF, [create_gradient_drawing] draws one
    rectangle per colour, band [i] at [i * segment_w], all of the same float
    width [segment_w = w / len(colors)], then the label. *)
Theorem gradient_bands
    (total_w card_h y x : Z) (stops : list (Pptx.RGBColor * pynum)) (widths : list Z)
    (s : Pptx.Slide)
    (colors : list string) (label : string) (width : option pynum)
    (height segment_w : pynum)
    (Hwidths : segment_widths total_w (map snd stops) = Ok widths)
    (Hdiv : py_truediv (Pdf.width_or width Pdf.CONTENT_WIDTH)
              (PInt (Z.of_nat (length colors))) = Ok segment_w)
    (Hcolors : Forall hex_ok colors) :
  let segments := band x y card_h (zip (map fst stops) widths) in
  let bands := pdf_band segment_w height 0 colors in
  (Pptx.gradient_segments total_w card_h y x stops s = Ok (tt, add_shapes s segments)
   /\ length segments = length stops
   /\ Forall2 (fun stop w => Pptx.segment_width total_w (snd stop) = Ok w) stops widths
   /\ forall (i : nat) c w,
        stops !! i = Some c -> widths !! i = Some w ->
        segments !! i
        = Some (filled Pptx.RECTANGLE (x + sum_list (take i widths)) y w card_h (fst c)))
  /\
  (Pdf.create_gradient_drawing colors label width height
   = Ok {| Pdf.d_width := Pdf.width_or width Pdf.CONTENT_WIDTH;
           Pdf.d_height := (height + 16)%py;
           Pdf.contents :=
             bands ++ [Pdf.shapes.String 4%py 2%py label "Helvetica" 7%py Pdf.TEXT_GRAY] |}
   /\ length bands = length colors
   /\ Forall (fun sh => rect_width sh = Some segment_w) bands).
Proof.
  intros segments bands.
  pose proof (segment_widths_Forall2 _ _ _ Hwidths) as HF.
  assert (Hlen : length widths = length stops).
  { apply Forall2_length in HF. rewrite length_map in HF. done. }
  split; [split; [|split; [|split]]|split; [|split]].
  - by apply gradient_segments_spec.
  - unfold segments. rewrite band_length, length_zip, length_map. lia.
  - apply Forall2_fmap_l in HF. exact HF.
  - intros i c w Hc Hw. unfold segments.
    erewrite band_lookup.
    + rewrite snd_zip by (rewrite length_map; lia). reflexivity.
    + apply lookup_zip_with_Some. exists (fst c), w. split; [done|]. split; [|done].
      rewrite list_lookup_fmap, Hc. done.
  - by apply create_gradient_drawing_spec.
  - apply pdf_band_length.
  - apply pdf_band_widths.
Qed.

Lemma gradient_bands_witness :
  segment_widths (Pptx.Inches 5.8)
    [0.33%py; 0.34%py; 0.33%py] = Ok [1750161; 1803196; 1750161]
  /\ Forall hex_ok ["#142857"; "#1a6ef5"; "#338dff"]
  /\ Pptx.gradient_segments (Pptx.Inches 5.8) (Pptx.Inches 0.7) (Pptx.Inches 1.65)
       (Pptx.Inches 0.8)
       [(Pptx.NAVY_DARK, 0.33%py); (Pptx.BLUE_PRIMARY, 0.34%py); (Pptx.BLUE_BRIGHT, 0.33%py)]
       Pptx.blank_slide
     = Ok (tt, add_shapes Pptx.blank_slide
                 (band (Pptx.Inches 0.8) (Pptx.Inches 1.65) (Pptx.Inches 0.7)
                    [(Pptx.NAVY_DARK, 1750161); (Pptx.BLUE_PRIMARY, 1803196);
                     (Pptx.BLUE_BRIGHT, 1750161)])).
Proof.
  assert (H1 : segment_widths (Pptx.Inches 5.8) [0.33%py; 0.34%py; 0.33%py]
               = Ok [1750161; 1803196; 1750161]) by (vm_compute; reflexivity).
  assert (H2 : Forall hex_ok ["#142857"; "#1a6ef5"; "#338dff"])
    by (repeat constructor; vm_compute; reflexivity).
  split; [exact H1|]. split; [exact H2|].
  exact (proj1 (proj1 (gradient_bands (Pptx.Inches 5.8) (Pptx.Inches 0.7) (Pptx.Inches 1.65)
           (Pptx.Inches 0.8)
           [(Pptx.NAVY_DARK, 0.33%py); (Pptx.BLUE_PRIMARY, 0.34%py); (Pptx.BLUE_BRIGHT, 0.33%py)]
           [1750161; 1803196; 1750161] Pptx.blank_slide
           ["#142857"; "#1a6ef5"; "#338dff"] "Hero" None 40%py
           (Pdf.CONTENT_WIDTH / 3)%py H1 ltac:(vm_compute; reflexivity) H2))).
Defined.

(** C1 as stated fails: stops [(blue,0.5),(orange,0.5)] over width 581 give
    the widths [290, 290] (at x = 80 and x = 370), whose sum is 580, not
    [290, 291]; on the deck's own hero gradient (0.33, 0.34, 0.33 over
    5.8 in) the widths fall 2 EMU short of the card; and the PDF draws two
    bands of 290.5 points each. *)
Lemma gradient_remainder_not_absorbed :
  segment_widths 581 [0.5%py; 0.5%py] = Ok [290; 290]
  /\ sum_list [290; 290] <> 581
  /\ (exists s,
        exec (Pptx.gradient_segments 581 (Pptx.Inches 0.7) 0 80
                [(Pptx.BLUE_PRIMARY, 0.5%py); (Pptx.ACCENT_PRI, 0.5%py)]) Pptx.blank_slide
        = Ok s
        /\ map shape_left (Pptx.shapes s) = [80; 370]
        /\ map shape_width (Pptx.shapes s) = [290; 290]
        /\ map shape_width (Pptx.shapes s) <> [290; 291])
  /\ segment_widths (Pptx.Inches 5.8) [0.33%py; 0.34%py; 0.33%py]
     = Ok [1750161; 1803196; 1750161]
  /\ sum_list [1750161; 1803196; 1750161] <> Pptx.Inches 5.8
  /\ (exists d,
        Pdf.create_gradient_drawing ["#1a6ef5"; "#f97316"] "" (Some 581%py) 40%py = Ok d
        /\ omap rect_width (Pdf.contents d) = [(581 / 2)%py; (581 / 2)%py]
        /\ (581 / 2)%py <> 290%py /\ (581 / 2)%py <> 291%py).
Proof.
  split; [vm_compute; reflexivity|].
  split; [vm_compute; discriminate|].
  split.
  { eexists. split; [vm_compute; reflexivity|].
    split; [vm_compute; reflexivity|]. split; [vm_compute; reflexivity|].
    vm_compute. discriminate. }
  split; [vm_compute; reflexivity|].
  split; [vm_compute; discriminate|].
  eexists. split; [vm_compute; reflexivity|].
  split; [vm_compute; reflexivity|]. split; vm_compute; discriminate.
Qed.

Lemma segment_width_sizeable total_w stop :
  sizeable total_w stop -> exists w, Pptx.segment_width total_w (snd stop) = Ok w.
Proof.
  unfold sizeable, Pptx.segment_width. destruct (snd stop) as [k|f]; [by eexists|].
  intros [Hn Hp]. unfold PyFloat.int_mul, PyFloat.float_of_int. rewrite Hn. cbn [result_bind].
  destruct (PyFloat.mul (PyFloat.of_int total_w) f); try discriminate; by eexists.
Qed.

Lemma segment_widths_sizeable total_w stops :
  Forall (sizeable total_w) stops ->
  exists widths, segment_widths total_w (map snd stops) = Ok widths.
Proof.
  induction 1 as [|stop stops Hs _ [ws IH]]; [by exists []|].
  destruct (segment_width_sizeable _ _ Hs) as [w Hw].
  exists (w :: ws). simpl. rewrite Hw. cbn [result_bind]. rewrite IH. reflexivity.
Qed.

(** C8 (as amended).  The layout code validates nothing.  Whatever the stop
    fractions sum to, the gradient loop succeeds as soon as every product
    [total_w * fraction] is a finite float, and draws one segment per stop;
    the column counts of the grids are literals of the code (2 and 3), not
    inputs; and a pass over zero items adds nothing to the slide and raises
    nothing. *)
Theorem layout_is_not_validated
    (total_w card_h y x : Z) (stops : list (Pptx.RGBColor * pynum)) (s : Pptx.Slide)
    (card_w start_y card_width card_height start_x spacing card_y : Z)
    (Hsizeable : Forall (sizeable total_w) stops) :
  (exists widths,
      segment_widths total_w (map snd stops) = Ok widths
      /\ Pptx.gradient_segments total_w card_h y x stops s
         = Ok (tt, add_shapes s (band x y card_h (zip (map fst stops) widths))))
  /\ Pptx.brand_values_cards card_w card_h [] s = Ok (tt, s)
  /\ Pptx.technical_cards card_w card_h [] s = Ok (tt, s)
  /\ Pptx.effects_cards [] s = Ok (tt, s)
  /\ Pptx.brand_overview_cards card_width card_height start_x spacing card_y [] s = Ok (tt, s)
  /\ Pptx.gradients_cards card_w card_h start_y [] s = Ok (tt, s).
Proof.
  split; [|repeat split].
  destruct (segment_widths_sizeable _ _ Hsizeable) as [widths Hw].
  exists widths. split; [exact Hw|]. by apply gradient_segments_spec.
Qed.

Lemma layout_is_not_validated_witness :
  Forall (sizeable 581) [(Pptx.BLUE_PRIMARY, 0.25%py); (Pptx.ACCENT_PRI, 0.25%py)]
  /\ exists widths,
       segment_widths 581 [0.25%py; 0.25%py] = Ok widths
       /\ Pptx.gradient_segments 581 (Pptx.Inches 0.7) 0 80
            [(Pptx.BLUE_PRIMARY, 0.25%py); (Pptx.ACCENT_PRI, 0.25%py)] Pptx.blank_slide
          = Ok (tt, add_shapes Pptx.blank_slide
                      (band 80 0 (Pptx.Inches 0.7)
                         (zip [Pptx.BLUE_PRIMARY; Pptx.ACCENT_PRI] widths))).
Proof.
  assert (H : Forall (sizeable 581)
                [(Pptx.BLUE_PRIMARY, 0.25%py); (Pptx.ACCENT_PRI, 0.25%py)])
    by (repeat constructor; vm_compute; reflexivity).
  split; [exact H|].
  exact (proj1 (layout_is_not_validated 581 (Pptx.Inches 0.7) 0 80
                  [(Pptx.BLUE_PRIMARY, 0.25%py); (Pptx.ACCENT_PRI, 0.25%py)]
                  Pptx.blank_slide 0 0 0 0 0 0 0 H)).
Defined.

(** C8 as stated fails: stops whose fractions sum to 0.5 raise no
    configuration error; the loop draws two segments of width 145 over a
    band of 581. *)
Lemma half_filled_gradient_is_drawn :
  exists s,
    exec (Pptx.gradient_segments 581 (Pptx.Inches 0.7) 0 80
            [(Pptx.BLUE_PRIMARY, 0.25%py); (Pptx.ACCENT_PRI, 0.25%py)]) Pptx.blank_slide
    = Ok s
    /\ map shape_width (Pptx.shapes s) = [145; 145]
    /\ sum_list [145; 145] <> 581.
Proof. eexists. split; [vm_compute; reflexivity|]. split; [vm_compute; reflexivity|]. vm_compute. discriminate. Qed.

(** ** Card grids *)

Lemma brand_values_cards_spec card_w card_h values s :
  Pptx.brand_values_cards card_w card_h values s
  = Ok (tt, add_shapes s (flat_map (brand_values_card card_w card_h) (enumerate values))).
Proof.
  unfold Pptx.brand_values_cards. apply for_each_all.
  intros [i [[[title desc] color] icon]] s0.
  unfold brand_values_card, Pptx.brand_values_origin, spec_grid_origin.
  slide_steps. reflexivity.
Qed.

Lemma technical_cards_spec card_w card_h specs s :
  Pptx.technical_cards card_w card_h specs s
  = Ok (tt, add_shapes s (flat_map (technical_card card_w card_h) (enumerate specs))).
Proof.
  unfold Pptx.technical_cards. apply for_each_all.
  intros [i [[title desc] color]] s0.
  unfold technical_card, Pptx.technical_origin, spec_grid_origin.
  slide_steps. reflexivity.
Qed.

Lemma effects_cards_spec effects s :
  Pptx.effects_cards effects s
  = Ok (tt, add_shapes s (flat_map effects_card (enumerate effects))).
Proof.
  unfold Pptx.effects_cards. apply for_each_all.
  intros [i [[title css] usage]] s0.
  unfold effects_card, Pptx.effects_origin, spec_grid_origin.
  slide_steps.
  replace (Pptx.Inches 5.9 + (Pptx.Inches 6.3 - Pptx.Inches 5.9)) with (Pptx.Inches 6.3) by lia.
  replace (Pptx.Inches 1.35 + (Pptx.Inches 1.55 - Pptx.Inches 1.35)) with (Pptx.Inches 1.55) by lia.
  reflexivity.
Qed.

Lemma brand_overview_cards_spec card_width card_height start_x spacing card_y stats s :
  Pptx.brand_overview_cards card_width card_height start_x spacing card_y stats s
  = Ok (tt, add_shapes s
              (flat_map (brand_overview_card card_width card_height start_x spacing card_y)
                 (enumerate stats))).
Proof.
  unfold Pptx.brand_overview_cards. apply for_each_all.
  intros [i [[number label] color]] s0.
  unfold brand_overview_card.
  slide_steps. reflexivity.
Qed.

Lemma gradients_cards_spec card_w card_h start_y gradients s :
  Forall (stops_ok card_w) gradients ->
  Pptx.gradients_cards card_w card_h start_y gradients s
  = Ok (tt, add_shapes s
              (flat_map (gradients_card card_w card_h start_y) (enumerate gradients))).
Proof.
  intros Hok. unfold Pptx.gradients_cards.
  apply (for_each_emits (fun entry => stops_ok card_w (snd entry))).
  - intros [i [[name css] stops]] s0 [widths Hw]. simpl in Hw.
    unfold gradients_card, Pptx.gradients_origin. rewrite Hw.
    unfold bind at 1. rewrite (gradient_segments_spec _ _ _ _ _ widths) by done.
    slide_steps. reflexivity.
  - unfold enumerate. generalize 0. induction Hok; intros n; simpl; constructor; auto.
Qed.

(** C2 (as amended).  For every list of items (of any length, zero
    included), the passes over the brand-value cards and the UI-effect cards
    (two columns) and over the technical cards (three columns) place item
    [i] at column [i mod C] and row [i div C], at the origin
    x = originX + (i mod C) × (cellWidth + gutterX),
    y = originY + (i div C) × (cellHeight + gutterY), so that index order is
    reading order; the key-figure cards stand in one row, item [i] at
    x = start_x + i × (card_width + spacing); the gradient cards fill their
    two columns top to bottom, item [i] in column 0 when i < 3 and in
    column 1 otherwise, at row [i mod 3].  The formula itself gives, for 4
    items with C = 2, cells of 260 by 150, gutters of 20 and origin
    (80,330), the origins (80,330), (360,330), (80,500), (360,500). *)
Theorem card_grids
    (card_w card_h start_y : Z)
    (values : list (string * string * Pptx.RGBColor * string))
    (specs stats : list (string * string * Pptx.RGBColor))
    (effects : list (string * string * string))
    (card_width card_height start_x spacing card_y : Z)
    (gradients : list (string * string * list (Pptx.RGBColor * pynum)))
    (s : Pptx.Slide)
    (Hstops : Forall (stops_ok card_w) gradients) :
  Pptx.brand_values_cards card_w card_h values s
  = Ok (tt, add_shapes s (flat_map (brand_values_card card_w card_h) (enumerate values)))
  /\ Pptx.technical_cards card_w card_h specs s
     = Ok (tt, add_shapes s (flat_map (technical_card card_w card_h) (enumerate specs)))
  /\ Pptx.effects_cards effects s
     = Ok (tt, add_shapes s (flat_map effects_card (enumerate effects)))
  /\ Pptx.brand_overview_cards card_width card_height start_x spacing card_y stats s
     = Ok (tt, add_shapes s
                 (flat_map (brand_overview_card card_width card_height start_x spacing card_y)
                    (enumerate stats)))
  /\ Pptx.gradients_cards card_w card_h start_y gradients s
     = Ok (tt, add_shapes s
                 (flat_map (gradients_card card_w card_h start_y) (enumerate gradients)))
  /\ map (spec_grid_origin 80 330 260 150 20 20 2) [0; 1; 2; 3]
     = [(80, 330); (360, 330); (80, 500); (360, 500)].
Proof.
  repeat split.
  - apply brand_values_cards_spec.
  - apply technical_cards_spec.
  - apply effects_cards_spec.
  - apply brand_overview_cards_spec.
  - by apply gradients_cards_spec.
Qed.

Lemma card_grids_witness :
  Forall (stops_ok (Pptx.Inches 5.8)) deck_gradients
  /\ Pptx.gradients_cards (Pptx.Inches 5.8) (Pptx.Inches 0.7) (Pptx.Inches 1.65)
       deck_gradients Pptx.blank_slide
     = Ok (tt, add_shapes Pptx.blank_slide
                 (flat_map (gradients_card (Pptx.Inches 5.8) (Pptx.Inches 0.7) (Pptx.Inches 1.65))
                    (enumerate deck_gradients))).
Proof.
  assert (H : Forall (stops_ok (Pptx.Inches 5.8)) deck_gradients).
  { repeat constructor; eexists; vm_compute; reflexivity. }
  split; [exact H|].
  exact (proj1 (proj2 (proj2 (proj2 (proj2
    (card_grids (Pptx.Inches 5.8) (Pptx.Inches 0.7) (Pptx.Inches 1.65) [] [] [] []
       0 0 0 0 0 deck_gradients Pptx.blank_slide H)))))).
Defined.

(** C2 as stated fails on the gradients slide: its second card (i = 1) is
    not at column 1 of row 0, where the formula puts it with C = 2, but
    below the first card, at column 0 of row 1; so stand the first segment
    of its band and its caption on slide 5 of the deck. *)
Lemma gradients_slide_is_column_major :
  Pptx.gradients_origin (Pptx.Inches 5.8) (Pptx.Inches 0.7) (Pptx.Inches 1.65) 1
  <> spec_grid_origin (Pptx.Inches 0.8) (Pptx.Inches 1.65) (Pptx.Inches 5.8) (Pptx.Inches 0.7)
       (Pptx.Inches 0.3) (Pptx.Inches 0.55) 2 1
  /\ spec_grid_origin (Pptx.Inches 0.8) (Pptx.Inches 1.65) (Pptx.Inches 5.8) (Pptx.Inches 0.7)
       (Pptx.Inches 0.3) (Pptx.Inches 0.55) 2 1
     = (6309360, 1508760)
  /\ (exists prs slide,
        Pptx.main "logo.png" bare_world = Ok prs
        /\ Pptx.slides prs !! 4%nat = Some slide
        /\ Pptx.shapes slide !! 11%nat
           = Some (filled Pptx.RECTANGLE 731520 2651760 1750161 (Pptx.Inches 0.7)
                     Pptx.NAVY_DARK)
        /\ Pptx.shapes slide !! 14%nat
           = Some (textbox 731520 (2651760 + Pptx.Inches 0.7 + Pptx.Pt 2) (Pptx.Inches 5.8)
                     (Pptx.Inches 0.2) "Hero / Header"
                     [Pptx.kw_font_size 11; Pptx.kw_bold true;
                      Pptx.kw_color Pptx.NAVY_DARK])).
Proof.
  split; [vm_compute; discriminate|]. split; [vm_compute; reflexivity|].
  eexists. eexists. split; [vm_compute; reflexivity|].
  split; [vm_compute; reflexivity|]. split; vm_compute; reflexivity.
Qed.

(** ** Palettes *)

Lemma swatch_rows_loop swatch_size colors_list : forall data,
  Forall triple_ok colors_list ->
  for_each colors_list (fun '(name, hex_code, usage) =>
    let swatch := Pdf.Drawing_new (swatch_size + 4)%py (swatch_size + 4)%py in
    bind (lift (Pdf.HexColor_of hex_code)) (fun fill =>
      bind (lift (exec (Pdf.add (Pdf.shapes.Rect 2%py 2%py swatch_size swatch_size fill
                                   (Some (Pdf.HexColor "#D1D5DB")) 0.5%py)) swatch))
        (fun swatch =>
           append [Pdf.CellDrawing swatch; Pdf.CellText name; Pdf.CellText hex_code;
                   Pdf.CellText usage]))) data
  = Ok (tt, data ++ map (swatch_row swatch_size) colors_list).
Proof.
  induction colors_list as [|[[name hex_code] usage] l IH]; intros data Hok; simpl.
  - unfold ret. by rewrite app_nil_r.
  - inversion Hok as [|? ? Hc Hrest]; subst. unfold triple_ok, hex_ok in Hc. simpl in Hc.
    unfold bind at 1. unfold bind at 1. unfold lift at 1. rewrite Hc.
    unfold bind at 1. unfold lift at 1. cbn [exec Pdf.add Pdf.Drawing_new].
    unfold append at 1.
    rewrite IH by done. by rewrite <- app_assoc.
Qed.

Lemma create_color_swatch_table_spec colors_list swatch_size :
  Forall triple_ok colors_list ->
  Pdf.create_color_swatch_table colors_list swatch_size
  = Ok {| Pdf.data := swatch_header :: map (swatch_row swatch_size) colors_list;
          Pdf.colWidths := swatch_col_widths;
          Pdf.repeatRows := 1;
          Pdf.table_style := swatch_table_style |}.
Proof.
  intros Hok. unfold Pdf.create_color_swatch_table.
  unfold exec at 1. rewrite swatch_rows_loop by done. reflexivity.
Qed.

Lemma row_triple_swatch_row sz t : row_triple (swatch_row sz t) = Some t.
Proof. by destruct t as [[name hex] usage]. Qed.

Lemma swatch_rows_loop_inv swatch_size colors_list : forall data r,
  for_each colors_list (fun '(name, hex_code, usage) =>
    let swatch := Pdf.Drawing_new (swatch_size + 4)%py (swatch_size + 4)%py in
    bind (lift (Pdf.HexColor_of hex_code)) (fun fill =>
      bind (lift (exec (Pdf.add (Pdf.shapes.Rect 2%py 2%py swatch_size swatch_size fill
                                   (Some (Pdf.HexColor "#D1D5DB")) 0.5%py)) swatch))
        (fun swatch =>
           append [Pdf.CellDrawing swatch; Pdf.CellText name; Pdf.CellText hex_code;
                   Pdf.CellText usage]))) data = Ok r ->
  Forall triple_ok colors_list.
Proof.
  induction colors_list as [|[[name hex_code] usage] l IH]; intros data r H; [constructor|].
  simpl in H. unfold bind at 1 in H. unfold bind at 1 in H. unfold lift at 1 in H.
  assert (Hc : hex_ok hex_code).
  { unfold hex_ok, Pdf.HexColor_of in *.
    destruct (if String.prefix "#" hex_code then _ else _); [reflexivity|discriminate]. }
  constructor; [exact Hc|].
  unfold hex_ok in Hc. rewrite Hc in H.
  unfold bind at 1 in H. unfold lift at 1 in H. cbn [exec Pdf.add Pdf.Drawing_new] in H.
  unfold append at 1 in H. by eapply IH.
Qed.

Lemma create_color_swatch_table_inv colors_list swatch_size t :
  Pdf.create_color_swatch_table colors_list swatch_size = Ok t ->
  Forall triple_ok colors_list.
Proof.
  unfold Pdf.create_color_swatch_table. unfold exec at 1.
  match goal with |- context [for_each ?l ?b ?d] => destruct (for_each l b d) as [[u d']|e] eqn:E end;
    [|discriminate].
  intros _. by eapply swatch_rows_loop_inv.
Qed.

Lemma parity_row (j : nat) :
  Z.to_nat ((Z.of_nat j + 1 - 1) mod 2) = if Nat.even j then 0%nat else 1%nat.
Proof.
  replace (Z.of_nat j + 1 - 1) with (Z.of_nat j) by lia.
  destruct (Nat.even j) eqn:E.
  - apply Nat.even_spec in E as [k ->]. rewrite Nat2Z.inj_mul, Z.mul_comm, Z_mod_mult. done.
  - assert (Ho : Nat.odd j = true) by (unfold Nat.odd; by rewrite E).
    apply Nat.odd_spec in Ho as [k ->].
    rewrite Nat2Z.inj_add, Nat2Z.inj_mul, Z.add_comm, Z.mul_comm, Z_mod_plus_full. done.
Qed.

Lemma swatch_row_background colors_list swatch_size t (j : nat) :
  Pdf.data t = swatch_header :: map (swatch_row swatch_size) colors_list ->
  Pdf.table_style t = swatch_table_style ->
  (j < length colors_list)%nat ->
  row_background t (Z.of_nat j + 1)
  = Some (if Nat.even j then Pdf.WHITE else Pdf.BLUE_TINT).
Proof.
  intros Hdata Hstyle Hj. unfold row_background. rewrite Hdata, Hstyle.
  cbn [length]. rewrite length_map.
  set (nrows := Z.of_nat (S (length colors_list))).
  let v := eval vm_compute in swatch_table_style in change swatch_table_style with v.
  cbn [fold_left paints].
  assert (Hn : nrows = Z.of_nat (length colors_list) + 1) by (unfold nrows; lia).
  assert (H1 : row_index nrows 1 = 1) by reflexivity.
  assert (Hlast : row_index nrows (-1) = nrows - 1) by (unfold row_index; simpl; lia).
  rewrite H1, Hlast.
  replace (1 <=? Z.of_nat j + 1) with true by (symmetry; apply Z.leb_le; lia).
  replace (Z.of_nat j + 1 <=? nrows - 1) with true by (symmetry; apply Z.leb_le; lia).
  cbn [andb length]. change (Z.of_nat 2) with 2.
  rewrite parity_row. by destruct (Nat.even j).
Qed.

Lemma swatch_rgb_inv hex_code rgb :
  swatch_rgb hex_code = Ok rgb ->
  exists r g b, Pptx.hex_channels hex_code = Ok (r, g, b) /\ Pptx.RGBColor_new r g b = Ok rgb.
Proof.
  unfold swatch_rgb. destruct (Pptx.hex_channels hex_code) as [[[r g] b]|]; [|discriminate].
  simpl. intros H. by exists r, g, b.
Qed.

Lemma palette_brand_blues_spec sw sh sx sy brand_blues s :
  Forall swatch_ok brand_blues ->
  Pptx.palette_brand_blues sw sh sx sy brand_blues s
  = Ok (tt, add_shapes s (flat_map (brand_blue_swatch sw sh sx sy) (enumerate brand_blues))).
Proof.
  intros Hok. unfold Pptx.palette_brand_blues.
  apply (for_each_emits (fun entry => swatch_ok (snd entry))); [|by apply enumerate_Forall].
  intros [i [hex_code label]] s0 [rgb Hrgb]. simpl in Hrgb.
  unfold brand_blue_swatch. rewrite Hrgb.
  destruct (swatch_rgb_inv _ _ Hrgb) as (r & g & b & Hch & Hnew).
  rewrite (step_lift _ (r, g, b)) by done. rewrite (step_lift _ rgb) by done.
  slide_steps. reflexivity.
Qed.

Lemma palette_accent_colors_spec accent_colors s :
  Forall swatch_ok accent_colors ->
  Pptx.palette_accent_colors accent_colors s
  = Ok (tt, add_shapes s (flat_map accent_swatch (enumerate accent_colors))).
Proof.
  intros Hok. unfold Pptx.palette_accent_colors.
  apply (for_each_emits (fun entry => swatch_ok (snd entry))); [|by apply enumerate_Forall].
  intros [i [hex_code label]] s0 [rgb Hrgb]. simpl in Hrgb.
  unfold accent_swatch. rewrite Hrgb.
  destruct (swatch_rgb_inv _ _ Hrgb) as (r & g & b & Hch & Hnew).
  rewrite (step_lift _ (r, g, b)) by done. rewrite (step_lift _ rgb) by done.
  slide_steps. reflexivity.
Qed.

Lemma palette_emerald_colors_spec emerald_colors s :
  Forall swatch_ok emerald_colors ->
  Pptx.palette_emerald_colors emerald_colors s
  = Ok (tt, add_shapes s (flat_map emerald_swatch (enumerate emerald_colors))).
Proof.
  intros Hok. unfold Pptx.palette_emerald_colors.
  apply (for_each_emits (fun entry => swatch_ok (snd entry))); [|by apply enumerate_Forall].
  intros [i [hex_code label]] s0 [rgb Hrgb]. simpl in Hrgb.
  unfold emerald_swatch. rewrite Hrgb.
  destruct (swatch_rgb_inv _ _ Hrgb) as (r & g & b & Hch & Hnew).
  rewrite (step_lift _ (r, g, b)) by done. rewrite (step_lift _ rgb) by done.
  slide_steps. reflexivity.
Qed.

Lemma palette_logo_colors_spec logo_colors s :
  Forall swatch_ok logo_colors ->
  Pptx.palette_logo_colors logo_colors s
  = Ok (tt, add_shapes s (flat_map logo_swatch (enumerate logo_colors))).
Proof.
  intros Hok. unfold Pptx.palette_logo_colors.
  apply (for_each_emits (fun entry => swatch_ok (snd entry))); [|by apply enumerate_Forall].
  intros [i [hex_code label]] s0 [rgb Hrgb]. simpl in Hrgb.
  unfold logo_swatch. rewrite Hrgb.
  destruct (swatch_rgb_inv _ _ Hrgb) as (r & g & b & Hch & Hnew).
  rewrite (step_lift _ (r, g, b)) by done. rewrite (step_lift _ rgb) by done.
  slide_steps. reflexivity.
Qed.

(** C3 (as amended).  In the PDF, every data row of a palette table made
    from (name, hex, usage) triples carries a swatch filled with the colour,
    the name, the hex string exactly as given (with the leading '#' it came
    with, in the case it came in) and the usage note.  In the deck, the
    brand-blue, accent and emerald groups show each colour as a swatch with
    its label and its hex string in upper case, and the logo group shows
    the hex string as given; no group of the deck shows a usage note. *)
Theorem palette_hex_text
    (colors_list : list (string * string * string)) (swatch_size : pynum)
    (sw sh sx sy : Z)
    (brand_blues logo_colors accent_colors emerald_colors : list (string * string))
    (s : Pptx.Slide)
    (Htriples : Forall triple_ok colors_list)
    (Hblues : Forall swatch_ok brand_blues)
    (Hlogo : Forall swatch_ok logo_colors)
    (Haccent : Forall swatch_ok accent_colors)
    (Hemerald : Forall swatch_ok emerald_colors) :
  Pdf.create_color_swatch_table colors_list swatch_size
  = Ok {| Pdf.data := swatch_header :: map (swatch_row swatch_size) colors_list;
          Pdf.colWidths := swatch_col_widths;
          Pdf.repeatRows := 1;
          Pdf.table_style := swatch_table_style |}
  /\ Pptx.palette_brand_blues sw sh sx sy brand_blues s
     = Ok (tt, add_shapes s (flat_map (brand_blue_swatch sw sh sx sy) (enumerate brand_blues)))
  /\ Pptx.palette_logo_colors logo_colors s
     = Ok (tt, add_shapes s (flat_map logo_swatch (enumerate logo_colors)))
  /\ Pptx.palette_accent_colors accent_colors s
     = Ok (tt, add_shapes s (flat_map accent_swatch (enumerate accent_colors)))
  /\ Pptx.palette_emerald_colors emerald_colors s
     = Ok (tt, add_shapes s (flat_map emerald_swatch (enumerate emerald_colors))).
Proof.
  split; [by apply create_color_swatch_table_spec|].
  split; [by apply palette_brand_blues_spec|].
  split; [by apply palette_logo_colors_spec|].
  split; [by apply palette_accent_colors_spec|by apply palette_emerald_colors_spec].
Qed.

Lemma palette_hex_text_witness :
  Forall triple_ok three_colors
  /\ Forall swatch_ok [("#142857", "950"); ("#193f8f", "900")]
  /\ Forall swatch_ok [("#1B3A5C", "Logo Navy")]
  /\ Forall swatch_ok [("#c2410c", "700")]
  /\ Forall swatch_ok [("#059669", "600")]
  /\ Pdf.create_color_swatch_table three_colors 14%py
     = Ok {| Pdf.data := swatch_header :: map (swatch_row 14%py) three_colors;
             Pdf.colWidths := swatch_col_widths;
             Pdf.repeatRows := 1;
             Pdf.table_style := swatch_table_style |}
  /\ Pptx.palette_brand_blues (Pptx.Inches 1.15) (Pptx.Inches 0.65) (Pptx.Inches 0.8)
       (Pptx.Inches 1.95) [("#142857", "950"); ("#193f8f", "900")] Pptx.blank_slide
     = Ok (tt, add_shapes Pptx.blank_slide
                 (flat_map (brand_blue_swatch (Pptx.Inches 1.15) (Pptx.Inches 0.65)
                              (Pptx.Inches 0.8) (Pptx.Inches 1.95))
                    (enumerate [("#142857", "950"); ("#193f8f", "900")]))).
Proof.
  assert (H1 : Forall triple_ok three_colors) by (repeat constructor; vm_compute; reflexivity).
  assert (H2 : Forall swatch_ok [("#142857", "950"); ("#193f8f", "900")])
    by (repeat constructor; eexists; vm_compute; reflexivity).
  assert (H3 : Forall swatch_ok [("#1B3A5C", "Logo Navy")])
    by (repeat constructor; eexists; vm_compute; reflexivity).
  assert (H4 : Forall swatch_ok [("#c2410c", "700")])
    by (repeat constructor; eexists; vm_compute; reflexivity).
  assert (H5 : Forall swatch_ok [("#059669", "600")])
    by (repeat constructor; eexists; vm_compute; reflexivity).
  pose proof (palette_hex_text three_colors 14%py (Pptx.Inches 1.15) (Pptx.Inches 0.65)
                (Pptx.Inches 0.8) (Pptx.Inches 1.95) _ _ _ _ Pptx.blank_slide H1 H2 H3 H4 H5)
    as (Hpdf & Hblue & _).
  repeat split; assumption.
Defined.

(** C3 as stated fails in the PDF: the row made from
    ("900 Navy", "#193f8f", "Deep accents") shows "#193f8f", not
    "#193F8F". *)
Lemma pdf_palette_hex_as_given :
  exists t,
    Pdf.create_color_swatch_table [("900 Navy", "#193f8f", "Deep accents")] 14%py = Ok t
    /\ map row_triple (tail (Pdf.data t)) = [Some ("900 Navy", "#193f8f", "Deep accents")]
    /\ upper "#193f8f" = "#193F8F"
    /\ "#193f8f" <> upper "#193f8f".
Proof.
  eexists. split; [vm_compute; reflexivity|].
  split; [vm_compute; reflexivity|]. split; [vm_compute; reflexivity|].
  vm_compute. discriminate.
Qed.

(** C4.  For every list of colour triples from which the palette table is
    made, the table has the header row first and then one data row per
    triple, in input order; and data row [j] (0-based) has background
    white when [j] is even and the tint when [j] is odd. *)
Theorem palette_rows_in_order_and_striped
    (colors_list : list (string * string * string)) (swatch_size : pynum) (t : Pdf.Table)
    (Htable : Pdf.create_color_swatch_table colors_list swatch_size = Ok t) :
  head (Pdf.data t) = Some swatch_header
  /\ map row_triple (tail (Pdf.data t)) = map Some colors_list
  /\ forall j : nat, (j < length colors_list)%nat ->
       row_background t (Z.of_nat j + 1)
       = Some (if Nat.even j then Pdf.WHITE else Pdf.BLUE_TINT).
Proof.
  pose proof (create_color_swatch_table_inv _ _ _ Htable) as Hok.
  rewrite (create_color_swatch_table_spec _ swatch_size Hok) in Htable.
  injection Htable as <-. cbn [Pdf.data head tail].
  split; [reflexivity|]. split.
  - rewrite map_map. apply map_ext. intros x. apply row_triple_swatch_row.
  - intros j Hj. by eapply swatch_row_background.
Qed.

Lemma palette_rows_in_order_and_striped_witness :
  exists t,
    Pdf.create_color_swatch_table three_colors 14%py = Ok t
    /\ map row_triple (tail (Pdf.data t)) = map Some three_colors
    /\ row_background t 1 = Some Pdf.WHITE
    /\ row_background t 2 = Some Pdf.BLUE_TINT
    /\ row_background t 3 = Some Pdf.WHITE.
Proof.
  destruct (Pdf.create_color_swatch_table three_colors 14%py) as [t|e] eqn:E;
    [|vm_compute in E; discriminate].
  exists t. split; [reflexivity|].
  destruct (palette_rows_in_order_and_striped three_colors 14%py t E) as (_ & Hrows & Hbg).
  split; [exact Hrows|].
  split; [exact (Hbg 0%nat ltac:(vm_compute; lia))|].
  split; [exact (Hbg 1%nat ltac:(vm_compute; lia))|exact (Hbg 2%nat ltac:(vm_compute; lia))].
Defined.

(** ** The logo *)

Lemma build_pdf_callbacks LOGO_PATH OUTPUT_PATH logo now :
  exists doc,
    Pdf.build_pdf LOGO_PATH OUTPUT_PATH logo now = Ok doc
    /\ Pdf.onFirstPage doc = Pdf.draw_cover_page LOGO_PATH logo now
    /\ Pdf.onLaterPages doc = Pdf.draw_header_footer LOGO_PATH logo.
Proof.
  unfold Pdf.build_pdf.
  destruct Pdf.get_styles as [styles|e] eqn:Hstyles; [|vm_compute in Hstyles; discriminate].
  cbn [result_bind].
  destruct (exec (Pdf.build_story LOGO_PATH logo styles) []) as [story|e] eqn:Hstory.
  - cbn [result_bind]. eexists. split; [reflexivity|]. split; reflexivity.
  - vm_compute in Hstyles. injection Hstyles as <-.
    destruct logo; vm_compute in Hstory; discriminate.
Qed.

Lemma canvas_of_main LOGO_PATH OUTPUT_PATH tokens logo now n :
  canvas_of (Pdf.main LOGO_PATH OUTPUT_PATH (world_with tokens logo now)) n
  = exec ((if n =? 1 then Pdf.draw_cover_page LOGO_PATH logo now
           else Pdf.draw_header_footer LOGO_PATH logo) {| Pdf.page := n |}) [].
Proof.
  unfold canvas_of, Pdf.main, world_with.
  cbn [brand_tokens logo_present clock result_bind Pdf.load_tokens].
  destruct (build_pdf_callbacks LOGO_PATH OUTPUT_PATH logo now) as (doc & -> & H1 & H2).
  cbn [result_bind]. unfold Pdf.page_canvas. rewrite H1, H2. reflexivity.
Qed.

(** C5.  With the logo file absent both builds complete without raising,
    and what they build is what they build with the logo present less what
    the logo steps add, everything else being as it is with the logo, in
    the same order.  The deck then holds no picture; it has the slide size,
    and every slide the background and the notes, it has with the logo;
    the shapes of every slide are those it has with the logo less the
    pictures and, on the logo slide, the two cards of the logo with their
    captions, and these are all the logo steps add.  The story of the PDF
    then holds no image and is the story with the logo less the five
    flowables of the logo block, which stand after its 26th flowable.  The
    canvas of every page is the canvas with the logo less the one
    [drawImage] of the logo. *)
Theorem logo_absent_is_skipped (LOGO_PATH OUTPUT_PATH : string) (tokens : json)
    (now : datetime) :
  (exists prs0 prs1,
      Pptx.main LOGO_PATH (world_with tokens false now) = Ok prs0
      /\ Pptx.main LOGO_PATH (world_with tokens true now) = Ok prs1
      /\ no_picture prs0 = true
      /\ Pptx.slide_width prs0 = Pptx.slide_width prs1
      /\ Pptx.slide_height prs0 = Pptx.slide_height prs1
      /\ map Pptx.background (Pptx.slides prs0) = map Pptx.background (Pptx.slides prs1)
      /\ map Pptx.notes_text (Pptx.slides prs0) = map Pptx.notes_text (Pptx.slides prs1)
      /\ map Pptx.shapes (Pptx.slides prs0) = map without_logo_steps (Pptx.slides prs1)
      /\ map (fun slide => filter is_logo_step (Pptx.shapes slide)) (Pptx.slides prs1)
         = deck_logo_steps LOGO_PATH
      /\ map (fun slide => length (Pptx.shapes slide)) (Pptx.slides prs0)
         = [6; 28; 24; 67; 33; 47; 41; 27; 34; 33; 35; 7]%nat)
  /\ (exists story0 story1,
        story_of (Pdf.main LOGO_PATH OUTPUT_PATH (world_with tokens false now)) = Ok story0
        /\ story_of (Pdf.main LOGO_PATH OUTPUT_PATH (world_with tokens true now)) = Ok story1
        /\ existsb has_image story0 = false
        /\ length story0 = 124%nat
        /\ story1 = take 26 story0 ++ pdf_logo_blocks LOGO_PATH ++ drop 26 story0)
  /\ (forall n, exists ops0 ops1,
        canvas_of (Pdf.main LOGO_PATH OUTPUT_PATH (world_with tokens false now)) n = Ok ops0
        /\ canvas_of (Pdf.main LOGO_PATH OUTPUT_PATH (world_with tokens true now)) n = Ok ops1
        /\ ops0 = filter (fun op => negb (is_drawImage op)) ops1
        /\ canvas_images ops1 = [LOGO_PATH]
        /\ length ops0 = (if (n =? 1)%Z then 33 else 19)%nat).
Proof.
  split; [|split].
  - assert (H : returns (fun prs0 => returns (fun prs1 =>
                  no_picture prs0 = true
                  /\ Pptx.slide_width prs0 = Pptx.slide_width prs1
                  /\ Pptx.slide_height prs0 = Pptx.slide_height prs1
                  /\ map Pptx.background (Pptx.slides prs0)
                     = map Pptx.background (Pptx.slides prs1)
                  /\ map Pptx.notes_text (Pptx.slides prs0)
                     = map Pptx.notes_text (Pptx.slides prs1)
                  /\ map Pptx.shapes (Pptx.slides prs0)
                     = map without_logo_steps (Pptx.slides prs1)
                  /\ map (fun slide => filter is_logo_step (Pptx.shapes slide))
                       (Pptx.slides prs1)
                     = deck_logo_steps LOGO_PATH
                  /\ map (fun slide => length (Pptx.shapes slide)) (Pptx.slides prs0)
                     = [6; 28; 24; 67; 33; 47; 41; 27; 34; 33; 35; 7]%nat)
                  (Pptx.main LOGO_PATH (world_with tokens true now)))
                (Pptx.main LOGO_PATH (world_with tokens false now))).
    { vm_compute. repeat split; reflexivity. }
    apply returns_elim in H as (prs0 & Hprs0 & H).
    apply returns_elim in H as (prs1 & Hprs1 & H).
    exists prs0, prs1. split; [exact Hprs0|]. split; [exact Hprs1|exact H].
  - assert (H : returns (fun story0 => returns (fun story1 =>
                  existsb has_image story0 = false
                  /\ length story0 = 124%nat
                  /\ story1 = take 26 story0 ++ pdf_logo_blocks LOGO_PATH ++ drop 26 story0)
                  (story_of (Pdf.main LOGO_PATH OUTPUT_PATH (world_with tokens true now))))
                (story_of (Pdf.main LOGO_PATH OUTPUT_PATH (world_with tokens false now)))).
    { vm_compute. repeat split; reflexivity. }
    apply returns_elim in H as (story0 & Hstory0 & H).
    apply returns_elim in H as (story1 & Hstory1 & H).
    exists story0, story1. split; [exact Hstory0|]. split; [exact Hstory1|exact H].
  - intros n.
    assert (H : returns (fun ops0 => returns (fun ops1 =>
                  ops0 = filter (fun op => negb (is_drawImage op)) ops1
                  /\ canvas_images ops1 = [LOGO_PATH]
                  /\ length ops0 = (if (n =? 1)%Z then 33 else 19)%nat)
                  (canvas_of (Pdf.main LOGO_PATH OUTPUT_PATH (world_with tokens true now)) n))
                (canvas_of (Pdf.main LOGO_PATH OUTPUT_PATH (world_with tokens false now)) n)).
    { rewrite !canvas_of_main. destruct (n =? 1); vm_compute; repeat split; reflexivity. }
    apply returns_elim in H as (ops0 & Hops0 & H).
    apply returns_elim in H as (ops1 & Hops1 & H).
    exists ops0, ops1. split; [exact Hops0|]. split; [exact Hops1|exact H].
Qed.

(** ** The recurring frame *)





(** ** The token file *)

(** C7 (as amended).  The PDF build aborts before building anything when
    the token file is absent ([FileNotFoundError]) or is not JSON
    ([JSONDecodeError]), the failure reaching the caller.  The deck build
    does not open the token file: it does the same whatever that file
    is. *)
Theorem tokens_are_required_by_the_pdf_only
    (LOGO_PATH OUTPUT_PATH : string) (logo : bool) (now : datetime)
    (file file' : tokens_file) :
  Pdf.main LOGO_PATH OUTPUT_PATH
    {| brand_tokens := TokensAbsent; logo_present := logo; clock := now |}
  = Raise FileNotFoundError
  /\ Pdf.main LOGO_PATH OUTPUT_PATH
       {| brand_tokens := TokensMalformed; logo_present := logo; clock := now |}
     = Raise JSONDecodeError
  /\ Pptx.main LOGO_PATH {| brand_tokens := file; logo_present := logo; clock := now |}
     = Pptx.main LOGO_PATH {| brand_tokens := file'; logo_present := logo; clock := now |}.
Proof. split; [reflexivity|]. split; reflexivity. Qed.

(** C7 as stated fails for the deck: with the token file absent its build
    produces the 12 slides. *)
Lemma deck_is_built_without_tokens :
  brand_tokens bare_world = TokensAbsent
  /\ exists prs,
       Pptx.main "logo.png" bare_world = Ok prs
       /\ length (Pptx.slides prs) = 12%nat.
Proof. split; [reflexivity|]. eexists. split; vm_compute; reflexivity. Qed.

(** C10.  The document the PDF build produces is the same for any two
    JSON values the token file may hold, and with either of them the build
    does produce a document: the parsed value is never read. *)
Theorem pdf_ignores_token_contents
    (LOGO_PATH OUTPUT_PATH : string) (logo : bool) (now : datetime) (tokens tokens' : json) :
  Pdf.main LOGO_PATH OUTPUT_PATH (world_with tokens logo now)
  = Pdf.main LOGO_PATH OUTPUT_PATH (world_with tokens' logo now)
  /\ exists doc, Pdf.main LOGO_PATH OUTPUT_PATH (world_with tokens logo now) = Ok doc.
Proof.
  split; [reflexivity|].
  destruct (build_pdf_callbacks LOGO_PATH OUTPUT_PATH logo now) as (doc & Hdoc & _).
  exists doc. exact Hdoc.
Qed.

(** ** Reproducibility *)

(** C9.  Two runs of a build that find the same token file and the same
    logo produce the same layout geometry whatever the clock says: the deck
    with its texts blanked, the story and the page setup of the PDF, and the
    canvas operations of every page with their texts blanked, are
    identical. *)
Theorem layout_geometry_is_reproducible
    (LOGO_PATH OUTPUT_PATH : string) (file : tokens_file) (logo : bool)
    (now now' : datetime) (n : Z) :
  let run_at t := {| brand_tokens := file; logo_present := logo; clock := t |} in
  deck_geometry (Pptx.main LOGO_PATH (run_at now))
  = deck_geometry (Pptx.main LOGO_PATH (run_at now'))
  /\ story_of (Pdf.main LOGO_PATH OUTPUT_PATH (run_at now))
     = story_of (Pdf.main LOGO_PATH OUTPUT_PATH (run_at now'))
  /\ page_setup_of (Pdf.main LOGO_PATH OUTPUT_PATH (run_at now))
     = page_setup_of (Pdf.main LOGO_PATH OUTPUT_PATH (run_at now'))
  /\ canvas_geometry (Pdf.main LOGO_PATH OUTPUT_PATH (run_at now)) n
     = canvas_geometry (Pdf.main LOGO_PATH OUTPUT_PATH (run_at now')) n.
Proof.
  intros run_at. split; [|split; [|split]].
  - destruct logo; vm_compute; reflexivity.
  - destruct file; [reflexivity|reflexivity|]. destruct logo; vm_compute; reflexivity.
  - destruct file; [reflexivity|reflexivity|]. destruct logo; vm_compute; reflexivity.
  - destruct file; [reflexivity|reflexivity|].
    unfold canvas_geometry.
    change (run_at now) with (world_with value logo now).
    change (run_at now') with (world_with value logo now').
    rewrite !canvas_of_main.
    destruct (n =? 1); destruct logo; vm_compute; reflexivity.
Qed.

(** * Further properties of the code *)

(** ** Colour codes *)

Lemma hex_digit_range c d : hex_digit c = Some d -> 0 <= d <= 15.
Proof.
  unfold hex_digit. set (n := Z.of_nat (nat_of_ascii c)).
  destruct (48 <=? n) eqn:E1, (n <=? 57) eqn:E2; simpl;
  destruct (97 <=? n) eqn:E3, (n <=? 102) eqn:E4; simpl;
  destruct (65 <=? n) eqn:E5, (n <=? 70) eqn:E6; simpl;
  intros H; try discriminate; injection H as <-; lia.
Qed.

Lemma int16_pair c1 c2 d1 d2 :
  hex_digit c1 = Some d1 -> hex_digit c2 = Some d2 ->
  int16 (String c1 (String c2 EmptyString)) = Ok (16 * d1 + d2).
Proof.
  intros H1 H2. unfold int16. cbn [int16_from]. rewrite H1. cbn [int16_from]. rewrite H2.
  reflexivity.
Qed.

Lemma six_digit_channels
    (c0 c1 c2 c3 c4 c5 c6 : ascii) (rest : string) (d1 d2 d3 d4 d5 d6 : Z) :
  hex_digit c1 = Some d1 -> hex_digit c2 = Some d2 -> hex_digit c3 = Some d3 ->
  hex_digit c4 = Some d4 -> hex_digit c5 = Some d5 -> hex_digit c6 = Some d6 ->
  Pptx.hex_channels (String c0 (String c1 (String c2 (String c3 (String c4 (String c5
                       (String c6 rest)))))))
  = Ok (16 * d1 + d2, 16 * d3 + d4, 16 * d5 + d6).
Proof.
  intros H1 H2 H3 H4 H5 H6.
  unfold Pptx.hex_channels, slice. cbn [substring Nat.sub].
  destruct rest; cbn [substring];
    rewrite (int16_pair _ _ _ _ H1 H2), (int16_pair _ _ _ _ H3 H4),
      (int16_pair _ _ _ _ H5 H6); reflexivity.
Qed.

Lemma RGBColor_new_in_range r g b :
  0 <= r <= 255 -> 0 <= g <= 255 -> 0 <= b <= 255 ->
  Pptx.RGBColor_new r g b = Ok (Pptx.RGB r g b).
Proof.
  intros Hr Hg Hb. unfold Pptx.RGBColor_new. cbn [forallb].
  repeat match goal with
         | |- context [?x <=? ?y] =>
             replace (x <=? y) with true by (symmetry; apply Z.leb_le; lia)
         end.
  reflexivity.
Qed.

Lemma six_digit_swatch
    (c0 c1 c2 c3 c4 c5 c6 : ascii) (rest : string) (d1 d2 d3 d4 d5 d6 : Z) :
  hex_digit c1 = Some d1 -> hex_digit c2 = Some d2 -> hex_digit c3 = Some d3 ->
  hex_digit c4 = Some d4 -> hex_digit c5 = Some d5 -> hex_digit c6 = Some d6 ->
  swatch_rgb (String c0 (String c1 (String c2 (String c3 (String c4 (String c5
                (String c6 rest)))))))
  = Ok (Pptx.RGB (16 * d1 + d2) (16 * d3 + d4) (16 * d5 + d6)).
Proof.
  intros H1 H2 H3 H4 H5 H6. unfold swatch_rgb.
  rewrite (six_digit_channels _ _ _ _ _ _ _ _ _ _ _ _ _ _ H1 H2 H3 H4 H5 H6).
  cbn [result_bind].
  apply hex_digit_range in H1, H2, H3, H4, H5, H6.
  apply RGBColor_new_in_range; lia.
Qed.

(** X1.  The deck's colour-code parser reads characters 1 to 6 of the code
    and nothing else: when those six are hexadecimal digits, whatever the
    first character is and whatever follows the seventh, the three channels
    are 16·d1+d2, 16·d3+d4 and 16·d5+d6, each within 0..255, so that
    [RGBColor(r, g, b)] does not raise and the swatch gets that colour. *)
Theorem hex_channels_reads_six_digits
    (c0 c1 c2 c3 c4 c5 c6 : ascii) (rest : string) (d1 d2 d3 d4 d5 d6 : Z)
    (H1 : hex_digit c1 = Some d1) (H2 : hex_digit c2 = Some d2)
    (H3 : hex_digit c3 = Some d3) (H4 : hex_digit c4 = Some d4)
    (H5 : hex_digit c5 = Some d5) (H6 : hex_digit c6 = Some d6) :
  let code := String c0 (String c1 (String c2 (String c3 (String c4 (String c5
                (String c6 rest)))))) in
  let r := 16 * d1 + d2 in
  let g := 16 * d3 + d4 in
  let b := 16 * d5 + d6 in
  Pptx.hex_channels code = Ok (r, g, b)
  /\ 0 <= r <= 255 /\ 0 <= g <= 255 /\ 0 <= b <= 255
  /\ swatch_rgb code = Ok (Pptx.RGB r g b).
Proof.
  intros code r g b.
  split; [by apply six_digit_channels|].
  pose proof (hex_digit_range _ _ H1). pose proof (hex_digit_range _ _ H2).
  pose proof (hex_digit_range _ _ H3). pose proof (hex_digit_range _ _ H4).
  pose proof (hex_digit_range _ _ H5). pose proof (hex_digit_range _ _ H6).
  split; [unfold r; lia|]. split; [unfold g; lia|]. split; [unfold b; lia|].
  by apply six_digit_swatch.
Qed.

Lemma hex_channels_reads_six_digits_witness :
  hex_digit "1" = Some 1 /\ hex_digit "a" = Some 10 /\ hex_digit "6" = Some 6
  /\ hex_digit "e" = Some 14 /\ hex_digit "f" = Some 15 /\ hex_digit "5" = Some 5
  /\ Pptx.hex_channels "x1a6ef5 and more" = Ok (26, 110, 245)
  /\ swatch_rgb "x1a6ef5 and more" = Ok Pptx.BLUE_PRIMARY.
Proof.
  pose proof (hex_channels_reads_six_digits "x" "1" "a" "6" "e" "f" "5" " and more"
                1 10 6 14 15 5 eq_refl eq_refl eq_refl eq_refl eq_refl eq_refl)
    as (Hch & _ & _ & _ & Hsw).
  do 6 (split; [reflexivity|]).
  split; [exact Hch|exact Hsw].
Defined.

Lemma hex_digit_upper c : hex_digit (upper_ascii c) = hex_digit c.
Proof.
  destruct c as [[] [] [] [] [] [] [] []]; vm_compute; reflexivity.
Qed.

Lemma int16_from_upper s : forall acc, int16_from acc (upper s) = int16_from acc s.
Proof.
  induction s as [|c s IH]; intros acc; simpl; [reflexivity|].
  rewrite hex_digit_upper. destruct (hex_digit c); [apply IH|reflexivity].
Qed.

Lemma int16_upper s : int16 (upper s) = int16 s.
Proof.
  destruct s as [|c s]; [reflexivity|].
  unfold int16. change (upper (String c s)) with (String (upper_ascii c) (upper s)).
  change (String (upper_ascii c) (upper s)) with (upper (String c s)).
  rewrite int16_from_upper. reflexivity.
Qed.

Lemma substring_upper s : forall n m, substring n m (upper s) = upper (substring n m s).
Proof.
  induction s as [|c s IH]; intros n m.
  - destruct n, m; reflexivity.
  - destruct n as [|n]; destruct m as [|m]; simpl; try reflexivity.
    + by rewrite IH.
    + apply IH.
    + apply IH.
Qed.

Lemma hex_channels_upper s : Pptx.hex_channels (upper s) = Pptx.hex_channels s.
Proof.
  unfold Pptx.hex_channels, slice. rewrite !substring_upper, !int16_upper. reflexivity.
Qed.

Lemma is_rrggbb_inv code :
  is_rrggbb code = true ->
  exists c1 c2 c3 c4 c5 c6 d1 d2 d3 d4 d5 d6,
    code = String "#" (String c1 (String c2 (String c3 (String c4 (String c5
             (String c6 EmptyString))))))
    /\ hex_digit c1 = Some d1 /\ hex_digit c2 = Some d2 /\ hex_digit c3 = Some d3
    /\ hex_digit c4 = Some d4 /\ hex_digit c5 = Some d5 /\ hex_digit c6 = Some d6.
Proof.
  unfold is_rrggbb.
  destruct code as [|c0 [|c1 [|c2 [|c3 [|c4 [|c5 [|c6 [|c7 rest]]]]]]]]; simpl;
    try discriminate.
  unfold is_hex_digit.
  destruct (bool_decide (c0 = "#"%char)) eqn:E0; [|discriminate].
  apply bool_decide_eq_true in E0. subst c0.
  destruct (hex_digit c1) as [d1|] eqn:E1; [|discriminate].
  destruct (hex_digit c2) as [d2|] eqn:E2; [|discriminate].
  destruct (hex_digit c3) as [d3|] eqn:E3; [|discriminate].
  destruct (hex_digit c4) as [d4|] eqn:E4; [|discriminate].
  destruct (hex_digit c5) as [d5|] eqn:E5; [|discriminate].
  destruct (hex_digit c6) as [d6|] eqn:E6; [|discriminate].
  intros _. by exists c1, c2, c3, c4, c5, c6, d1, d2, d3, d4, d5, d6.
Qed.

(** X2.  For a code [#rrggbb], the upper-case text the deck shows under a
    swatch is again a code [#rrggbb] of seven characters, and it denotes the
    very colour the swatch is filled with: the parser reads lower-case and
    upper-case digits alike. *)
Theorem upper_code_same_colour (code : string) (Hcode : is_rrggbb code = true) :
  is_rrggbb (upper code) = true
  /\ String.length (upper code) = 7%nat
  /\ exists rgb, swatch_rgb code = Ok rgb /\ swatch_rgb (upper code) = Ok rgb.
Proof.
  destruct (is_rrggbb_inv _ Hcode)
    as (c1 & c2 & c3 & c4 & c5 & c6 & d1 & d2 & d3 & d4 & d5 & d6 & -> & H1 & H2 & H3 & H4 & H5 & H6).
  split; [|split].
  - unfold is_rrggbb. cbn [upper list_ascii_of_string].
    change (upper_ascii "#") with "#"%char.
    unfold is_hex_digit. cbn [forallb]. rewrite !hex_digit_upper, H1, H2, H3, H4, H5, H6.
    reflexivity.
  - reflexivity.
  - pose proof (six_digit_swatch "#" c1 c2 c3 c4 c5 c6 "" _ _ _ _ _ _
                  H1 H2 H3 H4 H5 H6) as Hsw.
    eexists. split; [exact Hsw|].
    unfold swatch_rgb. rewrite hex_channels_upper. exact Hsw.
Qed.

Lemma upper_code_same_colour_witness :
  is_rrggbb "#1a6ef5" = true
  /\ is_rrggbb (upper "#1a6ef5") = true
  /\ exists rgb, swatch_rgb "#1a6ef5" = Ok rgb /\ swatch_rgb (upper "#1a6ef5") = Ok rgb.
Proof.
  assert (H : is_rrggbb "#1a6ef5" = true) by reflexivity.
  split; [exact H|].
  destruct (upper_code_same_colour "#1a6ef5" H) as (Hup & _ & Hrgb).
  split; [exact Hup|exact Hrgb].
Defined.

(** X3.  A code of five characters or fewer leaves the slice
    [hex_code[5:7]] (or an earlier one) empty: the parse raises
    [ValueError], and so does the making of the swatch colour. *)
Theorem short_code_raises (code : string) (Hshort : (String.length code <= 5)%nat) :
  Pptx.hex_channels code = Raise ValueError
  /\ swatch_rgb code = Raise ValueError.
Proof.
  assert (H : Pptx.hex_channels code = Raise ValueError).
  { destruct code as [|c0 [|c1 [|c2 [|c3 [|c4 [|c5 rest]]]]]]; simpl in Hshort; try lia;
      unfold Pptx.hex_channels, slice, int16; cbn [substring Nat.sub int16_from];
      repeat (match goal with
              | |- context [hex_digit ?c] => destruct (hex_digit c)
              end; cbn [int16_from result_bind]);
      reflexivity. }
  split; [exact H|]. unfold swatch_rgb. rewrite H. reflexivity.
Qed.

Lemma short_code_raises_witness :
  (String.length "#1a6e" <= 5)%nat /\ swatch_rgb "#1a6e" = Raise ValueError.
Proof.
  assert (H : (String.length "#1a6e" <= 5)%nat) by (simpl; lia).
  split; [exact H|exact (proj2 (short_code_raises "#1a6e" H))].
Defined.

Lemma is_rrggbb_swatch_ok code : is_rrggbb code = true -> exists rgb, swatch_rgb code = Ok rgb.
Proof.
  intros H. destruct (is_rrggbb_inv _ H)
    as (c1 & c2 & c3 & c4 & c5 & c6 & d1 & d2 & d3 & d4 & d5 & d6 & -> & H1 & H2 & H3 & H4 & H5 & H6).
  eexists. exact (six_digit_swatch "#" c1 c2 c3 c4 c5 c6 "" _ _ _ _ _ _
                    H1 H2 H3 H4 H5 H6).
Qed.

Lemma int16_from_Some s : forall acc,
  forallb is_hex_digit (list_ascii_of_string s) = true -> exists n, int16_from acc s = Some n.
Proof.
  induction s as [|c s IH]; intros acc H; simpl in *; [by eexists|].
  apply andb_true_iff in H as [Hc Hs]. unfold is_hex_digit in Hc.
  destruct (hex_digit c); [|discriminate]. by apply IH.
Qed.

Lemma is_rrggbb_hex_ok code : is_rrggbb code = true -> hex_ok code.
Proof.
  intros H. unfold is_rrggbb in H.
  destruct code as [|c0 [|c1 [|c2 [|c3 [|c4 [|c5 [|c6 [|c7 rest]]]]]]]]; simpl in H;
    try discriminate.
  apply andb_true_iff in H as [H0 Hd]. apply bool_decide_eq_true in H0. subst c0.
  unfold hex_ok, Pdf.HexColor_of. cbn [String.prefix String.length substring].
  unfold Pdf.is_hex, int16.
  destruct (int16_from_Some (String c1 (String c2 (String c3 (String c4 (String c5
              (String c6 EmptyString)))))) 0 Hd) as [n ->].
  reflexivity.
Qed.

Lemma flat_map_length_const {A B} (f : A -> list B) (k : nat) (l : list A) :
  Forall (fun x => length (f x) = k) l -> length (flat_map f l) = (k * length l)%nat.
Proof.
  induction 1 as [|x l Hx _ IH]; simpl; [lia|]. rewrite length_app, Hx, IH. lia.
Qed.

Lemma forallb_Forall_snd {A} (P : A -> bool) (Q : A -> Prop) (l : list A) :
  (forall x, P x = true -> Q x) -> forallb P l = true -> Forall Q l.
Proof.
  intros HPQ. induction l as [|x l IH]; simpl; [constructor|].
  intros H. apply andb_true_iff in H as [Hx Hl]. constructor; auto.
Qed.

Lemma swatch_shapes_count (f : Z * (string * string) -> list Pptx.Shape) (k : nat)
    (codes : list (string * string)) :
  (forall i code label rgb, swatch_rgb code = Ok rgb -> length (f (i, (code, label))) = k) ->
  Forall swatch_ok codes ->
  length (flat_map f (enumerate codes)) = (k * length codes)%nat.
Proof.
  intros Hf Hok.
  assert (Hlen : forall (l : list (string * string)) n, length (enumerate_from n l) = length l).
  { induction l as [|x l IH]; intros n; simpl; [done|by rewrite IH]. }
  rewrite <- (Hlen codes 0). apply flat_map_length_const.
  apply (enumerate_Forall swatch_ok) in Hok.
  eapply Forall_impl; [exact Hok|].
  intros [i [code label]] [rgb Hrgb]. simpl in Hrgb. by eapply Hf.
Qed.

(** X4.  Every palette loop of either generator accepts any list of codes
    of the form [#rrggbb], in either letter case: the PDF table is built
    with one row per triple after the header, and each loop of the deck
    adds three shapes per colour (brand blues) or two (logo, accent and
    emerald colours) to the slide. *)
Theorem palettes_accept_rrggbb
    (colors_list : list (string * string * string)) (swatch_size : pynum)
    (sw sh sx sy : Z) (codes : list (string * string)) (s : Pptx.Slide)
    (Htriples : forallb (fun triple => is_rrggbb (snd (fst triple))) colors_list = true)
    (Hcodes : forallb (fun entry => is_rrggbb (fst entry)) codes = true) :
  (exists t, Pdf.create_color_swatch_table colors_list swatch_size = Ok t
             /\ length (Pdf.data t) = S (length colors_list))
  /\ (exists s', Pptx.palette_brand_blues sw sh sx sy codes s = Ok (tt, s')
                 /\ length (Pptx.shapes s')
                    = (length (Pptx.shapes s) + 3 * length codes)%nat)
  /\ (exists s', Pptx.palette_logo_colors codes s = Ok (tt, s')
                 /\ length (Pptx.shapes s')
                    = (length (Pptx.shapes s) + 2 * length codes)%nat)
  /\ (exists s', Pptx.palette_accent_colors codes s = Ok (tt, s')
                 /\ length (Pptx.shapes s')
                    = (length (Pptx.shapes s) + 2 * length codes)%nat)
  /\ (exists s', Pptx.palette_emerald_colors codes s = Ok (tt, s')
                 /\ length (Pptx.shapes s')
                    = (length (Pptx.shapes s) + 2 * length codes)%nat).
Proof.
  assert (Hok3 : Forall triple_ok colors_list).
  { eapply forallb_Forall_snd; [|exact Htriples].
    intros [[name code] usage] H. by apply is_rrggbb_hex_ok. }
  assert (Hok : Forall swatch_ok codes).
  { eapply forallb_Forall_snd; [|exact Hcodes].
    intros [code label] H. by apply is_rrggbb_swatch_ok. }
  split; [|split; [|split; [|split]]].
  - eexists. split; [by apply create_color_swatch_table_spec|].
    cbn [Pdf.data length]. by rewrite length_map.
  - eexists. split; [by apply palette_brand_blues_spec|].
    unfold add_shapes. cbn [Pptx.shapes]. rewrite length_app. f_equal.
    apply swatch_shapes_count; [|done].
    intros i code label rgb Hrgb. unfold brand_blue_swatch. by rewrite Hrgb.
  - eexists. split; [by apply palette_logo_colors_spec|].
    unfold add_shapes. cbn [Pptx.shapes]. rewrite length_app. f_equal.
    apply swatch_shapes_count; [|done].
    intros i code label rgb Hrgb. unfold logo_swatch. by rewrite Hrgb.
  - eexists. split; [by apply palette_accent_colors_spec|].
    unfold add_shapes. cbn [Pptx.shapes]. rewrite length_app. f_equal.
    apply swatch_shapes_count; [|done].
    intros i code label rgb Hrgb. unfold accent_swatch. by rewrite Hrgb.
  - eexists. split; [by apply palette_emerald_colors_spec|].
    unfold add_shapes. cbn [Pptx.shapes]. rewrite length_app. f_equal.
    apply swatch_shapes_count; [|done].
    intros i code label rgb Hrgb. unfold emerald_swatch. by rewrite Hrgb.
Qed.

Lemma palettes_accept_rrggbb_witness :
  forallb (fun triple => is_rrggbb (snd (fst triple))) three_colors = true
  /\ forallb (fun entry => is_rrggbb (fst entry)) [("#142857", "950"); ("#1A6EF5", "600")]
     = true
  /\ exists t, Pdf.create_color_swatch_table three_colors 14%py = Ok t
            /\ length (Pdf.data t) = 4%nat.
Proof.
  split; [reflexivity|]. split; [reflexivity|].
  exact (proj1 (palettes_accept_rrggbb three_colors 14%py 0 0 0 0
                  [("#142857", "950"); ("#1A6EF5", "600")] Pptx.blank_slide
                  eq_refl eq_refl)).
Defined.

(** ** Cards that do not overlap *)

Lemma grid_cells_disjoint (C i j ox oy pitch_x pitch_y w h : Z) :
  0 < C -> 0 <= i -> 0 <= j -> i <> j -> 0 < w <= pitch_x -> 0 < h <= pitch_y ->
  ~ cards_overlap (ox + (i mod C) * pitch_x, oy + (i / C) * pitch_y)
                  (ox + (j mod C) * pitch_x, oy + (j / C) * pitch_y) w h.
Proof.
  intros HC Hi Hj Hij Hw Hh (H1 & H2 & H3 & H4). simpl in *.
  pose proof (Z.div_mod i C ltac:(lia)) as Ei.
  pose proof (Z.div_mod j C ltac:(lia)) as Ej.
  assert (Hcol : i mod C = j mod C) by nia.
  assert (Hrow : i / C = j / C) by nia.
  apply Hij. rewrite Ei, Ej, Hcol, Hrow. reflexivity.
Qed.

(** X5.  In the row-major grids of the deck (brand values, technical
    specifications, UI effects) and in the row of key figures, two
    different items never cover common ground: the cards of items [i] and
    [j], [i <> j], are disjoint whenever the card has a positive width and
    height (and the spacing of the row is not negative). *)
Theorem grid_cards_never_overlap (card_w card_h i j : Z)
    (card_width card_height start_x spacing card_y : Z)
    (Hi : 0 <= i) (Hj : 0 <= j) (Hij : i <> j)
    (Hw : 0 < card_w) (Hh : 0 < card_h)
    (Hwidth : 0 < card_width) (Hheight : 0 < card_height) (Hspacing : 0 <= spacing) :
  ~ cards_overlap (Pptx.brand_values_origin card_w card_h i)
                  (Pptx.brand_values_origin card_w card_h j) card_w card_h
  /\ ~ cards_overlap (Pptx.technical_origin card_w card_h i)
                     (Pptx.technical_origin card_w card_h j) card_w card_h
  /\ ~ cards_overlap (Pptx.effects_origin i) (Pptx.effects_origin j)
                     (Pptx.Inches 5.9) (Pptx.Inches 1.35)
  /\ ~ cards_overlap (start_x + i * (card_width + spacing), card_y)
                     (start_x + j * (card_width + spacing), card_y)
                     card_width card_height.
Proof.
  split; [|split; [|split]].
  - unfold Pptx.brand_values_origin.
    apply grid_cells_disjoint; try lia.
    + assert (0 < Pptx.Inches 0.3) by (vm_compute; reflexivity). lia.
    + assert (0 < Pptx.Inches 0.25) by (vm_compute; reflexivity). lia.
  - unfold Pptx.technical_origin.
    apply grid_cells_disjoint; try lia.
    + assert (0 < Pptx.Inches 0.25) by (vm_compute; reflexivity). lia.
    + assert (0 < Pptx.Inches 0.25) by (vm_compute; reflexivity). lia.
  - unfold Pptx.effects_origin.
    apply grid_cells_disjoint; try lia; vm_compute; split; congruence.
  - intros (H1 & H2 & _ & _). simpl in *. nia.
Qed.

Lemma grid_cards_never_overlap_witness :
  ~ cards_overlap (Pptx.brand_values_origin (Pptx.Inches 5.8) (Pptx.Inches 2.3) 0)
                  (Pptx.brand_values_origin (Pptx.Inches 5.8) (Pptx.Inches 2.3) 3)
                  (Pptx.Inches 5.8) (Pptx.Inches 2.3).
Proof.
  refine (proj1 (grid_cards_never_overlap (Pptx.Inches 5.8) (Pptx.Inches 2.3) 0 3
                   (Pptx.Inches 2.6) (Pptx.Inches 1.5) (Pptx.Inches 0.8) (Pptx.Inches 0.2)
                   (Pptx.Inches 3.3) _ _ _ _ _ _ _ _)); vm_compute; congruence.
Defined.

(** X6.  The gradient slide has room for six cards: the cards of two
    different items among the first six are disjoint, and from the seventh
    on an item lands exactly where the item three places before it is
    ([i + 3] on [i] for every [i >= 3]). *)
Theorem gradient_cards_wrap_after_six (card_w card_h start_y i j : Z)
    (Hw : 0 < card_w) (Hh : 0 < card_h) (Hi : 0 <= i) (Hij : i < j) (Hj : j < 6) :
  ~ cards_overlap (Pptx.gradients_origin card_w card_h start_y i)
                  (Pptx.gradients_origin card_w card_h start_y j) card_w card_h
  /\ forall k, 3 <= k ->
       Pptx.gradients_origin card_w card_h start_y (k + 3)
       = Pptx.gradients_origin card_w card_h start_y k.
Proof.
  assert (Hgx : 0 < Pptx.Inches 0.3) by (vm_compute; reflexivity).
  assert (Hgy : 0 < Pptx.Inches 0.55) by (vm_compute; reflexivity).
  split.
  - unfold Pptx.gradients_origin, cards_overlap. cbn [fst snd].
    set (gx := Pptx.Inches 0.3) in *. set (gy := Pptx.Inches 0.55) in *.
    set (x0 := Pptx.Inches 0.8). clearbody gx gy x0.
    intros (H1 & H2 & H3 & H4).
    assert (Hcases : i = 0 \/ i = 1 \/ i = 2 \/ i = 3 \/ i = 4) by lia.
    assert (Hcases' : j = 1 \/ j = 2 \/ j = 3 \/ j = 4 \/ j = 5) by lia.
    destruct Hcases as [-> | [-> | [-> | [-> | ->]]]];
      destruct Hcases' as [-> | [-> | [-> | [-> | ->]]]];
      try lia;
      repeat match goal with
             | H : context [Z.ltb ?a ?b] |- _ =>
                 let v := eval vm_compute in (Z.ltb a b) in change (Z.ltb a b) with v in H
             | H : context [Z.modulo ?a ?b] |- _ =>
                 let v := eval vm_compute in (Z.modulo a b) in
                 change (Z.modulo a b) with v in H
             end;
      cbv beta iota in H1, H2, H3, H4; nia.
  - intros k Hk. unfold Pptx.gradients_origin.
    replace (k + 3 <? 3) with false by (symmetry; apply Z.ltb_ge; lia).
    replace (k <? 3) with false by (symmetry; apply Z.ltb_ge; lia).
    replace ((k + 3) mod 3) with (k mod 3); [reflexivity|].
    replace (k + 3) with (k + 1 * 3) by lia. by rewrite Z_mod_plus_full.
Qed.

Lemma gradient_cards_wrap_after_six_witness :
  Pptx.gradients_origin (Pptx.Inches 5.8) (Pptx.Inches 0.7) (Pptx.Inches 1.65) 6
  = Pptx.gradients_origin (Pptx.Inches 5.8) (Pptx.Inches 0.7) (Pptx.Inches 1.65) 3.
Proof.
  refine (proj2 (gradient_cards_wrap_after_six (Pptx.Inches 5.8) (Pptx.Inches 0.7)
                   (Pptx.Inches 1.65) 0 1 _ _ _ _ _) 3 _); vm_compute; congruence.
Defined.

(** ** The slide helpers *)

Lemma appends_add_shapes {A} (helper : Pptx.SlideM A) s a added :
  helper s = Ok (a, add_shapes s added) -> appends (length added) helper s.
Proof.
  intros H. exists a, (add_shapes s added). split; [exact H|].
  split; [reflexivity|]. split; [reflexivity|]. by exists added.
Qed.

Lemma set_font_valid size_pt is_bold is_italic rgb name :
  valid_font_size size_pt ->
  Pptx.set_font size_pt is_bold is_italic rgb name
  = Ok (font_set size_pt is_bold is_italic rgb name).
Proof.
  intros (emu & Hemu & Hlo & Hhi). unfold Pptx.set_font, font_set, Pptx.Pt.
  fold (Pptx.Pt_of size_pt). rewrite Hemu. cbn [result_bind].
  replace (100 <=? Pptx.centipoints emu) with true by (symmetry; apply Z.leb_le; lia).
  replace (Pptx.centipoints emu <=? 400000) with true by (symmetry; apply Z.leb_le; lia).
  reflexivity.
Qed.

Lemma set_font_invalid size_pt emu is_bold is_italic rgb name :
  Pptx.Pt_of size_pt = Ok emu ->
  Pptx.centipoints emu < 100 \/ 400000 < Pptx.centipoints emu ->
  Pptx.set_font size_pt is_bold is_italic rgb name = Raise ValueError.
Proof.
  intros Hemu Hout. unfold Pptx.set_font. rewrite Hemu. cbn [result_bind].
  destruct Hout as [Hlo | Hhi].
  - replace (100 <=? Pptx.centipoints emu) with false by (symmetry; apply Z.leb_gt; lia).
    reflexivity.
  - replace (Pptx.centipoints emu <=? 400000) with false by (symmetry; apply Z.leb_gt; lia).
    by rewrite andb_false_r.
Qed.

Lemma bullet_paragraphs_valid size_pt rgb bullet_color spacing items :
  valid_font_size size_pt -> valid_font_size (size_pt - 2)%py ->
  0 <= spacing <= 20116800 ->
  Pptx.bullet_paragraphs size_pt rgb bullet_color spacing items
  = Ok (map (bullet_item size_pt rgb bullet_color spacing) items).
Proof.
  intros Hsize Hbullet Hspacing.
  induction items as [|item items IH]; [reflexivity|].
  cbn [Pptx.bullet_paragraphs map]. rewrite IH. unfold Pptx.bullet_paragraph.
  replace (0 <=? spacing) with true by (symmetry; apply Z.leb_le; lia).
  replace (spacing <=? 20116800) with true by (symmetry; apply Z.leb_le; lia).
  cbn [andb negb]. rewrite !set_font_valid by done. reflexivity.
Qed.

(** X7.  The slide helpers only add at the end of the slide:
    [add_shape_with_fill], [add_accent_bar] and [add_slide_number] add one
    shape, [add_footer_bar] three, and [add_logo_header] none when the logo
    file is absent, and none of these raises; [add_textbox] and
    [add_bullet_list] add one text box when the font sizes they set are
    valid (1 pt to 4000 pt, to the centipoint) and the spacing of the list
    is within 0..20116800 EMU.  The background, the notes and the shapes
    already there are left as they were. *)
Theorem helpers_only_append (LOGO_PATH : string)
    (left top width height number total spacing : Z) (fill_color : Pptx.RGBColor)
    (shape_type : Pptx.MSO_SHAPE) (text : string) (kws : list (Pptx.TextKw -> Pptx.TextKw))
    (items : list string) (size_pt : pynum) (bullet_color : option Pptx.RGBColor)
    (s : Pptx.Slide)
    (Hkws : valid_font_size (Pptx.font_size (Pptx.keywords kws)))
    (Hsize : valid_font_size size_pt)
    (Hbullet : valid_font_size (size_pt - 2)%py)
    (Hspacing : 0 <= spacing <= 20116800) :
  appends 1 (Pptx.add_shape_with_fill left top width height fill_color shape_type) s
  /\ appends 1 (Pptx.add_textbox left top width height text kws) s
  /\ appends 1 (Pptx.add_bullet_list left top width height items size_pt fill_color
                  bullet_color spacing) s
  /\ appends 1 (Pptx.add_accent_bar top fill_color height) s
  /\ appends 3 Pptx.add_footer_bar s
  /\ appends 1 (Pptx.add_slide_number number total) s
  /\ appends 0 (Pptx.add_logo_header LOGO_PATH false) s.
Proof.
  repeat split.
  - eapply (appends_add_shapes _ _ _ [_]). apply add_shape_with_fill_spec.
  - eapply (appends_add_shapes _ _ _ [_]). unfold Pptx.add_textbox. cbv zeta.
    unfold bind, lift. rewrite set_font_valid by done. reflexivity.
  - eapply (appends_add_shapes _ _ _ [_]). unfold Pptx.add_bullet_list.
    unfold bind, lift. rewrite bullet_paragraphs_valid by done. reflexivity.
  - eapply (appends_add_shapes _ _ _ [_]). unfold Pptx.add_accent_bar.
    rewrite step_fill. reflexivity.
  - eapply (appends_add_shapes _ _ _ [_; _; _]). unfold Pptx.add_footer_bar.
    slide_steps. reflexivity.
  - eapply (appends_add_shapes _ _ _ [_]). unfold Pptx.add_slide_number.
    slide_steps. reflexivity.
  - eapply (appends_add_shapes _ _ _ []). unfold Pptx.add_logo_header, when, ret.
    by rewrite add_shapes_nil.
Qed.

Lemma helpers_only_append_witness :
  valid_font_size (Pptx.font_size (Pptx.keywords [Pptx.kw_font_size 32; Pptx.kw_bold true]))
  /\ valid_font_size 14%py /\ valid_font_size (14 - 2)%py
  /\ 0 <= Pptx.Pt 6 <= 20116800
  /\ appends 1 (Pptx.add_textbox (Pptx.Inches 0.8) (Pptx.Inches 0.5) (Pptx.Inches 8)
                  (Pptx.Inches 0.7) "Logo" [Pptx.kw_font_size 32; Pptx.kw_bold true])
       Pptx.blank_slide
  /\ appends 1 (Pptx.add_bullet_list (Pptx.Inches 1) (Pptx.Inches 2) (Pptx.Inches 5)
                  (Pptx.Inches 3) ["one"; "two"] 14%py Pptx.TEXT_DARK None (Pptx.Pt 6))
       Pptx.blank_slide.
Proof.
  assert (H1 : valid_font_size
                 (Pptx.font_size (Pptx.keywords [Pptx.kw_font_size 32; Pptx.kw_bold true])))
    by (eexists; split; [vm_compute; reflexivity|vm_compute; split; congruence]).
  assert (H2 : valid_font_size 14%py)
    by (eexists; split; [vm_compute; reflexivity|vm_compute; split; congruence]).
  assert (H3 : valid_font_size (14 - 2)%py)
    by (eexists; split; [vm_compute; reflexivity|vm_compute; split; congruence]).
  assert (H4 : 0 <= Pptx.Pt 6 <= 20116800) by (vm_compute; split; congruence).
  split; [exact H1|]. split; [exact H2|]. split; [exact H3|]. split; [exact H4|].
  pose proof (helpers_only_append "logo.png" (Pptx.Inches 0.8) (Pptx.Inches 0.5)
                (Pptx.Inches 8) (Pptx.Inches 0.7) 3 12 (Pptx.Pt 6) Pptx.TEXT_DARK
                Pptx.RECTANGLE "Logo" [Pptx.kw_font_size 32; Pptx.kw_bold true]
                ["one"; "two"] 14%py None Pptx.blank_slide H1 H2 H3 H4)
    as (_ & Htext & _).
  pose proof (helpers_only_append "logo.png" (Pptx.Inches 1) (Pptx.Inches 2)
                (Pptx.Inches 5) (Pptx.Inches 3) 3 12 (Pptx.Pt 6) Pptx.TEXT_DARK
                Pptx.RECTANGLE "Logo" [Pptx.kw_font_size 32; Pptx.kw_bold true]
                ["one"; "two"] 14%py None Pptx.blank_slide H1 H2 H3 H4)
    as (_ & _ & Hlist & _).
  split; [exact Htext|exact Hlist].
Defined.

(** X8.  With valid font sizes (the text's and, two points smaller, the
    bullet's, each from 1 pt to 4000 pt) and a spacing within 0..20116800
    EMU, [add_bullet_list] makes one text box with one paragraph per item,
    in the order of the items: each has the spacing after it, a bullet run
    in the bullet colour (brand blue when none is given) and a run with the
    item in the text colour, the sizes and the spacing kept to the
    centipoint.  For no item the box keeps its single empty paragraph. *)
Theorem bullet_list_paragraphs (left top width height spacing : Z) (items : list string)
    (size_pt : pynum) (rgb : Pptx.RGBColor) (bullet_color : option Pptx.RGBColor)
    (s : Pptx.Slide)
    (Hsize : valid_font_size size_pt)
    (Hbullet : valid_font_size (size_pt - 2)%py)
    (Hspacing : 0 <= spacing <= 20116800) :
  exists paragraphs,
    Pptx.add_bullet_list left top width height items size_pt rgb bullet_color spacing s
    = Ok (length (Pptx.shapes s),
          add_shapes s [Pptx.TextBox left top width height true paragraphs])
    /\ length paragraphs = Nat.max 1 (length items)
    /\ (items = [] ->
        paragraphs = [ {| Pptx.p_alignment := None; Pptx.p_space_after := None;
                          Pptx.p_runs := [] |} ])
    /\ forall (i : nat) item, items !! i = Some item ->
         exists p, paragraphs !! i = Some p
           /\ Pptx.p_space_after p = Some (Pptx.Centipoints (Pptx.centipoints spacing))
           /\ map Pptx.run_text (Pptx.p_runs p) = ["●  "; item]
           /\ map (fun r => Pptx.f_size (Pptx.run_font r)) (Pptx.p_runs p)
              = [Pptx.Centipoints (Pptx.centipoints (Pptx.Pt (size_pt - 2)%py));
                 Pptx.Centipoints (Pptx.centipoints (Pptx.Pt size_pt))]
           /\ map (fun r => Pptx.f_color (Pptx.run_font r)) (Pptx.p_runs p)
              = [default Pptx.BLUE_PRIMARY bullet_color; rgb].
Proof.
  exists (match items with
          | [] => [ {| Pptx.p_alignment := None; Pptx.p_space_after := None;
                       Pptx.p_runs := [] |} ]
          | _ => map (bullet_item size_pt rgb bullet_color spacing) items
          end).
  split.
  { unfold Pptx.add_bullet_list. unfold bind, lift.
    rewrite bullet_paragraphs_valid by done. by destruct items. }
  destruct items as [|item0 items].
  - split; [reflexivity|]. split; [reflexivity|]. intros i item Hi. discriminate.
  - split; [rewrite length_map; cbn [length]; lia|].
    split; [discriminate|].
    intros i item Hi. eexists. split.
    + rewrite list_lookup_fmap, Hi. reflexivity.
    + repeat split.
Qed.

Lemma bullet_list_paragraphs_witness :
  valid_font_size 14%py /\ valid_font_size (14 - 2)%py /\ 0 <= Pptx.Pt 6 <= 20116800
  /\ exists paragraphs,
       Pptx.add_bullet_list (Pptx.Inches 1) (Pptx.Inches 2) (Pptx.Inches 5) (Pptx.Inches 3)
         ["one"; "two"] 14%py Pptx.TEXT_DARK None (Pptx.Pt 6) Pptx.blank_slide
       = Ok (0%nat, add_shapes Pptx.blank_slide
                      [Pptx.TextBox (Pptx.Inches 1) (Pptx.Inches 2) (Pptx.Inches 5)
                         (Pptx.Inches 3) true paragraphs])
       /\ length paragraphs = 2%nat.
Proof.
  assert (H2 : valid_font_size 14%py)
    by (eexists; split; [vm_compute; reflexivity|vm_compute; split; congruence]).
  assert (H3 : valid_font_size (14 - 2)%py)
    by (eexists; split; [vm_compute; reflexivity|vm_compute; split; congruence]).
  assert (H4 : 0 <= Pptx.Pt 6 <= 20116800) by (vm_compute; split; congruence).
  split; [exact H2|]. split; [exact H3|]. split; [exact H4|].
  destruct (bullet_list_paragraphs (Pptx.Inches 1) (Pptx.Inches 2) (Pptx.Inches 5)
              (Pptx.Inches 3) (Pptx.Pt 6) ["one"; "two"] 14%py Pptx.TEXT_DARK None
              Pptx.blank_slide H2 H3 H4) as (paragraphs & Hrun & Hlen & _).
  exists paragraphs. split; [exact Hrun|exact Hlen].
Defined.

(** X18.  What the slide helpers reject.  [add_textbox] raises
    [ValueError] when the size it is given converts to a length (of at most
    2^53 EMU either way) that is below 1 pt or above 4000 pt to the
    centipoint; [add_bullet_list] raises [ValueError] for a list with an
    item when its spacing is outside 0..20116800 EMU; and for a list
    without items it checks nothing: whatever the size and the spacing, it
    adds the text box with its empty paragraph. *)
Theorem invalid_sizes_raise (left top width height spacing emu : Z) (text item : string)
    (items : list string) (kws : list (Pptx.TextKw -> Pptx.TextKw)) (size_pt : pynum)
    (rgb : Pptx.RGBColor) (bullet_color : option Pptx.RGBColor) (s : Pptx.Slide)
    (Hemu : Pptx.Pt_of (Pptx.font_size (Pptx.keywords kws)) = Ok emu)
    (Hrange : - 2 ^ 53 <= emu <= 2 ^ 53)
    (Hout : Pptx.centipoints emu < 100 \/ 400000 < Pptx.centipoints emu)
    (Hspacing : spacing < 0 \/ 20116800 < spacing) :
  Pptx.add_textbox left top width height text kws s = Raise ValueError
  /\ Pptx.add_bullet_list left top width height (item :: items) size_pt rgb bullet_color
       spacing s = Raise ValueError
  /\ Pptx.add_bullet_list left top width height [] size_pt rgb bullet_color spacing s
     = Ok (length (Pptx.shapes s),
           add_shapes s [Pptx.TextBox left top width height true
                           [ {| Pptx.p_alignment := None; Pptx.p_space_after := None;
                                Pptx.p_runs := [] |} ]]).
Proof.
  split; [|split].
  - unfold Pptx.add_textbox. cbv zeta. unfold bind, lift.
    by rewrite (set_font_invalid _ emu).
  - unfold Pptx.add_bullet_list. unfold bind, lift.
    cbn [Pptx.bullet_paragraphs]. unfold Pptx.bullet_paragraph.
    replace ((0 <=? spacing) && (spacing <=? 20116800)) with false; [reflexivity|].
    symmetry. apply andb_false_iff.
    destruct Hspacing; [left; apply Z.leb_gt; lia|right; apply Z.leb_gt; lia].
  - reflexivity.
Qed.

Lemma invalid_sizes_raise_witness :
  Pptx.Pt_of (Pptx.font_size (Pptx.keywords [Pptx.kw_font_size 0.5])) = Ok 6350
  /\ Pptx.centipoints 6350 < 100
  /\ Pptx.add_textbox (Pptx.Inches 1) (Pptx.Inches 1) (Pptx.Inches 4) (Pptx.Inches 1)
       "small print" [Pptx.kw_font_size 0.5] Pptx.blank_slide
     = Raise ValueError.
Proof.
  assert (H1 : Pptx.Pt_of (Pptx.font_size (Pptx.keywords [Pptx.kw_font_size 0.5]))
               = Ok 6350) by (vm_compute; reflexivity).
  assert (H2 : Pptx.centipoints 6350 < 100) by (vm_compute; reflexivity).
  split; [exact H1|]. split; [exact H2|].
  refine (proj1 (invalid_sizes_raise (Pptx.Inches 1) (Pptx.Inches 1) (Pptx.Inches 4)
                   (Pptx.Inches 1) (-1) 6350 "small print" "item" []
                   [Pptx.kw_font_size 0.5] 14%py Pptx.TEXT_DARK None Pptx.blank_slide
                   H1 _ (or_introl H2) _)); [vm_compute; split; congruence|left; lia].
Defined.

Lemma step_outlined_when {B} l t w h c ty lc lw (k : Pptx.SlideM B) s :
  bind (Pptx.add_shape_with_fill l t w h c ty)
    (fun btn => bind (when true (bind (Pptx.set_line_color btn lc)
                                   (fun _ => Pptx.set_line_width btn lw)))
       (fun _ => k)) s
  = k (add_shapes s [outlined ty l t w h c lc lw]).
Proof.
  rewrite step_fill. destruct s as [bg shs nt].
  unfold when, bind, Pptx.set_line_color, Pptx.set_line_width, Pptx.set_shapes, add_shapes;
    simpl.
  rewrite !alter_snoc. reflexivity.
Qed.

Lemma step_skipped {B} l t w h c ty (body : nat -> Pptx.SlideM unit) (k : Pptx.SlideM B) s :
  bind (Pptx.add_shape_with_fill l t w h c ty)
    (fun btn => bind (when false (body btn)) (fun _ => k)) s
  = k (add_shapes s [filled ty l t w h c]).
Proof. rewrite step_fill. reflexivity. Qed.

Lemma button_emits entry s :
  (let '(i, (text, bg_color, text_color, label)) := entry in
   let x := Pptx.Inches 0.8 + i * Pptx.Inches 2.8 in
   let y := Pptx.Inches 1.8 in
   bind (Pptx.add_shape_with_fill x y (Pptx.Inches 2.4) (Pptx.Inches 0.55) bg_color
           Pptx.ROUNDED_RECTANGLE)
     (fun btn =>
        bind (when (bool_decide (bg_color = Pptx.WHITE))
                (bind (Pptx.set_line_color btn Pptx.BLUE_PRIMARY)
                   (fun _ => Pptx.set_line_width btn (Pptx.Pt 2))))
          (fun _ =>
             bind (Pptx.add_textbox x (y + Pptx.Pt 4) (Pptx.Inches 2.4) (Pptx.Inches 0.45)
                     text [Pptx.kw_font_size 13; Pptx.kw_bold true; Pptx.kw_color text_color;
                           Pptx.kw_alignment Pptx.CENTER])
               (fun _ =>
                  bind (Pptx.add_textbox x (y + Pptx.Inches 0.6) (Pptx.Inches 2.4)
                          (Pptx.Inches 0.2) label
                          [Pptx.kw_font_size 9; Pptx.kw_color Pptx.TEXT_MUTED;
                           Pptx.kw_alignment Pptx.CENTER])
                    (fun _ => ret tt))))) s
  = Ok (tt, add_shapes s (button_shapes entry)).
Proof.
  destruct entry as [i [[[text bg_color] text_color] label]].
  unfold button_shapes. cbv zeta.
  destruct (bool_decide (bg_color = Pptx.WHITE)).
  - rewrite step_outlined_when. slide_steps. reflexivity.
  - rewrite (step_skipped _ _ _ _ _ _
               (fun btn => bind (Pptx.set_line_color btn Pptx.BLUE_PRIMARY)
                             (fun _ => Pptx.set_line_width btn (Pptx.Pt 2)))).
    slide_steps. reflexivity.
Qed.

(** X9.  Each button of the buttons row adds three shapes, the rounded
    rectangle, its text and its label; the rectangle gets an outline (brand
    blue, 2 pt) exactly when the button's background is white, and the two
    text boxes never have one. *)
Theorem buttons_outlined_when_white
    (buttons : list (string * Pptx.RGBColor * Pptx.RGBColor * string)) (s : Pptx.Slide) :
  Pptx.buttons_row buttons s
  = Ok (tt, add_shapes s (flat_map button_shapes (enumerate buttons)))
  /\ forall i text bg_color text_color label,
       map has_outline (button_shapes (i, (text, bg_color, text_color, label)))
       = [bool_decide (bg_color = Pptx.WHITE); false; false].
Proof.
  split.
  - unfold Pptx.buttons_row. apply for_each_all. intros entry s0.
    rewrite <- button_emits.
    destruct entry as [i [[[text bg_color] text_color] label]]. reflexivity.
  - intros i text bg_color text_color label. unfold button_shapes. cbn [map].
    destruct (bool_decide (bg_color = Pptx.WHITE)); reflexivity.
Qed.

(** ** The deck as a whole *)

(** X10.  Whatever the token file and the clock, and with the logo file
    absent or there as an image the library loads, the deck build returns a
    presentation: 13.333 in by 7.5 in, twelve slides, every one with a
    solid background and with speaker notes.  (A logo file that exists but
    is no image is not among the runs [World] describes.) *)
Theorem deck_build_never_raises (LOGO_PATH : string) (w : World) :
  exists prs,
    Pptx.main LOGO_PATH w = Ok prs
    /\ Pptx.slide_width prs = Pptx.Inches 13.333
    /\ Pptx.slide_height prs = Pptx.Inches 7.5
    /\ length (Pptx.slides prs) = 12%nat
    /\ forallb (fun s => solid_background s && has_notes s) (Pptx.slides prs) = true.
Proof.
  apply returns_elim.
  destruct w as [file logo now]. unfold Pptx.main. cbn [logo_present clock].
  destruct logo; vm_compute; repeat split; reflexivity.
Qed.



(** X12.  With the logo file present, the only image file either
    generator places is [LOGO_PATH]: once on every slide and twice more on
    slide 3; twice in the tables of the PDF's story; once on the canvas of
    every page. *)
Theorem every_image_is_the_logo (LOGO_PATH OUTPUT_PATH : string) (file : tokens_file)
    (tokens : json) (now : datetime) (n : Z) :
  (exists prs,
      Pptx.main LOGO_PATH {| brand_tokens := file; logo_present := true; clock := now |}
      = Ok prs
      /\ map slide_pictures (Pptx.slides prs)
         = [[LOGO_PATH]; [LOGO_PATH]; [LOGO_PATH; LOGO_PATH; LOGO_PATH]]
           ++ replicate 9 [LOGO_PATH])
  /\ (exists story,
        story_of (Pdf.main LOGO_PATH OUTPUT_PATH (world_with tokens true now)) = Ok story
        /\ flat_map table_images (story_tables story) = [LOGO_PATH; LOGO_PATH])
  /\ (exists ops,
        canvas_of (Pdf.main LOGO_PATH OUTPUT_PATH (world_with tokens true now)) n = Ok ops
        /\ canvas_images ops = [LOGO_PATH]).
Proof.
  split; [|split].
  - apply returns_elim. vm_compute. reflexivity.
  - apply returns_elim. vm_compute. reflexivity.
  - apply returns_elim. rewrite canvas_of_main.
    destruct (n =? 1); vm_compute; reflexivity.
Qed.



(** X14.  Each page callback of the PDF, on any page, with or without the
    logo, saves the canvas state first, restores it last, and does neither
    in between: the canvas is handed back in the state it came in. *)
Theorem page_callbacks_restore_canvas (LOGO_PATH OUTPUT_PATH : string) (tokens : json)
    (logo : bool) (now : datetime) (n : Z) :
  exists ops,
    canvas_of (Pdf.main LOGO_PATH OUTPUT_PATH (world_with tokens logo now)) n = Ok ops
    /\ head ops = Some Pdf.saveState
    /\ last ops = Some Pdf.restoreState
    /\ filter is_state_op ops = [Pdf.saveState; Pdf.restoreState].
Proof.
  apply returns_elim. rewrite canvas_of_main.
  destruct (n =? 1), logo; vm_compute; repeat split; reflexivity.
Qed.

(** X15.  The story the PDF build hands to the layout starts with a page
    break, so that the first page holds the cover alone, and every table of
    it (28 with the logo, 26 without) is rectangular: each row has one cell
    per column width. *)
Theorem story_tables_are_rectangular (LOGO_PATH OUTPUT_PATH : string) (tokens : json)
    (logo : bool) (now : datetime) :
  exists story,
    story_of (Pdf.main LOGO_PATH OUTPUT_PATH (world_with tokens logo now)) = Ok story
    /\ head story = Some Pdf.PageBreak
    /\ forallb table_rectangular (story_tables story) = true
    /\ length (story_tables story) = (if logo then 28 else 26)%nat.
Proof.
  apply returns_elim. destruct logo; vm_compute; repeat split; reflexivity.
Qed.

(** ** Errors in the PDF helpers *)

Lemma for_each_raises {S A} (body : A -> Prog S unit) (l1 l2 : list A) (x : A) (e : exn) :
  forall s s1,
    for_each l1 body s = Ok (tt, s1) -> body x s1 = Raise e ->
    for_each (l1 ++ x :: l2) body s = Raise e.
Proof.
  induction l1 as [|y l1 IH]; intros s s1 Hl1 Hx; simpl in *.
  - unfold ret in Hl1. injection Hl1 as <-. unfold bind. by rewrite Hx.
  - unfold bind in *. destruct (body y s) as [[[] s']|e']; [|discriminate].
    by eapply IH.
Qed.

Lemma enumerate_from_app {A} (l1 l2 : list A) : forall i,
  enumerate_from i (l1 ++ l2)
  = enumerate_from i l1 ++ enumerate_from (i + Z.of_nat (length l1)) l2.
Proof.
  induction l1 as [|x l1 IH]; intros i; simpl.
  - by rewrite Z.add_0_r.
  - rewrite IH. do 3 f_equal. lia.
Qed.

Lemma substring_all s : forall n, (String.length s <= n)%nat -> substring 0 n s = s.
Proof.
  induction s as [|c s IH]; intros n Hn; [by destruct n|].
  destruct n as [|n]; simpl in *; [lia|]. rewrite IH by lia. reflexivity.
Qed.

Lemma digitless_not_decimal c :
  is_hex_digit c = false ->
  (48 <=? nat_of_ascii c)%nat && (nat_of_ascii c <=? 57)%nat = false.
Proof.
  destruct c as [[] [] [] [] [] [] [] []]; vm_compute; congruence.
Qed.

(** What [HexColor] makes of a text without digits. *)
Lemma digitless_rejected code : digitless code = true -> Pdf.HexColor_of code = Raise ValueError.
Proof.
  unfold digitless. destruct code as [|c rest]; [reflexivity|].
  cbn [list_ascii_of_string forallb]. intros H.
  apply andb_true_iff in H as [Hc Hrest]. apply andb_true_iff in Hc as [_ Hc].
  apply negb_true_iff in Hc.
  unfold Pdf.HexColor_of.
  destruct (ascii_dec c "#") as [-> | Hhash].
  - assert (Hp : String.prefix "#" (String "#" rest) = true).
    { cbn [String.prefix]. destruct (ascii_dec "#" "#"); [by destruct rest|congruence]. }
    rewrite Hp.
    cbn [String.length substring]. rewrite substring_all by lia.
    unfold Pdf.is_hex, int16. destruct rest as [|c' rest']; [reflexivity|].
    cbn [list_ascii_of_string forallb] in Hrest.
    apply andb_true_iff in Hrest as [Hc' _]. apply andb_true_iff in Hc' as [_ Hc'].
    apply negb_true_iff in Hc'. unfold is_hex_digit in Hc'. cbn [int16_from].
    destruct (hex_digit c'); [discriminate|reflexivity].
  - assert (Hp : String.prefix "#" (String c rest) = false).
    { cbn [String.prefix]. destruct (ascii_dec "#" c) as [E|_]; [congruence|reflexivity]. }
    rewrite Hp.
    assert (H0x : forall (p : ascii) tail,
              String.prefix (String "0" (String p EmptyString)) tail = false
              \/ exists t, tail = String "0" t).
    { intros p [|a t]; [by left|]. cbn [String.prefix].
      destruct (ascii_dec "0" a) as [<-|_]; [right; by eexists|by left]. }
    assert (Hsub : forall p,
              String.prefix (String "0" (String p EmptyString))
                (substring 0 2 (String c rest)) = false).
    { intros p. cbn [substring]. cbn [String.prefix].
      destruct (ascii_dec "0" c) as [E|_]; [|reflexivity].
      subst c. discriminate. }
    rewrite (Hsub "x"%char), (Hsub "X"%char). cbn [orb].
    unfold Pdf.is_decimal. cbn [list_ascii_of_string forallb]. cbv zeta.
    rewrite (digitless_not_decimal c Hc). reflexivity.
Qed.

(** X16.  The edges of [create_gradient_drawing]: for an empty list of
    colours it raises [ZeroDivisionError], whatever the width; a width of
    0 (or 0.0) counts as no width, the content width being taken instead;
    and when the width divides by the number of colours, a text without
    any digit (a colour name, say) that follows colours [HexColor] accepts
    makes the call raise [ValueError] instead of returning a drawing. *)
Theorem gradient_drawing_edge_cases (colors good rest : list string) (bad label : string)
    (width : option pynum) (height segment_w : pynum)
    (Hgood : Forall hex_ok good)
    (Hbad : digitless bad = true)
    (Hdiv : py_truediv (Pdf.width_or width Pdf.CONTENT_WIDTH)
              (PInt (Z.of_nat (length (good ++ bad :: rest)))) = Ok segment_w) :
  Pdf.create_gradient_drawing [] label width height = Raise ZeroDivisionError
  /\ Pdf.create_gradient_drawing colors label (Some 0%py) height
     = Pdf.create_gradient_drawing colors label None height
  /\ Pdf.create_gradient_drawing colors label (Some 0.0%py) height
     = Pdf.create_gradient_drawing colors label None height
  /\ Pdf.create_gradient_drawing (good ++ bad :: rest) label width height
     = Raise ValueError.
Proof.
  split; [|split; [reflexivity|split; [reflexivity|]]].
  - unfold Pdf.create_gradient_drawing. cbn [length Z.of_nat].
    destruct (Pdf.width_or width Pdf.CONTENT_WIDTH); reflexivity.
  - unfold Pdf.create_gradient_drawing. rewrite Hdiv. cbn [result_bind].
    unfold exec, enumerate. unfold bind at 1.
    rewrite enumerate_from_app. cbn [enumerate_from].
    erewrite for_each_raises; [reflexivity| |].
    + apply pdf_band_loop. exact Hgood.
    + cbn beta iota. unfold bind, lift. rewrite (digitless_rejected _ Hbad). reflexivity.
Qed.

Lemma gradient_drawing_edge_cases_witness :
  Forall hex_ok ["#1a6ef5"]
  /\ digitless "sky" = true
  /\ py_truediv (Pdf.width_or None Pdf.CONTENT_WIDTH) (PInt 3)
     = Ok (Pdf.CONTENT_WIDTH / 3)%py
  /\ Pdf.create_gradient_drawing ["#1a6ef5"; "sky"; "#338dff"] "Hero" None 40%py
     = Raise ValueError.
Proof.
  assert (H1 : Forall hex_ok ["#1a6ef5"]) by (repeat constructor; vm_compute; reflexivity).
  assert (H2 : digitless "sky" = true) by (vm_compute; reflexivity).
  assert (H3 : py_truediv (Pdf.width_or None Pdf.CONTENT_WIDTH) (PInt 3)
               = Ok (Pdf.CONTENT_WIDTH / 3)%py) by (vm_compute; reflexivity).
  split; [exact H1|]. split; [exact H2|]. split; [exact H3|].
  exact (proj2 (proj2 (proj2
    (gradient_drawing_edge_cases [] ["#1a6ef5"] ["#338dff"] "sky" "Hero" None 40%py
       (Pdf.CONTENT_WIDTH / 3)%py H1 H2 H3)))).
Defined.


